(** * ML-Lab-of-Stocks: feature engineering and backtesting services

    A shallow embedding of the Python services

      - [python_backend/services/backtesting.py]      (BacktestingService)
      - [python_backend/services/models.py]           (ModelService: training,
                                                       forecasts, JSON export)
      - [StockPredict/python_backend/services/feature_engineering.py]
                                                      (FeatureEngineeringService)
      - [StockPredict/python_backend/services/stock_data.py]
                                                      (the cache of StockDataService)

    and the properties of the specification proved (or refuted) on it.

    Conventions of the embedding.

      - A Python [float] is a real number or NaN ([pyfloat]); float64
        rounding and overflow are idealised away, NaN is kept because the
        code produces and consumes it ([np.mean] of an empty list,
        undefined correlations, [fillna]).
      - A Python [dict] is an association list in insertion order
        ([dict]); assignment to an existing key keeps its position.
      - A raised exception is the [Raise] case of [result]; code that
        mutates shared dictionaries before raising is written in a state
        monad whose state survives the exception.
      - [numpy.random], the clock and the [ta]/[pandas] indicator library
        are interfaces (type classes); every theorem holds for all their
        implementations, and closed examples instantiate them. *)

From Stdlib Require Import Reals Lra Lia String List ZArith Bool Arith.
From Stdlib Require Import Permutation Sorted.
From Stdlib Require DecimalString.
Import ListNotations.

Open Scope string_scope.
Open Scope list_scope.
Open Scope R_scope.

(* ================================================================== *)
(** * Part I. Python values *)
(* ================================================================== *)

Module Py.

(** Exceptions the modelled code can raise. *)
Inductive exn : Type :=
  | ValueError (msg : string)
  | KeyError (key : string)
  | ZeroDivisionError.

(** [str(e)] *)
Definition str_exn (e : exn) : string :=
  match e with
  | ValueError msg => msg
  | KeyError key => String.append "'" (String.append key "'")
  | ZeroDivisionError => "float division by zero"
  end.

Inductive result (A : Type) : Type :=
  | Ok (a : A)
  | Raise (e : exn).
Arguments Ok {A} a.
Arguments Raise {A} e.

Definition bind {A B : Type} (m : result A) (k : A -> result B) : result B :=
  match m with
  | Ok a => k a
  | Raise e => Raise e
  end.

Definition is_ok {A : Type} (m : result A) : bool :=
  match m with Ok _ => true | Raise _ => false end.

(** [[f(x) for x in l]] where [f] may raise: evaluation is left to right
    and stops at the first exception. *)
Fixpoint mapM {A B : Type} (f : A -> result B) (l : list A) : result (list B) :=
  match l with
  | [] => Ok []
  | x :: l' =>
      bind (f x) (fun y => bind (mapM f l') (fun ys => Ok (y :: ys)))
  end.

(** A float: a real number or NaN. *)
Inductive pyfloat : Type :=
  | Fin (r : R)
  | NaN.

(** The value of [d.get(k, float("inf"))]: a float or +infinity. *)
Inductive pyfloat_inf : Type :=
  | Val (v : pyfloat)
  | PosInf.

Definition Rltb (a b : R) : bool := if Rlt_dec a b then true else false.
Definition Reqb (a b : R) : bool := if Req_dec_T a b then true else false.

(** [x < y] on floats: every comparison with NaN is False. *)
Definition py_lt (x y : pyfloat) : bool :=
  match x, y with
  | Fin a, Fin b => Rltb a b
  | _, _ => false
  end.

Definition py_gt (x y : pyfloat) : bool := py_lt y x.

Definition py_lt_inf (x y : pyfloat_inf) : bool :=
  match x, y with
  | Val a, Val b => py_lt a b
  | Val (Fin _), PosInf => true
  | _, _ => false
  end.

(** [a / b] on Python floats. *)
Definition py_div (a b : R) : result R :=
  if Req_dec_T b 0 then Raise ZeroDivisionError else Ok (a / b).

(** [x * 100], [1 - x], [np.sqrt(x)] on a float. *)
Definition pf_map (f : R -> R) (x : pyfloat) : pyfloat :=
  match x with
  | Fin r => Fin (f r)
  | NaN => NaN
  end.

(** [max(0, x)]: Python keeps the first argument unless a later one is
    strictly greater, so [max(0, nan)] is [0]. *)
Definition py_max0 (x : pyfloat) : R :=
  match x with
  | Fin r => if Rlt_dec 0 r then r else 0
  | NaN => 0
  end.

(** [min(l)] and [max(l)] with an explicit "strictly better" test:
    the running best is replaced only by a strictly better item, so the
    first of several equal items wins. [None] is the [ValueError] of an
    empty argument. *)
Fixpoint best_from {A : Type} (better : A -> A -> bool) (best : A) (l : list A) : A :=
  match l with
  | [] => best
  | x :: l' => best_from better (if better x best then x else best) l'
  end.

Definition py_best {A : Type} (better : A -> A -> bool) (l : list A) : option A :=
  match l with
  | [] => None
  | x :: l' => Some (best_from better x l')
  end.

Definition py_min (l : list pyfloat) : option pyfloat := py_best py_lt l.
Definition py_max (l : list pyfloat) : option pyfloat := py_best py_gt l.

(** [min(l, key=key)] *)
Definition py_min_by {A : Type} (key : A -> pyfloat_inf) (l : list A) : option A :=
  py_best (fun x best => py_lt_inf (key x) (key best)) l.

(** [min]/[max] of day numbers (dates compare like their ISO strings). *)
Definition Zmin_list (d : Z) (l : list Z) : Z := fold_left Z.min l d.
Definition Zmax_list (d : Z) (l : list Z) : Z := fold_left Z.max l d.

(** [l[a:b]] for [0 <= a <= b]. *)
Definition py_slice {A : Type} (l : list A) (a b : nat) : list A :=
  firstn (b - a) (skipn a l).

(** [range(start, stop, step)] for [step >= 1]. *)
Fixpoint range_from (fuel start stop step : nat) : list nat :=
  match fuel with
  | O => []
  | S fuel' =>
      if (start <? stop)%nat
      then start :: range_from fuel' (start + step) stop step
      else []
  end.

Definition py_range (start stop step : nat) : list nat :=
  range_from stop start stop step.

(** [str(n)] for a natural number. *)
Definition str_nat (n : nat) : string := DecimalString.NilEmpty.string_of_uint (Nat.to_uint n).

(** [x in l] for a list of strings. *)
Definition str_in (x : string) (l : list string) : bool :=
  existsb (String.eqb x) l.

(** ** numpy reductions *)

Definition Rsum (l : list R) : R := fold_right Rplus 0 l.

Definition mean_R (l : list R) : R := Rsum l / INR (length l).

(** [np.mean(l)]: NaN (with a warning, not an exception) on an empty list. *)
Definition np_mean (l : list R) : pyfloat :=
  match l with
  | [] => NaN
  | _ => Fin (mean_R l)
  end.

(** [np.std(l)]: the population standard deviation (ddof = 0). *)
Definition std_R (l : list R) : R :=
  sqrt (mean_R (map (fun x => (x - mean_R l) * (x - mean_R l)) l)).

Definition np_std (l : list R) : pyfloat :=
  match l with
  | [] => NaN
  | _ => Fin (std_R l)
  end.

(** The finite members of a float list, or [None] if one is NaN. *)
Fixpoint all_fin (l : list pyfloat) : option (list R) :=
  match l with
  | [] => Some []
  | Fin r :: l' => option_map (cons r) (all_fin l')
  | NaN :: _ => None
  end.

(** [np.mean] of a list of floats: NaN propagates. *)
Definition np_mean_f (l : list pyfloat) : pyfloat :=
  match all_fin l with
  | Some rs => np_mean rs
  | None => NaN
  end.

(** [round(x, 1)]: to the nearest tenth, ties to the even tenth. *)
Definition Zfloor (x : R) : Z := (up x - 1)%Z.

Definition round_half_even (x : R) : Z :=
  let f := Zfloor x in
  let d := x - IZR f in
  if Rlt_dec d (1 / 2) then f
  else if Rlt_dec (1 / 2) d then (f + 1)%Z
  else if Z.even f then f else (f + 1)%Z.

Definition py_round1 (x : R) : R := IZR (round_half_even (x * 10)) / 10.

(** ** dict *)

Definition dict (V : Type) : Type := list (string * V).

Section Dict.
Context {V : Type}.

Fixpoint dict_get (k : string) (d : dict V) : option V :=
  match d with
  | [] => None
  | (k', v) :: d' => if String.eqb k k' then Some v else dict_get k d'
  end.

(** [d[k] = v]: replaces in place, or appends a new key at the end. *)
Fixpoint dict_set (k : string) (v : V) (d : dict V) : dict V :=
  match d with
  | [] => [(k, v)]
  | (k', v') :: d' =>
      if String.eqb k k' then (k', v) :: d' else (k', v') :: dict_set k v d'
  end.

Definition dict_keys (d : dict V) : list string := map fst d.
Definition dict_values (d : dict V) : list V := map snd d.

Definition dict_mem (k : string) (d : dict V) : bool :=
  match dict_get k d with Some _ => true | None => false end.

(** [d[k]] *)
Definition dict_index (k : string) (d : dict V) : result V :=
  match dict_get k d with
  | Some v => Ok v
  | None => Raise (KeyError k)
  end.
End Dict.

End Py.
Import Py.

Notation "x <- c1 ;; c2" := (bind c1 (fun x => c2))
  (at level 61, c1 at next level, right associativity).
Notation "' pat <- c1 ;; c2" := (bind c1 (fun x => match x with pat => c2 end))
  (at level 61, pat pattern, c1 at next level, right associativity).

(* ================================================================== *)
(** * Part II. External interfaces *)
(* ================================================================== *)

(** [numpy.random]: the global generator state, [np.random.seed] and the
    two samplers used by the services. A sampler reads the state and
    returns the draw with the next state. *)
Class NumpyRandom : Type := {
  rng : Type;
  np_seed : Z -> rng;
  normal : R -> R -> rng -> R * rng;
  uniform : R -> R -> rng -> R * rng
}.

(** The documented range of [np.random.uniform(low, high)]. *)
Definition uniform_in_range `{NumpyRandom} : Prop :=
  forall (low high : R) (st : rng),
    low <= high -> low <= fst (uniform low high st) <= high.

(* ================================================================== *)
(** * Part III. The registries shared by the services *)
(* ================================================================== *)

Module Store.

(** The result of one trained model, as stored under
    [analysis_results[analysis_id]["models"][model_name]]. The constant
    ["parameters"] dictionary and the ["trained_at"] stamp are not
    represented. *)
Record ModelResult : Type := {
  mr_model_name : string;
  mr_status : string;
  mr_metrics : dict R
}.

(** The request object read by [train_models]. *)
Record TrainRequest : Type := {
  analysis_id : string;
  selected_models : list string
}.

(** [analysis_results[analysis_id]] *)
Record Analysis : Type := {
  models : dict ModelResult;
  request : TrainRequest;
  created_at : Z
}.

(** [training_jobs[analysis_id]["models"][model_name]] *)
Record ModelJob : Type := {
  mj_status : string;
  mj_progress : nat;
  mj_error : option string
}.

(** [training_jobs[analysis_id]] *)
Record Job : Type := {
  job_status : string;
  job_models : dict ModelJob;
  job_error : option string
}.

End Store.

(* ================================================================== *)
(** * Part IV. backtesting.py *)
(* ================================================================== *)

Module Backtesting.
Import Store.

Record AccuracyPoint : Type := {
  period : string;
  accuracy : R;
  end_date : Z
}.

Record BacktestResult : Type := {
  model_name : string;
  metrics : dict pyfloat;
  rolling_accuracy : list AccuracyPoint;
  total_predictions : nat;
  period_start : Z;
  period_end : Z
}.

Record OverallStats : Type := {
  summary_metrics : dict pyfloat;
  best_model : string;
  total_models : nat;
  evaluation_start : Z;
  evaluation_end : Z
}.

Record Parameters : Type := {
  p_period : string;
  p_rolling_window : string;
  p_forecast_horizon : string;
  p_metrics : list string
}.

(** The dictionary returned by [run_backtest]; [overall_stats = None] is
    the empty dictionary [_calculate_overall_stats] returns when it
    catches an exception. *)
Record BacktestOutput : Type := {
  out_analysis_id : string;
  backtest_results : dict BacktestResult;
  overall_stats : option OverallStats;
  parameters : Parameters;
  completed_at : Z
}.

(** ** _parse_period *)
Definition period_map : dict nat :=
  [ ("1 Day", 1); ("7 Days", 7); ("30 Days", 30); ("1 Week", 7);
    ("2 Weeks", 14); ("1 Month", 30); ("2 Months", 60);
    ("Last 3 Months", 90); ("Last 6 Months", 180); ("Last 1 Year", 365);
    ("Last 2 Years", 730) ]%nat.

Definition _parse_period (period_str : string) : nat :=
  match dict_get period_str period_map with
  | Some days => days
  | None => 30%nat
  end.

(** ** The metric formulas of _backtest_model *)

Definition nonzero (a : R) : bool := negb (Reqb a 0).

(** [[abs((a - p) / a) for a, p in zip(actual, predicted) if a != 0]] *)
Definition abs_pct_errors (actual predicted : list R) : list R :=
  map (fun ap => Rabs ((fst ap - snd ap) / fst ap))
      (filter (fun ap => nonzero (fst ap)) (combine actual predicted)).

(** [np.mean(prediction_errors)] *)
Definition mae_metric (prediction_errors : list R) : pyfloat :=
  np_mean prediction_errors.

(** [np.sqrt(np.mean([(a - p) ** 2 for a, p in zip(...)]))] *)
Definition rmse_metric (actual predicted : list R) : pyfloat :=
  pf_map sqrt
    (np_mean (map (fun ap => (fst ap - snd ap) * (fst ap - snd ap))
                  (combine actual predicted))).

(** [np.mean([...]) * 100] *)
Definition mape_metric (actual predicted : list R) : pyfloat :=
  pf_map (fun mape => mape * 100) (np_mean (abs_pct_errors actual predicted)).

(** [[(p / a - 1) for a, p in zip(actual_prices[:-1], actual_prices[1:])]] *)
Definition period_returns (actual_prices : list R) : result (list R) :=
  mapM (fun ap => q <- py_div (snd ap) (fst ap) ;; Ok (q - 1))
       (combine (removelast actual_prices) (tl actual_prices)).

(** The Sharpe branch, given the returns. *)
Definition sharpe_of_returns (returns : list R) : R :=
  if (1 <? length returns)%nat && py_gt (np_std returns) (Fin 0)
  then mean_R returns / std_R returns * sqrt 252
  else 0.

Definition sharpe_metric (actual_prices : list R) : result pyfloat :=
  returns <- period_returns actual_prices ;;
  Ok (Fin (sharpe_of_returns returns)).

(** [metrics_results], filled in the order mae, rmse, mape, sharpe. *)
Definition compute_metrics (requested : list string)
    (actual_prices predicted_prices prediction_errors : list R)
    : result (dict pyfloat) :=
  let m0 : dict pyfloat := [] in
  let m1 := if str_in "mae" requested
            then dict_set "mae" (mae_metric prediction_errors) m0 else m0 in
  let m2 := if str_in "rmse" requested
            then dict_set "rmse" (rmse_metric actual_prices predicted_prices) m1
            else m1 in
  let m3 := if str_in "mape" requested
            then dict_set "mape" (mape_metric actual_prices predicted_prices) m2
            else m2 in
  if str_in "sharpe" requested
  then sharpe <- sharpe_metric actual_prices ;; Ok (dict_set "sharpe" sharpe m3)
  else Ok m3.

(** ** _calculate_rolling_accuracy *)

Definition window : nat := 7.

(** [max(0, 1 - mape) * 100] for one window. *)
Definition window_accuracy (window_actual window_predicted : list R) : R :=
  let mape := np_mean (abs_pct_errors window_actual window_predicted) in
  py_max0 (pf_map (fun m => 1 - m) mape) * 100.

Definition accuracy_point (today : Z) (actual predicted : list R)
    (trend_len i : nat) : AccuracyPoint :=
  {| period := String.append "Week " (str_nat (trend_len + 1));
     accuracy :=
       py_round1 (window_accuracy (py_slice actual (i - window) i)
                                  (py_slice predicted (i - window) i));
     end_date := (today - Z.of_nat (length actual - i))%Z |}.

Definition _calculate_rolling_accuracy (today : Z) (actual predicted : list R)
    : list AccuracyPoint :=
  fold_left
    (fun accuracy_trend i =>
       accuracy_trend
         ++ [accuracy_point today actual predicted (length accuracy_trend) i])
    (py_range window (length actual) window)
    [].

(** ** _backtest_model *)

Section Model.
Context `{NumpyRandom}.

(** [np.random.normal(loc, scale)] raises [ValueError] on a negative
    scale. *)
Definition np_random_normal (loc scale : R) (st : rng) : result (R * rng) :=
  if Rlt_dec scale 0 then Raise (ValueError "scale < 0")
  else Ok (normal loc scale st).

(** The random walk of the mock actual prices, one step per date. *)
Fixpoint random_walk (n : nat) (current_price : R) (st : rng)
    : result (list R * rng) :=
  match n with
  | O => Ok ([], st)
  | S n' =>
      '(change, st1) <- np_random_normal (1 / 1000) (2 / 100) st ;;
      let current_price := current_price * (1 + change) in
      '(rest, st2) <- random_walk n' current_price st1 ;;
      Ok (current_price :: rest, st2)
  end.

(** The mock predictions: [(predicted_prices, prediction_errors)]. *)
Fixpoint mock_predictions (actual_prices : list R) (st : rng)
    : result ((list R * list R) * rng) :=
  match actual_prices with
  | [] => Ok (([], []), st)
  | actual :: rest =>
      '(error, st1) <- np_random_normal 0 (actual * (3 / 100)) st ;;
      let predicted := actual + error in
      '(pe, st2) <- mock_predictions rest st1 ;;
      Ok ((predicted :: fst pe, Rabs error :: snd pe), st2)
  end.

(** [len(dates)] for [pd.date_range(now - period_days, now, freq='D')]:
    both ends are included. *)
Definition n_dates (period_days : nat) : nat := S period_days.

(** [_backtest_model]. The generator state on entry is overwritten by
    [np.random.seed(42)]. The [try ... except: log; raise] wrapper
    re-raises unchanged. *)
Definition _backtest_model (today : Z) (model_name : string)
    (period_days window_days horizon_days : nat) (requested : list string)
    (st : rng) : result (BacktestResult * rng) :=
  let st := np_seed 42 in
  let base_price := 180 in
  '(actual_prices, st) <- random_walk (n_dates period_days) base_price st ;;
  '(pe, st) <- mock_predictions actual_prices st ;;
  let predicted_prices := fst pe in
  let prediction_errors := snd pe in
  metrics_results <-
    compute_metrics requested actual_prices predicted_prices prediction_errors ;;
  let rolling := _calculate_rolling_accuracy today actual_prices predicted_prices in
  Ok ({| model_name := model_name;
         metrics := metrics_results;
         rolling_accuracy := rolling;
         total_predictions := length actual_prices;
         period_start := (today - Z.of_nat period_days)%Z;
         period_end := today |}, st).
End Model.

(** ** _calculate_overall_stats *)

(** [all_metrics[name].append(value)], creating the list first if the
    name is new. *)
Definition dict_append (name : string) (value : pyfloat)
    (all_metrics : dict (list pyfloat)) : dict (list pyfloat) :=
  match dict_get name all_metrics with
  | Some values => dict_set name (values ++ [value]) all_metrics
  | None => dict_set name [value] all_metrics
  end.

Definition collect_metrics (results : dict BacktestResult) : dict (list pyfloat) :=
  fold_left
    (fun all_metrics kv =>
       fold_left (fun am mv => dict_append (fst mv) (snd mv) am)
                 (metrics (snd kv)) all_metrics)
    results [].

Definition is_error_metric (metric_name : string) : bool :=
  str_in metric_name ["mae"; "rmse"; "mape"]%string.

Definition best_value (metric_name : string) (values : list pyfloat)
    : option pyfloat :=
  if is_error_metric metric_name then py_min values else py_max values.

Definition summarise (all_metrics : dict (list pyfloat)) : option (dict pyfloat) :=
  fold_left
    (fun acc kv =>
       match acc, best_value (fst kv) (snd kv) with
       | Some avg_metrics, Some best =>
           Some (dict_set (String.append "best_" (fst kv)) best
                   (dict_set (String.append "avg_" (fst kv))
                             (np_mean_f (snd kv)) avg_metrics))
       | _, _ => None
       end)
    all_metrics (Some []).

(** [backtest_results[x]["metrics"].get("mape", float("inf"))] *)
Definition mape_key (results : dict BacktestResult) (x : string) : pyfloat_inf :=
  match dict_get x results with
  | Some r =>
      match dict_get "mape" (metrics r) with
      | Some v => Val v
      | None => PosInf
      end
  | None => PosInf
  end.

Definition _calculate_overall_stats (results : dict BacktestResult)
    : option OverallStats :=
  match summarise (collect_metrics results),
        py_min_by (mape_key results) (dict_keys results),
        map period_start (dict_values results),
        map period_end (dict_values results) with
  | Some avg_metrics, Some best, s :: starts, e :: ends =>
      Some {| summary_metrics := avg_metrics;
              best_model := best;
              total_models := length results;
              evaluation_start := Zmin_list s starts;
              evaluation_end := Zmax_list e ends |}
  | _, _, _, _ => None
  end.

(** ** run_backtest *)

Section Run.
Context `{NumpyRandom}.

(** The loop over [models.keys()], for any per-model evaluator (the
    method [self._backtest_model] is dispatched dynamically). There is
    no handler inside the loop: the first exception leaves it. *)
Fixpoint backtest_loop
    (evaluate : string -> rng -> result (BacktestResult * rng))
    (names : list string) (acc : dict BacktestResult) (st : rng)
    : result (dict BacktestResult * rng) :=
  match names with
  | [] => Ok (acc, st)
  | model_name :: rest =>
      '(model_results, st) <- evaluate model_name st ;;
      backtest_loop evaluate rest (dict_set model_name model_results acc) st
  end.

Definition run_backtest_with
    (evaluate : nat -> nat -> nat -> list string ->
                string -> rng -> result (BacktestResult * rng))
    (today : Z) (analysis_id period rolling_window forecast_horizon : string)
    (requested : list string) (analysis_results : dict Analysis) (st : rng)
    : result (BacktestOutput * rng) :=
  match dict_get analysis_id analysis_results with
  | None =>
      Raise (ValueError
               (String.append "Analysis " (String.append analysis_id " not found")))
  | Some analysis =>
      let period_days := _parse_period period in
      let window_days := _parse_period rolling_window in
      let horizon_days := _parse_period forecast_horizon in
      '(results, st) <-
        backtest_loop (evaluate period_days window_days horizon_days requested)
                      (dict_keys (models analysis)) [] st ;;
      Ok ({| out_analysis_id := analysis_id;
             backtest_results := results;
             overall_stats := _calculate_overall_stats results;
             parameters := {| p_period := period;
                              p_rolling_window := rolling_window;
                              p_forecast_horizon := forecast_horizon;
                              p_metrics := requested |};
             completed_at := today |}, st)
  end.

Definition run_backtest (today : Z) :=
  run_backtest_with
    (fun period_days window_days horizon_days requested model_name st =>
       _backtest_model today model_name period_days window_days horizon_days
                       requested st)
    today.
End Run.

End Backtesting.

(* ================================================================== *)
(** * Part V. models.py: train_models *)
(* ================================================================== *)

(** Module-level facts fixed when [models.py] is imported. *)
Class Imports : Type := {
  HAS_TENSORFLOW : bool
}.

Module Models.
Import Store.

Section Train.
Context `{NumpyRandom} `{Imports}.

(** The two registries passed to [train_models] (mutated in place by
    the code) and the generator state. *)
Record TrainState : Type := {
  training_jobs : dict Job;
  analysis_results : dict Analysis;
  rng_state : rng
}.

(** State and exceptions: the state reached when an exception is
    raised is kept, as the dictionaries are mutated in place. *)
Definition M (A : Type) : Type := TrainState -> result A * TrainState.

Definition ret {A : Type} (a : A) : M A := fun s => (Ok a, s).

Definition raise {A : Type} (e : exn) : M A := fun s => (Raise e, s).

Definition bindM {A B : Type} (m : M A) (k : A -> M B) : M B :=
  fun s =>
    match m s with
    | (Ok a, s') => k a s'
    | (Raise e, s') => (Raise e, s')
    end.

(** [try: m  except Exception as e: handler(e)] *)
Definition try_except {A : Type} (m : M A) (handler : exn -> M A) : M A :=
  fun s =>
    match m s with
    | (Ok a, s') => (Ok a, s')
    | (Raise e, s') => handler e s'
    end.

Fixpoint for_each {A : Type} (l : list A) (body : A -> M unit) : M unit :=
  match l with
  | [] => ret tt
  | x :: l' => bindM (body x) (fun _ => for_each l' body)
  end.

(** [training_jobs[analysis_id]] *)
Definition get_job (analysis_id : string) : M Job :=
  fun s =>
    match dict_get analysis_id (training_jobs s) with
    | Some job => (Ok job, s)
    | None => (Raise (KeyError analysis_id), s)
    end.

(** [training_jobs[analysis_id][field] = ...] *)
Definition set_job (analysis_id : string) (f : Job -> Job) : M unit :=
  fun s =>
    match dict_get analysis_id (training_jobs s) with
    | Some job =>
        (Ok tt,
         {| training_jobs := dict_set analysis_id (f job) (training_jobs s);
            analysis_results := analysis_results s;
            rng_state := rng_state s |})
    | None => (Raise (KeyError analysis_id), s)
    end.

(** [training_jobs[analysis_id]["models"][model_name][field] = ...] *)
Definition set_model_job (analysis_id model_name : string)
    (f : ModelJob -> ModelJob) : M unit :=
  bindM (get_job analysis_id) (fun job =>
    match dict_get model_name (job_models job) with
    | Some mj =>
        set_job analysis_id (fun job =>
          {| job_status := job_status job;
             job_models := dict_set model_name (f mj) (job_models job);
             job_error := job_error job |})
    | None => raise (KeyError model_name)
    end).

Definition with_status (status : string) (mj : ModelJob) : ModelJob :=
  {| mj_status := status; mj_progress := mj_progress mj; mj_error := mj_error mj |}.

Definition with_progress (progress : nat) (mj : ModelJob) : ModelJob :=
  {| mj_status := mj_status mj; mj_progress := progress; mj_error := mj_error mj |}.

Definition with_error (msg : string) (mj : ModelJob) : ModelJob :=
  {| mj_status := mj_status mj; mj_progress := mj_progress mj; mj_error := Some msg |}.

Definition job_with_status (status : string) (job : Job) : Job :=
  {| job_status := status; job_models := job_models job; job_error := job_error job |}.

Definition job_with_error (msg : string) (job : Job) : Job :=
  {| job_status := job_status job; job_models := job_models job; job_error := Some msg |}.

(** [analysis_results[analysis_id] = {"models": {}, ...}] *)
Definition init_results (now : Z) (request : TrainRequest) : M unit :=
  fun s =>
    (Ok tt,
     {| training_jobs := training_jobs s;
        analysis_results :=
          dict_set (analysis_id request)
                   {| models := []; request := request; created_at := now |}
                   (analysis_results s);
        rng_state := rng_state s |}).

(** [analysis_results[analysis_id]["models"][model_name] = model_result] *)
Definition store_result (analysis_id model_name : string)
    (model_result : ModelResult) : M unit :=
  fun s =>
    match dict_get analysis_id (analysis_results s) with
    | Some a =>
        (Ok tt,
         {| training_jobs := training_jobs s;
            analysis_results :=
              dict_set analysis_id
                {| models := dict_set model_name model_result (models a);
                   request := request a;
                   created_at := created_at a |}
                (analysis_results s);
            rng_state := rng_state s |})
    | None => (Raise (KeyError analysis_id), s)
    end.

(** One [np.random.uniform(low, high)] per metric of the literal
    ["metrics"] dictionary, in source order. *)
Fixpoint draw_metrics (ranges : list (string * (R * R))) (st : rng)
    : dict R * rng :=
  match ranges with
  | [] => ([], st)
  | (name, (low, high)) :: rest =>
      let (v, st1) := uniform low high st in
      let (d, st2) := draw_metrics rest st1 in
      ((name, v) :: d, st2)
  end.

Definition mock_result (name : string) (ranges : list (string * (R * R)))
    : M ModelResult :=
  fun s =>
    let (m, st) := draw_metrics ranges (rng_state s) in
    (Ok {| mr_model_name := name; mr_status := "completed"; mr_metrics := m |},
     {| training_jobs := training_jobs s;
        analysis_results := analysis_results s;
        rng_state := st |}).

Definition _train_arima : M ModelResult :=
  mock_result "arima"
    [ ("mae", (2, 4)); ("rmse", (3, 5)); ("mape", (15 / 10, 3));
      ("aic", (100, 200)); ("bic", (110, 210)) ].

Definition _train_prophet : M ModelResult :=
  mock_result "prophet"
    [ ("mae", (18 / 10, 35 / 10)); ("rmse", (25 / 10, 45 / 10));
      ("mape", (12 / 10, 28 / 10)); ("coverage", (85 / 100, 95 / 100)) ].

Definition _train_lstm : M ModelResult :=
  if negb HAS_TENSORFLOW
  then raise (ValueError "TensorFlow not available for LSTM training")
  else mock_result "lstm"
         [ ("mae", (22 / 10, 42 / 10)); ("rmse", (32 / 10, 52 / 10));
           ("mape", (18 / 10, 32 / 10)); ("val_loss", (1 / 100, 5 / 100)) ].

Definition _train_xgboost : M ModelResult :=
  mock_result "xgboost"
    [ ("mae", (25 / 10, 45 / 10)); ("rmse", (35 / 10, 55 / 10));
      ("mape", (2, 35 / 10)); ("r2_score", (7 / 10, 9 / 10)) ].

(** [_train_single_model]: the progress updates, then the dispatch on
    the model name. Its [except: log; raise] re-raises unchanged. *)
Definition _train_single_model (model_name analysis_id : string) : M ModelResult :=
  bindM
    (for_each (py_range 20 101 20) (fun progress =>
       set_model_job analysis_id model_name (with_progress progress)))
    (fun _ =>
       if String.eqb model_name "arima" then _train_arima
       else if String.eqb model_name "prophet" then _train_prophet
       else if String.eqb model_name "lstm" then _train_lstm
       else if String.eqb model_name "xgboost" then _train_xgboost
       else raise (ValueError (String.append "Unknown model: " model_name))).

(** The body of the loop over [request.selected_models], with its own
    handler. *)
Definition train_one (analysis_id model_name : string) : M unit :=
  try_except
    (bindM (set_model_job analysis_id model_name (with_status "training")) (fun _ =>
     bindM (set_model_job analysis_id model_name (with_progress 10)) (fun _ =>
     bindM (_train_single_model model_name analysis_id) (fun model_result =>
     bindM (store_result analysis_id model_name model_result) (fun _ =>
     bindM (set_model_job analysis_id model_name (with_status "completed")) (fun _ =>
     set_model_job analysis_id model_name (with_progress 100)))))))
    (fun e =>
       bindM (set_model_job analysis_id model_name (with_status "failed")) (fun _ =>
       set_model_job analysis_id model_name (with_error (str_exn e)))).

Definition all_finished (job : Job) : bool :=
  forallb (fun mj => str_in (mj_status mj) ["completed"; "failed"])
          (dict_values (job_models job)).

Definition train_models (now : Z) (request : TrainRequest) : M unit :=
  let analysis_id := analysis_id request in
  try_except
    (bindM (set_job analysis_id (job_with_status "training")) (fun _ =>
     bindM (init_results now request) (fun _ =>
     bindM (for_each (selected_models request) (train_one analysis_id)) (fun _ =>
     bindM (get_job analysis_id) (fun job =>
     if all_finished job
     then set_job analysis_id (job_with_status "completed")
     else ret tt)))))
    (fun e =>
       bindM (set_job analysis_id (job_with_status "failed")) (fun _ =>
       set_job analysis_id (job_with_error (str_exn e)))).
End Train.

End Models.

(* ================================================================== *)
(** * Part VI. feature_engineering.py *)
(* ================================================================== *)

Module FeatureEngineering.

(** One record of [stock_data["data"]]; an absent price is NaN. *)
Record PricePoint : Type := {
  date : Z;
  open : pyfloat;
  high : pyfloat;
  low : pyfloat;
  close : pyfloat;
  volume : pyfloat
}.

(** The frame [df], one row per record, indexed by date. *)
Definition DataFrame : Type := list PricePoint.
Definition column : Type := list pyfloat.

(** The indicators computed by the [ta] package and by pandas
    ([pct_change], [rolling], [np.log]): a call returns a column or
    raises. *)
Class IndicatorLibrary : Type := {
  indicator : string -> DataFrame -> result column
}.

(** The library's columns are aligned with the frame they are computed
    from. *)
Definition indicator_aligned `{IndicatorLibrary} : Prop :=
  forall (name : string) (df : DataFrame) (c : column),
    indicator name df = Ok c -> length c = length df.

Inductive log_entry : Type :=
  | LogWarning (msg : string)
  | LogError (msg : string).

Record FeatureInfo : Type := {
  name : string;
  values : column;
  description : string
}.

Record ImportanceEntry : Type := {
  feature : string;
  importance : R
}.

Record FeatureOutput : Type := {
  features : dict FeatureInfo;
  feature_importance : list ImportanceEntry;
  correlation_matrix : list (list R);
  selected_features : list string;
  ticker : string;
  generated_at : Z
}.

Definition feature_presets : dict (list string) :=
  [ ("basic", ["close"; "volume"; "sma_20"]);
    ("technical", ["close"; "rsi"; "macd"; "bollinger_upper"; "bollinger_lower";
                   "ema_12"; "ema_26"]);
    ("macro", ["close"; "gdp"; "cpi"; "interest_rates"]);
    ("fundamental", ["pe_ratio"; "market_cap"; "close"; "book_value"]);
    ("custom", []) ].

(** [df.sort_index()]: rows in ascending date order. *)
Fixpoint insert_by_date (p : PricePoint) (l : DataFrame) : DataFrame :=
  match l with
  | [] => [p]
  | q :: l' =>
      if (date q <=? date p)%Z then q :: insert_by_date p l' else p :: l
  end.

Definition sort_index (rows : list PricePoint) : DataFrame :=
  fold_right insert_by_date [] (rev rows).

(** ** _generate_feature *)

Definition price_columns : dict (PricePoint -> pyfloat) :=
  [ ("close", close); ("volume", volume); ("open", open);
    ("high", high); ("low", low) ].

Definition library_features : list string :=
  [ "sma_20"; "sma_50"; "ema_12"; "ema_26"; "rsi"; "macd"; "macd_signal";
    "macd_diff"; "bollinger_upper"; "bollinger_lower"; "bollinger_middle";
    "atr"; "stoch"; "williams_r"; "price_change"; "log_return"; "volatility";
    "volume_sma"; "volume_change" ].

(** The mock fundamental and macro constants. *)
Definition mock_constants : dict R :=
  [ ("pe_ratio", 205 / 10); ("market_cap", 1000000000);
    ("book_value", 152 / 10); ("gdp", 21 / 10); ("cpi", 32 / 10);
    ("interest_rates", 525 / 100) ].

Section Generate.
Context `{IndicatorLibrary}.

(** The [if/elif] chain: price columns, library indicators, mock
    constants, and the final [else] that warns and returns [None]. An
    exception of the library is logged and turned into [None]. *)
Definition _generate_feature (df : DataFrame) (feature : string)
    : option column * list log_entry :=
  match dict_get feature price_columns with
  | Some field => (Some (map field df), [])
  | None =>
      if str_in feature library_features then
        match indicator feature df with
        | Ok c => (Some c, [])
        | Raise e =>
            (None,
             [LogError (String.append "Error generating feature "
                          (String.append feature
                             (String.append ": " (str_exn e))))])
        end
      else
        match dict_get feature mock_constants with
        | Some c => (Some (repeat (Fin c) (length df)), [])
        | None => (None, [LogWarning (String.append "Unknown feature: " feature)])
        end
  end.
End Generate.

(** ** _get_feature_description *)
Definition descriptions : dict string :=
  [ ("close", "Daily closing price");
    ("volume", "Trading volume");
    ("open", "Daily opening price");
    ("high", "Daily high price");
    ("low", "Daily low price");
    ("sma_20", "20-day Simple Moving Average");
    ("sma_50", "50-day Simple Moving Average");
    ("ema_12", "12-day Exponential Moving Average");
    ("ema_26", "26-day Exponential Moving Average");
    ("rsi", "Relative Strength Index (14-day)");
    ("macd", "MACD Line");
    ("macd_signal", "MACD Signal Line");
    ("macd_diff", "MACD Histogram");
    ("bollinger_upper", "Bollinger Bands Upper");
    ("bollinger_lower", "Bollinger Bands Lower");
    ("bollinger_middle", "Bollinger Bands Middle");
    ("atr", "Average True Range");
    ("stoch", "Stochastic Oscillator");
    ("williams_r", "Williams %R");
    ("price_change", "Daily price change percentage");
    ("log_return", "Log returns");
    ("volatility", "20-day rolling volatility");
    ("volume_sma", "Volume Simple Moving Average");
    ("volume_change", "Volume change percentage");
    ("pe_ratio", "Price-to-Earnings Ratio");
    ("market_cap", "Market Capitalization");
    ("book_value", "Book Value per Share");
    ("gdp", "GDP Growth Rate");
    ("cpi", "Consumer Price Index");
    ("interest_rates", "Central Bank Interest Rates") ].

Definition _get_feature_description (feature : string) : string :=
  match dict_get feature descriptions with
  | Some d => d
  | None => String.append "Feature: " feature
  end.

(** ** _calculate_feature_importance *)
Definition importance_scores : dict R :=
  [ ("close", 85 / 100); ("volume", 45 / 100); ("sma_20", 72 / 100);
    ("rsi", 38 / 100); ("macd", 56 / 100); ("bollinger_upper", 41 / 100);
    ("bollinger_lower", 39 / 100); ("ema_12", 68 / 100); ("ema_26", 65 / 100) ].

(** [importance.sort(key=..., reverse=True)]: a stable sort into
    non-increasing order of the key. *)
Fixpoint insert_desc (x : ImportanceEntry) (l : list ImportanceEntry)
    : list ImportanceEntry :=
  match l with
  | [] => [x]
  | y :: l' =>
      if Rltb (importance x) (importance y) then y :: insert_desc x l' else x :: l
  end.

Definition sort_desc (l : list ImportanceEntry) : list ImportanceEntry :=
  fold_right insert_desc [] l.

Section Importance.
Context `{NumpyRandom}.

(** The loop over [features_data.keys()]. The default argument of
    [dict.get] is evaluated before the lookup, so every feature draws
    from the generator, whether its score is used or not. *)
Fixpoint score_features (names : list string) (st : rng)
    : list ImportanceEntry * rng :=
  match names with
  | [] => ([], st)
  | feature_name :: rest =>
      let (fallback, st1) := uniform (1 / 10) (9 / 10) st in
      let score :=
        match dict_get feature_name importance_scores with
        | Some s => s
        | None => fallback
        end in
      let (entries, st2) := score_features rest st1 in
      ({| feature := feature_name; importance := score |} :: entries, st2)
  end.

Definition _calculate_feature_importance (features_data : dict FeatureInfo)
    (st : rng) : list ImportanceEntry * rng :=
  let (entries, st') := score_features (dict_keys features_data) st in
  (sort_desc entries, st').
End Importance.

(** ** _calculate_correlation_matrix *)

(** The rows on which both columns hold a number (pandas computes each
    coefficient over the pairwise complete observations). *)
Fixpoint complete_pairs (x y : column) : list (R * R) :=
  match x, y with
  | Fin a :: x', Fin b :: y' => (a, b) :: complete_pairs x' y'
  | _ :: x', _ :: y' => complete_pairs x' y'
  | _, _ => []
  end.

Definition sum_sq_dev (l : list R) : R :=
  Rsum (map (fun a => (a - mean_R l) * (a - mean_R l)) l).

Definition sum_co_dev (ps : list (R * R)) : R :=
  Rsum (map (fun p => (fst p - mean_R (map fst ps)) * (snd p - mean_R (map snd ps))) ps).

(** One entry of [DataFrame.corr()] (Pearson, [min_periods = 1]): NaN
    when no row is complete or when the divisor is zero. *)
Definition pearson (x y : column) : pyfloat :=
  let ps := complete_pairs x y in
  if (length ps <? 1)%nat then NaN
  else
    let divisor := sqrt (sum_sq_dev (map fst ps) * sum_sq_dev (map snd ps)) in
    if Req_dec_T divisor 0 then NaN else Fin (sum_co_dev ps / divisor).

Definition corr (cols : list column) : list (list pyfloat) :=
  map (fun x => map (fun y => pearson x y) cols) cols.

(** [fillna(0)] *)
Definition fillna0 (v : pyfloat) : R :=
  match v with
  | Fin r => r
  | NaN => 0
  end.

(** The columns of [feature_df]: features with an empty value list are
    left out. *)
Definition frame_columns (features_data : dict FeatureInfo) : list column :=
  filter (fun c => negb (length c =? 0)%nat) (map values (dict_values features_data)).

(** Assigning a list whose length differs from the frame's index raises
    [ValueError]; the handler returns the empty list. *)
Definition same_length (cols : list column) : bool :=
  match cols with
  | [] => true
  | c :: rest => forallb (fun c' => (length c' =? length c)%nat) rest
  end.

Definition _calculate_correlation_matrix (features_data : dict FeatureInfo)
    : list (list R) :=
  let cols := frame_columns features_data in
  if negb (same_length cols) then []
  else
    match cols with
    | [] => []
    | _ => map (map fillna0) (corr cols)
    end.

(** ** generate_features *)

Section Service.
Context `{NumpyRandom} `{IndicatorLibrary}.

(** The loop over [features_to_generate], with the log it writes. *)
Fixpoint collect_features (df : DataFrame) (names : list string)
    (features_data : dict FeatureInfo) : dict FeatureInfo * list log_entry :=
  match names with
  | [] => (features_data, [])
  | feature :: rest =>
      let (feature_values, log1) := _generate_feature df feature in
      let features_data :=
        match feature_values with
        | Some vs =>
            dict_set feature
              {| name := feature; values := vs;
                 description := _get_feature_description feature |}
              features_data
        | None => features_data
        end in
      let (fd, log2) := collect_features df rest features_data in
      (fd, log1 ++ log2)
  end.

Definition features_to_generate (preset : string) (selected : list string)
    : list string :=
  if String.eqb preset "custom" then selected
  else match dict_get preset feature_presets with
       | Some l => l
       | None => []
       end.

(** [generate_features]: the clock reading [now] and the generator
    state are explicit. The result comes with the log; the outer
    handler logs and re-raises. *)
Definition generate_features (now : Z) (ticker preset : string)
    (selected : list string) (stock_data : option (list PricePoint))
    (st : rng) : result (FeatureOutput * rng) * list log_entry :=
  match stock_data with
  | None | Some [] =>
      (Raise (ValueError "Stock data is required for feature generation"),
       [LogError "Error generating features: Stock data is required for feature generation"])
  | Some rows =>
      let df := sort_index rows in
      let to_generate := features_to_generate preset selected in
      let (features_data, log) := collect_features df to_generate [] in
      let (importance, st') := _calculate_feature_importance features_data st in
      let correlation := _calculate_correlation_matrix features_data in
      (Ok ({| features := features_data;
              feature_importance := importance;
              correlation_matrix := correlation;
              selected_features := to_generate;
              ticker := ticker;
              generated_at := now |}, st'),
       log)
  end.
End Service.

End FeatureEngineering.

(* ================================================================== *)
(** * Part VII. backtesting.py: compare_models *)
(* ================================================================== *)

Module ModelComparison.

Record ComparisonEntry : Type := {
  model : string;
  score : R;
  rank : nat
}.

Record ComparisonOutput : Type := {
  metric : string;
  comparison : list ComparisonEntry;
  best_model : string
}.

Definition models : list string := ["Prophet"; "ARIMA"; "LSTM"; "XGBoost"].

(** [l.index(x)]: the position of the first item equal to [x]. [None]
    is the [ValueError] of an absent item. The method's handler catches
    every exception and returns [{}] without looking at it, so in this
    module a raised exception is the [None] of an option. *)
Fixpoint py_index (x : R) (l : list R) : option nat :=
  match l with
  | [] => None
  | y :: l' =>
      if Req_dec_T y x then Some 0%nat
      else option_map S (py_index x l')
  end.

(** [l.sort(key=lambda x: x["score"], reverse=reverse_sort)]: a stable
    sort; with [reverse=True] the order is non-increasing and items with
    equal scores still keep their original order. *)
Definition precedes (reverse_sort : bool) (x y : ComparisonEntry) : bool :=
  if reverse_sort then Rltb (score y) (score x) else Rltb (score x) (score y).

Fixpoint insert_entry (reverse_sort : bool) (x : ComparisonEntry)
    (l : list ComparisonEntry) : list ComparisonEntry :=
  match l with
  | [] => [x]
  | y :: l' =>
      if precedes reverse_sort y x then y :: insert_entry reverse_sort x l'
      else x :: l
  end.

Definition sort_entries (reverse_sort : bool) (l : list ComparisonEntry)
    : list ComparisonEntry :=
  fold_right (insert_entry reverse_sort) [] l.

Section Compare.
Context `{NumpyRandom}.

(** [[np.random.uniform(1, 5) for _ in models]] *)
Fixpoint draw_scores {A : Type} (l : list A) (st : rng) : list R * rng :=
  match l with
  | [] => ([], st)
  | _ :: l' =>
      let (v, st1) := uniform 1 5 st in
      let (vs, st2) := draw_scores l' st1 in
      (v :: vs, st2)
  end.

Definition scores_for (metric : string) (st : rng) : list R * rng :=
  if String.eqb metric "accuracy" then ([87; 84; 82; 79], st)
  else if String.eqb metric "mape" then ([18 / 10; 21 / 10; 23 / 10; 27 / 10], st)
  else if String.eqb metric "mae" then ([234 / 100; 256 / 100; 278 / 100; 302 / 100], st)
  else draw_scores models st.

(** The loop over [zip(models, scores)]. *)
Fixpoint build_comparison (pairs : list (string * R)) (scores : list R)
    : option (list ComparisonEntry) :=
  match pairs with
  | [] => Some []
  | (m, s) :: rest =>
      match py_index s scores with
      | None => None
      | Some i =>
          match build_comparison rest scores with
          | None => None
          | Some entries =>
              Some ({| model := m; score := s; rank := i + 1 |} :: entries)
          end
      end
  end.

(** [compare_models]: [None] is the [{}] returned by the handler. The
    argument [analysis_id] is not used by the method. *)
Definition compare_models (analysis_id metric : string) (st : rng)
    : option ComparisonOutput * rng :=
  let (scores, st') := scores_for metric st in
  (match build_comparison (combine models scores) scores with
   | None => None
   | Some entries =>
       let reverse_sort := String.eqb metric "accuracy" in
       match sort_entries reverse_sort entries with
       | [] => None
       | first :: rest =>
           Some {| metric := metric;
                   comparison := first :: rest;
                   best_model := model first |}
       end
   end, st').
End Compare.

End ModelComparison.

(* ================================================================== *)
(** * Part VIII. models.py: generate_forecast and export_json *)
(* ================================================================== *)

Module Forecast.
Import Store.

(** The exceptions of these methods: those of the other services and
    the [IndexError] of an index out of range. A computation returns
    ([inl]) or raises ([inr]). *)
Inductive error : Type :=
  | Std (e : exn)
  | IndexError (msg : string).

Definition fallible (A : Type) : Type := (A + error)%type.

Definition raised {A : Type} (e : error) : fallible A := inr e.

Definition and_then {A B : Type} (c : fallible A) (k : A -> fallible B) : fallible B :=
  match c with
  | inl a => k a
  | inr e => inr e
  end.

(** [l[i]] for a Python [int]: negative indices count from the end. *)
Definition py_getitem {A : Type} (l : list A) (i : Z) : fallible A :=
  let n := Z.of_nat (length l) in
  let j := if (i <? 0)%Z then (i + n)%Z else i in
  if (j <? 0)%Z then raised (IndexError "list index out of range")
  else match nth_error l (Z.to_nat j) with
       | Some x => inl x
       | None => raised (IndexError "list index out of range")
       end.

(** [max(l)] and [min(l)] of a list of floats. *)
Definition py_max_R (l : list R) : fallible R :=
  match l with
  | [] => raised (Std (ValueError "max() arg is an empty sequence"))
  | x :: l' => inl (fold_left Rmax l' x)
  end.

Definition py_min_R (l : list R) : fallible R :=
  match l with
  | [] => raised (Std (ValueError "min() arg is an empty sequence"))
  | x :: l' => inl (fold_left Rmin l' x)
  end.

(** [range(n)] for a Python [int]: empty when [n <= 0]. *)
Definition py_range_int (n : Z) : list Z := map Z.of_nat (seq 0 (Z.to_nat n)).

Record Prediction : Type := {
  date : Z;
  predicted : R;
  confidence_lower : R;
  confidence_upper : R
}.

Record Summary : Type := {
  start_price : R;
  end_price : R;
  total_return : R;
  max_price : R;
  min_price : R
}.

Record ForecastData : Type := {
  model_name : string;
  predictions : list Prediction;
  summary : Summary
}.

Record ForecastOutput : Type := {
  fc_analysis_id : string;
  forecasts : dict ForecastData;
  horizon : Z;
  generated_at : Z
}.

(** What [export_json] returns: one of two envelopes, or the stored
    analysis itself. *)
Inductive Export : Type :=
  | ForecastExport (analysis_id data_type : string)
                   (forecasts : dict ForecastData) (exported_at : Z)
  | FullExport (analysis_id data_type : string) (results : Analysis) (exported_at : Z)
  | StoredAnalysis (results : Analysis).

Definition base_price : R := 18672 / 100.
Definition noise_level : R := 2 / 100.

Section Forecast.
Context `{NumpyRandom}.

(** The loop of [_generate_mock_forecast]: one normal draw per day. *)
Fixpoint predict (trend : R) (days : list Z) (st : rng) : list R * rng :=
  match days with
  | [] => ([], st)
  | i :: rest =>
      let (noise, st1) := normal 0 noise_level st in
      let pred := base_price * (1 + trend * IZR i + noise) in
      let (preds, st2) := predict trend rest st1 in
      (pred :: preds, st2)
  end.

(** The list comprehension over [range(horizon)] that builds the
    ["predictions"] entries by indexing the four lists. *)
Fixpoint prediction_entries (days : list Z)
    (dates : list Z) (preds lower upper : list R) : fallible (list Prediction) :=
  match days with
  | [] => inl []
  | i :: rest =>
      and_then (py_getitem dates i) (fun d =>
      and_then (py_getitem preds i) (fun p =>
      and_then (py_getitem lower i) (fun lo =>
      and_then (py_getitem upper i) (fun up =>
      and_then (prediction_entries rest dates preds lower upper) (fun entries =>
      inl ({| date := d; predicted := p;
              confidence_lower := lo; confidence_upper := up |} :: entries))))))
  end.

(** [_generate_mock_forecast]; [today] is [datetime.now().date()] as a
    day number. The generator state is returned also when the method
    raises. *)
Definition _generate_mock_forecast (today : Z) (model_name : string) (horizon : Z)
    (st : rng) : fallible ForecastData * rng :=
  let dates := map (fun i => (today + i)%Z) (py_range_int horizon) in
  let (trend, st1) := uniform (- (1 / 100)) (2 / 100) st in
  let (preds, st2) := predict trend (py_range_int horizon) st1 in
  let lower := map (fun pred => pred - pred * (5 / 100)) preds in
  let upper := map (fun pred => pred + pred * (5 / 100)) preds in
  (and_then (prediction_entries (py_range_int horizon) dates preds lower upper)
     (fun entries =>
      and_then (py_getitem preds (-1)) (fun end_price =>
      and_then (py_getitem preds (-1)) (fun last =>
      and_then (py_max_R preds) (fun max_price =>
      and_then (py_min_R preds) (fun min_price =>
      inl {| model_name := model_name;
             predictions := entries;
             summary := {| start_price := base_price;
                           end_price := end_price;
                           total_return := (last - base_price) / base_price * 100;
                           max_price := max_price;
                           min_price := min_price |} |}))))),
   st2).

(** The loop of [generate_forecast] over [model_names], with the
    warnings it logs. The first exception leaves the loop. *)
Fixpoint forecast_loop (today : Z) (analysis_id : string) (stored : dict ModelResult)
    (model_names : list string) (horizon : Z) (forecasts : dict ForecastData)
    (st : rng) : fallible (dict ForecastData) * rng * list string :=
  match model_names with
  | [] => (inl forecasts, st, [])
  | model_name :: rest =>
      if negb (dict_mem model_name stored) then
        let '(r, st', log) :=
          forecast_loop today analysis_id stored rest horizon forecasts st in
        (r, st',
         String.append "Model "
           (String.append model_name
              (String.append " not found in analysis " analysis_id)) :: log)
      else
        match _generate_mock_forecast today model_name horizon st with
        | (inl forecast_data, st1) =>
            forecast_loop today analysis_id stored rest horizon
                          (dict_set model_name forecast_data forecasts) st1
        | (inr e, st1) => (inr e, st1, [])
        end
  end.

(** [generate_forecast]: [now] is the time stamp read at the end. Its
    handler logs and re-raises. *)
Definition generate_forecast (today now : Z) (analysis_id : string)
    (model_names : list string) (horizon : Z) (analysis_results : dict Analysis)
    (st : rng) : fallible ForecastOutput * rng * list string :=
  match dict_get analysis_id analysis_results with
  | None =>
      (raised (Std (ValueError (String.append "Analysis "
                                  (String.append analysis_id " not found")))),
       st, [])
  | Some analysis =>
      let '(r, st', log) :=
        forecast_loop today analysis_id (Store.models analysis) model_names horizon [] st in
      (and_then r (fun forecasts =>
         inl {| fc_analysis_id := analysis_id;
                forecasts := forecasts;
                horizon := horizon;
                generated_at := now |}),
       st', log)
  end.

(** The loop of [export_json] over the stored models. *)
Fixpoint export_loop (today : Z) (names : list string) (forecasts : dict ForecastData)
    (st : rng) : fallible (dict ForecastData) * rng :=
  match names with
  | [] => (inl forecasts, st)
  | model_name :: rest =>
      match _generate_mock_forecast today model_name 7 st with
      | (inl forecast, st1) =>
          export_loop today rest (dict_set model_name forecast forecasts) st1
      | (inr e, st1) => (inr e, st1)
      end
  end.

Definition export_json (today now : Z) (analysis_id data_type : string)
    (analysis_results : dict Analysis) (st : rng) : fallible Export * rng :=
  match dict_get analysis_id analysis_results with
  | None =>
      (raised (Std (ValueError (String.append "Analysis "
                                  (String.append analysis_id " not found")))),
       st)
  | Some analysis =>
      if String.eqb data_type "forecast" then
        let (r, st') := export_loop today (dict_keys (Store.models analysis)) [] st in
        (and_then r (fun forecasts =>
           inl (ForecastExport analysis_id data_type forecasts now)), st')
      else if String.eqb data_type "full" then
        (inl (FullExport analysis_id data_type analysis now), st)
      else (inl (StoredAnalysis analysis), st)
  end.
End Forecast.

End Forecast.

(* ================================================================== *)
(** * Part IX. stock_data.py: the cache of fetch_stock_data *)
(* ================================================================== *)

Module StockData.

(** A [datetime] is a number of microseconds; [D] is the type of the
    result dictionaries kept in the cache. *)
Record CacheEntry (D : Type) : Type := {
  data : D;
  timestamp : Z
}.
Arguments data {D} c.
Arguments timestamp {D} c.

(** [self.cache_ttl] *)
Definition cache_ttl : Z := 300.

Definition microseconds_per_day : Z := 86400000000.

(** [(a - b).seconds] for two datetimes: a [timedelta] is normalised to
    days, seconds and microseconds with [0 <= seconds < 86400], and
    [.seconds] is that component, not the total. *)
Definition timedelta_seconds (a b : Z) : Z :=
  (((a - b) mod microseconds_per_day) / 1000000)%Z.

Definition _is_cached {D : Type} (cache : dict (CacheEntry D)) (now : Z)
    (cache_key : string) : bool :=
  match dict_get cache_key cache with
  | None => false
  | Some entry => (timedelta_seconds now (timestamp entry) <? cache_ttl)%Z
  end.

Definition interval_map : dict string :=
  [ ("1 Minute", "1m"); ("5 Minutes", "5m"); ("15 Minutes", "15m");
    ("30 Minutes", "30m"); ("1 Hour", "1h"); ("1 Day", "1d");
    ("1 Week", "1wk"); ("1 Month", "1mo") ].

Definition _convert_interval (interval : string) : string :=
  match dict_get interval interval_map with
  | Some yf_interval => yf_interval
  | None => "1d"
  end.

(** [f"{ticker}_{start_date}_{end_date}_{yf_interval}"] *)
Definition make_cache_key (ticker start_date end_date yf_interval : string) : string :=
  String.append ticker
    (String.append "_"
       (String.append start_date
          (String.append "_"
             (String.append end_date (String.append "_" yf_interval))))).

Section Fetch.
Context {D : Type}.

(** The download from yfinance with the conversion of its rows and the
    quality metrics: it returns the result dictionary or raises. *)
Variable download :
  forall (ticker start_date end_date interval yf_interval : string), result D.

(** [fetch_stock_data]: [now] is the clock read by [_is_cached],
    [stored_at] the clock read when the result is cached. The cache is
    returned with the result. *)
Definition fetch_stock_data (cache : dict (CacheEntry D)) (now stored_at : Z)
    (ticker start_date end_date interval : string)
    : result D * dict (CacheEntry D) :=
  let yf_interval := _convert_interval interval in
  let cache_key := make_cache_key ticker start_date end_date yf_interval in
  if _is_cached cache now cache_key then
    (entry <- dict_index cache_key cache ;; Ok (data entry), cache)
  else
    match download ticker start_date end_date interval yf_interval with
    | Ok result =>
        (Ok result,
         dict_set cache_key {| data := result; timestamp := stored_at |} cache)
    | Raise e => (Raise e, cache)
    end.
End Fetch.

End StockData.

(* ================================================================== *)
(** * Part X. Vocabulary of the statements *)
(* ================================================================== *)

Module Spec.
Import Store Backtesting Models FeatureEngineering.

(** ** Metrics and aggregate statistics *)






(** The values of metric [m] over all models, in iteration order. *)
Definition metric_values (m : string) (results : dict BacktestResult) : list pyfloat :=
  flat_map
    (fun kv => map snd (filter (fun mv => String.eqb (fst mv) m) (metrics (snd kv))))
    results.

Definition avg_key (m : string) : string := String.append "avg_" m.
Definition best_key (m : string) : string := String.append "best_" m.

(** The error metrics of the specification: the best value of an error
    metric is the smallest one, that of any other metric the largest. *)
Definition error_metric (m : string) : Prop :=
  m = "mae" \/ m = "rmse" \/ m = "mape".

(** The MAPE of model [k]: the value its metrics hold under "mape", and
    +infinity when they hold none. *)
Definition mape_of (results : dict BacktestResult) (k : string) : pyfloat_inf :=
  match dict_get k results with
  | Some r =>
      match dict_get "mape" (metrics r) with
      | Some v => Val v
      | None => PosInf
      end
  | None => PosInf
  end.

(** Strictly below, on numbers and +infinity: a number is below a
    larger number and below +infinity; NaN is below nothing and nothing
    is below NaN. *)
Definition below (x y : pyfloat_inf) : Prop :=
  match x, y with
  | Val (Fin a), Val (Fin b) => a < b
  | Val (Fin _), PosInf => True
  | _, _ => False
  end.

(** No model reports NaN as its MAPE. *)
Definition mape_defined (results : dict BacktestResult) : Prop :=
  forall k, In k (dict_keys results) -> mape_key results k <> Val NaN.

Definition vals (m : string) (d : dict (list pyfloat)) : list pyfloat :=
  match dict_get m d with
  | Some l => l
  | None => []
  end.

Definition wf (d : dict (list pyfloat)) : Prop :=
  NoDup (dict_keys d) /\ forall k l, In (k, l) d -> l <> [].

Definition summarise_step (acc : option (dict pyfloat)) (kv : string * list pyfloat)
    : option (dict pyfloat) :=
  match acc, best_value (fst kv) (snd kv) with
  | Some avg_metrics, Some best =>
      Some (dict_set (best_key (fst kv)) best
              (dict_set (avg_key (fst kv)) (np_mean_f (snd kv)) avg_metrics))
  | _, _ => None
  end.

(** ** Results of the synthetic backtest *)

(** The same result under another model name. *)
Definition rename (name : string) (r : BacktestResult) : BacktestResult :=
  {| model_name := name;
     metrics := metrics r;
     rolling_accuracy := rolling_accuracy r;
     total_predictions := total_predictions r;
     period_start := period_start r;
     period_end := period_end r |}.

Definition rename_outcome {S : Type} (name : string)
    (o : result (BacktestResult * S)) : result (BacktestResult * S) :=
  match o with
  | Ok (r, st) => Ok (rename name r, st)
  | Raise e => Raise e
  end.

(** The results after a loop in which every model evaluates to [r]. *)
Definition all_renamed (r : BacktestResult) (names : list string)
    (acc : dict BacktestResult) : dict BacktestResult :=
  fold_left (fun acc n => dict_set n (rename n r) acc) names acc.

Definition renamed_dict (r : BacktestResult) (d : dict BacktestResult) : Prop :=
  forall k v, In (k, v) d -> v = rename k r.

(** ** Training jobs *)

Section Train.
Context `{NumpyRandom} `{Imports}.

(** The models [_train_single_model] can train. *)
Definition trainable (model_name : string) : bool :=
  String.eqb model_name "arima" || String.eqb model_name "prophet"
  || (String.eqb model_name "lstm" && HAS_TENSORFLOW)
  || String.eqb model_name "xgboost".

(** The message of the exception it raises for the others. *)
Definition failure_message (model_name : string) : string :=
  if String.eqb model_name "lstm"
  then "TensorFlow not available for LSTM training"
  else String.append "Unknown model: " model_name.

(** The entries of one analysis in the two registries. *)
Definition view (aid : string) (s : TrainState) (job : Job) (a : Analysis) : Prop :=
  dict_get aid (training_jobs s) = Some job /\
  dict_get aid (analysis_results s) = Some a.

(** [job'] is [job] except for the entry of model [m]. *)
Definition upd (m : string) (job job' : Job) : Prop :=
  dict_keys (job_models job') = dict_keys (job_models job) /\
  (forall m', m' <> m -> dict_get m' (job_models job') = dict_get m' (job_models job)).

(** What the registries say about model [m] once it has been handled:
    a trained model is completed and stored; a failed one is marked
    failed with the message of its exception and has no stored result. *)
Definition outcome (m : string) (job : Job) (a : Analysis) : Prop :=
  if trainable m
  then exists mj r,
         dict_get m (job_models job) = Some mj /\
         mj_status mj = "completed" /\ mj_progress mj = 100%nat /\
         dict_get m (models a) = Some r /\ mr_model_name r = m
  else exists mj,
         dict_get m (job_models job) = Some mj /\
         mj_status mj = "failed" /\ mj_error mj = Some (failure_message m) /\
         dict_get m (models a) = None.

(** Only trainable models have a stored result. *)
Definition stored_ok (a : Analysis) : Prop :=
  forall k, In k (dict_keys (models a)) -> trainable k = true.

End Train.

(** ** Feature tables *)

(** Non-increasing order of the importance score. *)
Definition desc (x y : ImportanceEntry) : Prop := importance y <= importance x.

(** The score of an entry: the fixed score of the lookup table, or a
    value of the fallback range. *)
Definition score_ok (e : ImportanceEntry) : Prop :=
  match dict_get (feature e) importance_scores with
  | Some s => importance e = s
  | None => 1 / 10 <= importance e <= 9 / 10
  end.

(** The names the [if/elif] chain of [_generate_feature] recognises. *)
Definition known_feature (feature : string) : bool :=
  dict_mem feature price_columns || str_in feature library_features
  || dict_mem feature mock_constants.

Definition unknown_warning (feature : string) : log_entry :=
  LogWarning (String.append "Unknown feature: " feature).

(** The entry stored for a generated feature. *)
Definition entry (feature : string) (c : column) : FeatureInfo :=
  {| name := feature; values := c; description := _get_feature_description feature |}.

(** Ascending date order of two rows. *)
Definition by_date (p q : PricePoint) : Prop := (date p <= date q)%Z.

(** The recognised feature names, kind by kind. A price feature is a
    field of the records. *)
Definition price_field (feature : string) : option (PricePoint -> pyfloat) :=
  if String.eqb feature "close" then Some close
  else if String.eqb feature "volume" then Some volume
  else if String.eqb feature "open" then Some open
  else if String.eqb feature "high" then Some high
  else if String.eqb feature "low" then Some low
  else None.

(** The moving averages, oscillators, volatility and volume measures
    computed by the indicator library. *)
Definition indicator_names : list string :=
  [ "sma_20"; "sma_50"; "ema_12"; "ema_26"; "rsi"; "macd"; "macd_signal";
    "macd_diff"; "bollinger_upper"; "bollinger_lower"; "bollinger_middle";
    "atr"; "stoch"; "williams_r"; "price_change"; "log_return"; "volatility";
    "volume_sma"; "volume_change" ].

(** The placeholder fundamental and macro features and their constant. *)
Definition placeholder_constant (feature : string) : option R :=
  if String.eqb feature "pe_ratio" then Some (205 / 10)
  else if String.eqb feature "market_cap" then Some 1000000000
  else if String.eqb feature "book_value" then Some (152 / 10)
  else if String.eqb feature "gdp" then Some (21 / 10)
  else if String.eqb feature "cpi" then Some (32 / 10)
  else if String.eqb feature "interest_rates" then Some (525 / 100)
  else None.

Definition recognised (feature : string) : bool :=
  match price_field feature, placeholder_constant feature with
  | None, None => str_in feature indicator_names
  | _, _ => true
  end.

(** The numbers of a column. *)
Fixpoint finite_values (x : column) : list R :=
  match x with
  | [] => []
  | Fin a :: x' => a :: finite_values x'
  | NaN :: x' => finite_values x'
  end.

(** A column whose numbers are all the same one (or that has none). *)
Definition constant_column (x : column) : Prop :=
  forall a b, In a (finite_values x) -> In b (finite_values x) -> a = b.

Definition swap (p : R * R) : R * R := (snd p, fst p).

(** Entry [(i, j)] of a matrix given as a list of rows. *)
Definition entry_at (M : list (list R)) (i j : nat) : R := nth j (nth i M []) 0.

(** Every column of the table has [n] values. *)
Definition aligned_table (n : nat) (fd : dict FeatureInfo) : Prop :=
  forall k v, In (k, v) fd -> length (values v) = n.

Definition columns_of (fd : dict FeatureInfo) : list column :=
  map values (dict_values fd).

End Spec.

(* ================================================================== *)
(** * Part XI. Implementations of the interfaces, sample data *)
(* ================================================================== *)

(** A generator that always returns the location (or the lower bound):
    an implementation of the interface for closed examples. *)
Definition constant_rng : NumpyRandom :=
  {| rng := unit;
     np_seed := fun _ => tt;
     normal := fun loc _ st => (loc, st);
     uniform := fun low _ st => (low, st) |}.

(** An import state without TensorFlow. *)
Definition no_tensorflow : Imports := {| HAS_TENSORFLOW := false |}.

(** A generator whose normal draws are all [-1]: the first step of the
    random walk brings the price to zero. *)
Definition zero_price_rng : NumpyRandom :=
  {| rng := unit;
     np_seed := fun _ => tt;
     normal := fun _ _ st => (-1, st);
     uniform := fun low _ st => (low, st) |}.

(** An indicator library none of whose calls succeeds (the package is
    not usable): an implementation of the interface for closed
    examples. *)
Definition failing_indicators : FeatureEngineering.IndicatorLibrary :=
  {| FeatureEngineering.indicator :=
       fun _ _ => Raise (ValueError "indicator unavailable") |}.

Module Samples.
Import Store Backtesting Models FeatureEngineering Spec.

Definition two_models : dict BacktestResult :=
  [ ("m1", {| model_name := "m1"; metrics := [("mae", Fin 2); ("mape", Fin 3)];
              rolling_accuracy := []; total_predictions := 0;
              period_start := 0; period_end := 1 |});
    ("m2", {| model_name := "m2"; metrics := [("mae", Fin 1); ("mape", Fin 3)];
              rolling_accuracy := []; total_predictions := 0;
              period_start := 0; period_end := 1 |}) ].

(** Three models: the smallest MAE is that of "m2", the largest Sharpe
    ratio that of "m2", the smallest MAPE is shared by "m1" and "m2". *)
Definition three_results : dict BacktestResult :=
  [ ("m1", {| model_name := "m1";
              metrics := [("mae", Fin 2); ("mape", Fin 3); ("sharpe", Fin 1)];
              rolling_accuracy := []; total_predictions := 0;
              period_start := 0; period_end := 1 |});
    ("m2", {| model_name := "m2";
              metrics := [("mae", Fin 1); ("mape", Fin 3); ("sharpe", Fin 2)];
              rolling_accuracy := []; total_predictions := 0;
              period_start := 0; period_end := 1 |});
    ("m3", {| model_name := "m3";
              metrics := [("mae", Fin 4); ("mape", Fin 5); ("sharpe", Fin 0)];
              rolling_accuracy := []; total_predictions := 0;
              period_start := 0; period_end := 1 |}) ].

Definition sample_analysis : Analysis :=
  {| models :=
       [ ("arima", {| mr_model_name := "arima"; mr_status := "completed";
                      mr_metrics := [] |});
         ("prophet", {| mr_model_name := "prophet"; mr_status := "completed";
                        mr_metrics := [] |}) ];
     request := {| analysis_id := "a1"; selected_models := ["arima"; "prophet"] |};
     created_at := 0 |}.

Definition fresh_entry : ModelJob :=
  {| mj_status := "pending"; mj_progress := 0; mj_error := None |}.

Definition three_jobs : Job :=
  {| job_status := "pending";
     job_models := [("arima", fresh_entry); ("lstm", fresh_entry); ("nope", fresh_entry)];
     job_error := None |}.

Definition three_request : TrainRequest :=
  {| analysis_id := "a1"; selected_models := ["arima"; "lstm"; "nope"] |}.

Definition three_state : @TrainState constant_rng :=
  @Build_TrainState constant_rng [("a1", three_jobs)] [] tt.

(** An evaluator that fails for model "m1" only. *)
Definition result_of (name : string) : BacktestResult :=
  {| model_name := name; metrics := [("mape", Fin 1)]; rolling_accuracy := [];
     total_predictions := 0; period_start := 0; period_end := 0 |}.

Definition failing_for_m1 (period_days window_days horizon_days : nat)
    (requested : list string) (name : string) (st : unit)
    : result (BacktestResult * unit) :=
  if String.eqb name "m1" then Raise (ValueError "evaluation failed")
  else Ok (result_of name, st).

Definition m1_m2 : Analysis :=
  {| models :=
       [ ("m1", {| mr_model_name := "m1"; mr_status := "completed"; mr_metrics := [] |});
         ("m2", {| mr_model_name := "m2"; mr_status := "completed"; mr_metrics := [] |}) ];
     request := {| analysis_id := "a1"; selected_models := ["m1"; "m2"] |};
     created_at := 0 |}.

Definition close_and_gdp : dict FeatureInfo :=
  [ ("gdp", {| name := "gdp"; values := [Fin (21 / 10)]; description := "GDP Growth Rate" |});
    ("close", {| name := "close"; values := [Fin 100]; description := "Daily closing price" |}) ].

Definition one_row : list PricePoint :=
  [ {| date := 1; open := Fin 10; high := Fin 12; low := Fin 9; close := Fin 11;
       volume := Fin 1000 |} ].

Definition two_rows : list PricePoint :=
  [ {| date := 1; open := Fin 10; high := Fin 12; low := Fin 9; close := Fin 11;
       volume := Fin 1000 |};
    {| date := 2; open := Fin 11; high := Fin 13; low := Fin 10; close := Fin 12;
       volume := Fin 1500 |} ].

End Samples.

(* ================================================================== *)
(** * Part XII. Vocabulary of the further properties *)
(* ================================================================== *)

Module MoreSpec.
Import Store Backtesting Models FeatureEngineering Spec.

(** The metrics [_backtest_model] knows, in the order it computes them. *)
Definition known_metrics : list string := ["mae"; "rmse"; "mape"; "sharpe"].

(** ** Training jobs: what a step leaves alone *)

Section Train.
Context `{NumpyRandom}.

(** What a computation of the training monad does to the state: [R s s']
    holds of every state [s] and the state [s'] it leaves behind. *)
Definition preserves {A : Type} (R : TrainState -> TrainState -> Prop) (m : M A)
    : Prop :=
  forall s, R s (snd (m s)).

(** No job is added or removed, and the entries of every other analysis
    are the same in both registries. *)
Definition others_kept (aid : string) (s s' : TrainState) : Prop :=
  dict_keys (training_jobs s') = dict_keys (training_jobs s) /\
  (forall aid', aid' <> aid ->
     dict_get aid' (training_jobs s') = dict_get aid' (training_jobs s) /\
     dict_get aid' (analysis_results s') = dict_get aid' (analysis_results s)).

(** Moreover the job of the analysis, if registered, stays registered
    with the same model names. *)
Definition entry_kept (aid : string) (s s' : TrainState) : Prop :=
  others_kept aid s s' /\
  (forall job, dict_get aid (training_jobs s) = Some job ->
     exists job', dict_get aid (training_jobs s') = Some job' /\
                  dict_keys (job_models job') = dict_keys (job_models job)).

(** Moreover the overall status and error of that job are the same. *)
Definition inner (aid : string) (s s' : TrainState) : Prop :=
  entry_kept aid s s' /\
  (forall job job', dict_get aid (training_jobs s) = Some job ->
     dict_get aid (training_jobs s') = Some job' ->
     job_status job' = job_status job /\ job_error job' = job_error job).

End Train.

(** A model job entry that is completed or failed. *)
Definition finished (mj : ModelJob) : bool :=
  str_in (mj_status mj) ["completed"; "failed"].

(** ** Feature tables *)

(** The names recognised by [_generate_feature], table by table. *)
Definition recognised_names : list string :=
  dict_keys price_columns ++ library_features ++ dict_keys mock_constants.

Definition generation_error (feature : string) (e : exn) : log_entry :=
  LogError (String.append "Error generating feature "
              (String.append feature (String.append ": " (str_exn e)))).

(** ** Model comparison *)

(** The order [compare_models] sorts into: non-increasing scores for
    "accuracy", non-decreasing scores otherwise. *)
Definition ordered (reverse_sort : bool) (x y : ModelComparison.ComparisonEntry)
    : Prop :=
  if reverse_sort then ModelComparison.score y <= ModelComparison.score x
  else ModelComparison.score x <= ModelComparison.score y.

(** ** Forecasts *)

(** The warning logged for a requested model without stored result. *)
Definition not_found_warning (analysis_id model_name : string) : string :=
  String.append "Model "
    (String.append model_name (String.append " not found in analysis " analysis_id)).

(** A forecast for [horizon] days from [today] under the name [name]:
    consecutive dates, a confidence band of 5 % of the prediction on
    each side, and a summary that agrees with the predictions. *)
Definition forecast_ok (today horizon : Z) (name : string) (f : Forecast.ForecastData)
    : Prop :=
  Forecast.model_name f = name /\
  map Forecast.date (Forecast.predictions f) =
    map (fun i => (today + i)%Z) (Forecast.py_range_int horizon) /\
  (forall p, In p (Forecast.predictions f) ->
     Forecast.confidence_lower p = Forecast.predicted p - Forecast.predicted p * (5 / 100) /\
     Forecast.confidence_upper p = Forecast.predicted p + Forecast.predicted p * (5 / 100)) /\
  Forecast.start_price (Forecast.summary f) = Forecast.base_price /\
  (exists ps p, Forecast.predictions f = ps ++ [p] /\
                Forecast.end_price (Forecast.summary f) = Forecast.predicted p) /\
  Forecast.total_return (Forecast.summary f) =
    (Forecast.end_price (Forecast.summary f) - Forecast.base_price)
    / Forecast.base_price * 100 /\
  (forall p, In p (Forecast.predictions f) ->
     Forecast.min_price (Forecast.summary f) <= Forecast.predicted p
     <= Forecast.max_price (Forecast.summary f)) /\
  (exists p, In p (Forecast.predictions f) /\
             Forecast.predicted p = Forecast.max_price (Forecast.summary f)) /\
  (exists p, In p (Forecast.predictions f) /\
             Forecast.predicted p = Forecast.min_price (Forecast.summary f)).

End MoreSpec.

(** A generator whose uniform draws descend from the upper bound:
    [high], [high - 1], [high - 2], ... *)
Definition descending_rng : NumpyRandom :=
  {| rng := nat;
     np_seed := fun _ => 0%nat;
     normal := fun loc _ st => (loc, st);
     uniform := fun _ high st => (high - INR st, S st) |}.

(* ================================================================== *)
(** * Part XIII. Facts about the Python layer *)
(* ================================================================== *)

Module PyFacts.

Lemma Rltb_true (a b : R) : Rltb a b = true <-> a < b.
Proof. unfold Rltb. destruct (Rlt_dec a b); split; intros; try easy. Qed.

Lemma Rltb_false (a b : R) : Rltb a b = false <-> b <= a.
Proof.
  unfold Rltb. destruct (Rlt_dec a b); split; intros; try easy; lra.
Qed.

Lemma Reqb_true (a b : R) : Reqb a b = true <-> a = b.
Proof. unfold Reqb. destruct (Req_dec_T a b); split; intros; easy. Qed.

Lemma Reqb_false (a b : R) : Reqb a b = false <-> a <> b.
Proof. unfold Reqb. destruct (Req_dec_T a b); split; intros; easy. Qed.

(** ** range *)

Lemma range_from_7 (fuel start stop : nat) :
  (stop - start <= fuel)%nat ->
  range_from fuel start stop 7 =
  map (fun k => (start + 7 * k)%nat) (seq 0 ((stop - start + 6) / 7)).
Proof.
  revert start stop.
  induction fuel as [|fuel IH]; intros start stop Hf; cbn [range_from].
  - replace ((stop - start + 6) / 7)%nat with 0%nat; [reflexivity|].
    symmetry. apply Nat.div_small. lia.
  - destruct (Nat.ltb_spec start stop) as [Hlt|Hge].
    + rewrite IH by lia.
      assert (E : ((stop - start + 6) / 7 = S ((stop - (start + 7) + 6) / 7))%nat).
      { pose proof (Nat.div_mod_eq (stop - start + 6) 7).
        pose proof (Nat.div_mod_eq (stop - (start + 7) + 6) 7).
        pose proof (Nat.mod_upper_bound (stop - start + 6) 7 ltac:(lia)).
        pose proof (Nat.mod_upper_bound (stop - (start + 7) + 6) 7 ltac:(lia)).
        lia. }
      rewrite E. cbn [seq map]. f_equal.
      * lia.
      * rewrite <- seq_shift, map_map. apply map_ext. intros k. lia.
    + replace ((stop - start + 6) / 7)%nat with 0%nat; [reflexivity|].
      symmetry. apply Nat.div_small. lia.
Qed.

(** [range(7, L, 7)] is [7, 14, ...], with [(L - 1) / 7] members. *)
Lemma py_range_7 (L : nat) :
  py_range 7 L 7 = map (fun k => (7 + 7 * k)%nat) (seq 0 ((L - 1) / 7)).
Proof.
  unfold py_range. rewrite range_from_7 by lia.
  replace ((L - 7 + 6) / 7)%nat with ((L - 1) / 7)%nat; [reflexivity|].
  pose proof (Nat.div_mod_eq (L - 7 + 6) 7).
  pose proof (Nat.div_mod_eq (L - 1) 7).
  pose proof (Nat.mod_upper_bound (L - 7 + 6) 7 ltac:(lia)).
  pose proof (Nat.mod_upper_bound (L - 1) 7 ltac:(lia)).
  lia.
Qed.

(** A loop that appends one item per iteration is a map over the
    iterations paired with their positions. *)
Lemma fold_left_append {A B : Type} (g : nat -> A -> B) (l : list A) (acc : list B) :
  fold_left (fun acc i => acc ++ [g (length acc) i]) l acc =
  acc ++ map (fun ki => g (fst ki) (snd ki)) (combine (seq (length acc) (length l)) l).
Proof.
  revert acc. induction l as [|x l IH]; intros acc; cbn [fold_left length seq combine map].
  - now rewrite app_nil_r.
  - rewrite IH. rewrite length_app. cbn [length].
    rewrite <- app_assoc. cbn [app fst snd].
    replace (length acc + 1)%nat with (S (length acc)) by lia. reflexivity.
Qed.

Lemma combine_seq_map {A : Type} (f : nat -> A) (s n : nat) :
  combine (seq s n) (map f (seq s n)) = map (fun k => (k, f k)) (seq s n).
Proof.
  revert s. induction n as [|n IH]; intros s; cbn [seq map combine].
  - reflexivity.
  - now rewrite IH.
Qed.

(** ** slices *)

Lemma firstn_add {A : Type} (a b : nat) (l : list A) :
  firstn (a + b) l = firstn a l ++ firstn b (skipn a l).
Proof.
  revert l. induction a as [|a IH]; intros l; cbn [Nat.add firstn skipn app].
  - reflexivity.
  - destruct l as [|x l]; cbn [firstn skipn app].
    + now rewrite firstn_nil.
    + now rewrite IH.
Qed.

Lemma py_slice_length {A : Type} (l : list A) (a b : nat) :
  (a <= b)%nat -> (b <= length l)%nat -> length (py_slice l a b) = (b - a)%nat.
Proof.
  intros Hab Hb. unfold py_slice. rewrite length_firstn, length_skipn. lia.
Qed.

(** ** sums and means *)

Lemma Rsum_app (l1 l2 : list R) : Rsum (l1 ++ l2) = Rsum l1 + Rsum l2.
Proof.
  induction l1 as [|x l1 IH]; cbn [app Rsum fold_right].
  - unfold Rsum. cbn. lra.
  - unfold Rsum in *. cbn [fold_right]. rewrite IH. lra.
Qed.

Lemma Rsum_cons (x : R) (l : list R) : Rsum (x :: l) = x + Rsum l.
Proof. reflexivity. Qed.

Lemma Rsum_nonneg (l : list R) : Forall (fun x => 0 <= x) l -> 0 <= Rsum l.
Proof.
  induction 1 as [|x l Hx _ IH]; [unfold Rsum; cbn; lra|].
  rewrite Rsum_cons. lra.
Qed.

Lemma Rsum_map_ext {A : Type} (f g : A -> R) (l : list A) :
  (forall x, In x l -> f x = g x) -> Rsum (map f l) = Rsum (map g l).
Proof.
  intros E. f_equal. apply map_ext_in. exact E.
Qed.

Lemma INR_length_pos {A : Type} (l : list A) : l <> [] -> 0 < INR (length l).
Proof.
  destruct l as [|x l]; [easy|]. intros _. apply lt_0_INR. cbn. lia.
Qed.

(** ** rounding to one decimal *)

Lemma Rabs_le_inv (a b : R) : Rabs a <= b -> - b <= a <= b.
Proof. unfold Rabs. destruct (Rcase_abs a); lra. Qed.

Lemma Zfloor_bounds (x : R) : IZR (Zfloor x) <= x < IZR (Zfloor x) + 1.
Proof.
  unfold Zfloor. destruct (archimed x) as [H1 H2].
  rewrite minus_IZR. lra.
Qed.

Lemma round_half_even_near (x : R) : Rabs (IZR (round_half_even x) - x) <= 1 / 2.
Proof.
  unfold round_half_even. pose proof (Zfloor_bounds x) as [Hlo Hhi].
  destruct (Rlt_dec (x - IZR (Zfloor x)) (1 / 2)) as [Hd|Hd].
  - apply Rabs_le. lra.
  - destruct (Rlt_dec (1 / 2) (x - IZR (Zfloor x))) as [Hu|Hu].
    + rewrite plus_IZR. apply Rabs_le. lra.
    + destruct (Z.even (Zfloor x)).
      * apply Rabs_le. lra.
      * rewrite plus_IZR. apply Rabs_le. lra.
Qed.

(** The rounded value is within one twentieth of its argument. *)
Lemma py_round1_near (x : R) : Rabs (py_round1 x - x) <= 1 / 20.
Proof.
  unfold py_round1. pose proof (round_half_even_near (x * 10)) as Hn.
  apply Rabs_le_inv in Hn. apply Rabs_le. lra.
Qed.

(** The rounded value is a whole number of tenths. *)
Lemma py_round1_tenths (x : R) : exists z : Z, py_round1 x = IZR z / 10.
Proof. eexists. reflexivity. Qed.

(** ** min and max *)

Lemma py_lt_irrefl (x : pyfloat) : py_lt x x = false.
Proof.
  destruct x as [r|]; [|reflexivity]. cbn. apply Rltb_false. lra.
Qed.

Lemma py_lt_inf_irrefl (x : pyfloat_inf) : py_lt_inf x x = false.
Proof.
  destruct x as [[r|]|]; cbn; try reflexivity. apply Rltb_false. lra.
Qed.

(** If no later item is strictly better than the first, the first
    stays. *)
Lemma best_from_first {A : Type} (better : A -> A -> bool) (x : A) (l : list A) :
  (forall y, In y l -> better y x = false) -> best_from better x l = x.
Proof.
  induction l as [|y l IH]; intros Hb; cbn [best_from]; [reflexivity|].
  rewrite (Hb y) by now left. apply IH. intros z Hz. apply Hb. now right.
Qed.

Lemma best_from_In {A : Type} (better : A -> A -> bool) (x : A) (l : list A) :
  In (best_from better x l) (x :: l).
Proof.
  revert x. induction l as [|y l IH]; intros x; cbn [best_from].
  - now left.
  - destruct (better y x).
    + right. apply IH.
    + destruct (IH x) as [E|Hin]; [left; exact E|right; right; exact Hin].
Qed.

End PyFacts.

(* ================================================================== *)
(** * Part XIV. Rolling accuracy trend *)
(* ================================================================== *)

Module RollingAccuracy.
Import Backtesting PyFacts Spec Samples.

(** The trend, window by window: iteration [k] (from 0) has [i = 7 + 7k]. *)
Lemma rolling_accuracy_unfold (today : Z) (actual predicted : list R) :
  _calculate_rolling_accuracy today actual predicted =
  map (fun k => accuracy_point today actual predicted k (7 + 7 * k))
      (seq 0 ((length actual - 1) / 7)).
Proof.
  unfold _calculate_rolling_accuracy, window.
  rewrite py_range_7, fold_left_append. cbn [app length].
  rewrite length_map, length_seq, combine_seq_map, map_map.
  reflexivity.
Qed.

Lemma py_max0_Rmax (m : R) : py_max0 (Fin m) = Rmax 0 m.
Proof.
  cbn. unfold Rmax. destruct (Rlt_dec 0 m), (Rle_dec 0 m); lra.
Qed.

Lemma windows_concat {A : Type} (l : list A) (n : nat) :
  concat (map (fun k => py_slice l (7 * k) (7 * k + 7)) (seq 0 n)) = firstn (7 * n) l.
Proof.
  induction n as [|n IH].
  - reflexivity.
  - rewrite seq_S, map_app, concat_app, IH. cbn [map concat Nat.add].
    rewrite app_nil_r. unfold py_slice.
    replace (7 * n + 7 - 7 * n)%nat with 7%nat by lia.
    replace (7 * S n)%nat with (7 * n + 7)%nat by lia.
    now rewrite firstn_add.
Qed.

(** The nonzero-tenths argument behind the counterexample: 99.96 is not
    a whole number of tenths. *)
Lemma not_tenths_9996 (z : Z) : IZR z / 10 <> 9996 / 100.
Proof.
  intros E. assert (Hz : IZR z = 9996 / 10) by lra.
  destruct (Z_le_gt_dec z 999) as [Hle|Hgt].
  - apply IZR_le in Hle. lra.
  - assert (Hge : (1000 <= z)%Z) by lia. apply IZR_le in Hge. lra.
Qed.

Lemma nonzero_1 : nonzero 1 = true.
Proof.
  unfold nonzero. apply negb_true_iff. apply Reqb_false. lra.
Qed.

(** C3 (as amended). For aligned sequences of length [L] the trend has
    [(L - 1) / 7] entries, following [range(7, L, 7)]; entry [k] covers
    exactly the 7 periods [7k .. 7k+6], so the windows are disjoint,
    together they are the first [7 * ((L - 1) / 7)] periods and the rest
    of the sequence is dropped; [L = 22] gives 3 entries. The accuracy
    of an entry is [max(0, 1 - windowed MAPE) * 100] rounded to one
    decimal place, the windowed MAPE being the mean of
    [|(a - p) / a|] over the window (a fraction, not a percentage). *)
Theorem rolling_accuracy_windows (today : Z) (actual predicted : list R) :
  length predicted = length actual ->
  let L := length actual in
  let n := ((L - 1) / 7)%nat in
  let wa := fun k => py_slice actual (7 * k) (7 * k + 7) in
  let wp := fun k => py_slice predicted (7 * k) (7 * k + 7) in
  let trend := _calculate_rolling_accuracy today actual predicted in
  length trend = n /\
  (L = 22%nat -> length trend = 3%nat) /\
  concat (map wa (seq 0 n)) = firstn (7 * n) actual /\
  (forall k, (k < n)%nat ->
     length (wa k) = 7%nat /\ length (wp k) = 7%nat /\
     exists p, nth_error trend k = Some p /\
       period p = String.append "Week " (str_nat (k + 1)) /\
       end_date p = (today - Z.of_nat (L - (7 * k + 7)))%Z /\
       accuracy p = py_round1 (window_accuracy (wa k) (wp k)) /\
       Rabs (accuracy p - window_accuracy (wa k) (wp k)) <= 1 / 20 /\
       (forall m, np_mean (abs_pct_errors (wa k) (wp k)) = Fin m ->
          window_accuracy (wa k) (wp k) = Rmax 0 (1 - m) * 100)).
Proof.
  intros Hlen L n wa wp trend.
  assert (Htrend : trend =
            map (fun k => accuracy_point today actual predicted k (7 + 7 * k)) (seq 0 n)).
  { apply rolling_accuracy_unfold. }
  assert (Hn : length trend = n).
  { rewrite Htrend, length_map, length_seq. reflexivity. }
  split; [exact Hn|]. split.
  { intros HL. rewrite Hn. unfold n. rewrite HL. reflexivity. }
  split; [apply windows_concat|].
  intros k Hk.
  assert (Hbound : (7 * k + 7 <= L)%nat).
  { unfold n in Hk.
    pose proof (Nat.div_mod_eq (L - 1) 7).
    pose proof (Nat.mod_upper_bound (L - 1) 7 ltac:(lia)). lia. }
  split; [unfold wa; rewrite py_slice_length; fold L; lia|].
  split; [unfold wp; rewrite py_slice_length; rewrite ?Hlen; fold L; lia|].
  exists (accuracy_point today actual predicted k (7 + 7 * k)).
  split.
  { rewrite Htrend. rewrite nth_error_map, nth_error_seq.
    destruct (Nat.ltb_spec k n); [reflexivity|lia]. }
  unfold accuracy_point, window. cbn [period end_date accuracy].
  replace (7 + 7 * k - 7)%nat with (7 * k)%nat by lia.
  replace (7 + 7 * k)%nat with (7 * k + 7)%nat by lia.
  fold (wa k) (wp k) L.
  repeat split.
  - apply py_round1_near.
  - intros m Hm. unfold window_accuracy. rewrite Hm. cbn [pf_map].
    now rewrite py_max0_Rmax.
Qed.

Lemma rolling_accuracy_windows_witness :
  length (_calculate_rolling_accuracy 0 (repeat 1 22) (repeat 2 22)) = 3%nat.
Proof.
  exact (proj1 (proj2 (rolling_accuracy_windows 0 (repeat 1 22) (repeat 2 22) eq_refl))
               eq_refl).
Defined.

(** C3, as stated, fails on the rounding: for eight periods with actual
    price 1 and prediction 1.0004 the only window has MAPE 0.0004, so
    [max(0, 1 - MAPE) * 100 = 99.96], but the entry reports a whole
    number of tenths. *)
Lemma rolling_accuracy_not_exact :
  let actual := repeat 1 8 in
  let predicted := repeat (10004 / 10000) 8 in
  exists p,
    nth_error (_calculate_rolling_accuracy 0 actual predicted) 0 = Some p /\
    np_mean (abs_pct_errors (py_slice actual 0 7) (py_slice predicted 0 7))
      = Fin (4 / 10000) /\
    accuracy p <> Rmax 0 (1 - 4 / 10000) * 100.
Proof.
  intros actual predicted.
  assert (Hmape : np_mean (abs_pct_errors (py_slice actual 0 7) (py_slice predicted 0 7))
                  = Fin (4 / 10000)).
  { unfold actual, predicted, py_slice, abs_pct_errors.
    cbn [repeat skipn firstn Nat.sub combine filter fst].
    rewrite nonzero_1. cbn [map fst snd].
    unfold np_mean. f_equal. unfold mean_R, Rsum. cbn [fold_right length INR].
    replace (Rabs ((1 - 10004 / 10000) / 1)) with (4 / 10000).
    - lra.
    - unfold Rabs. destruct (Rcase_abs ((1 - 10004 / 10000) / 1)); lra. }
  eexists. split; [|split; [exact Hmape|]].
  - rewrite rolling_accuracy_unfold. reflexivity.
  - unfold accuracy_point, window. cbn [accuracy].
    destruct (py_round1_tenths
                (window_accuracy (py_slice actual (7 + 7 * 0 - 7) (7 + 7 * 0))
                                 (py_slice predicted (7 + 7 * 0 - 7) (7 + 7 * 0))))
      as [z Hz].
    rewrite Hz. intros E. apply (not_tenths_9996 z). rewrite E.
    unfold Rmax. destruct (Rle_dec 0 (1 - 4 / 10000)); lra.
Qed.

End RollingAccuracy.

(* ================================================================== *)
(** * Part XV. Facts about dictionaries *)
(* ================================================================== *)

Module DictFacts.

Section Dict.
Context {V : Type}.
Implicit Types (d : dict V) (k : string) (v : V).

Lemma dict_get_set_same k v d : dict_get k (dict_set k v d) = Some v.
Proof.
  induction d as [|[k' v'] d IH]; cbn [dict_set dict_get].
  - now rewrite String.eqb_refl.
  - destruct (String.eqb k k') eqn:E; cbn [dict_get]; rewrite E; [reflexivity|exact IH].
Qed.

Lemma dict_get_set_other k k' v d :
  k' <> k -> dict_get k' (dict_set k v d) = dict_get k' d.
Proof.
  intros Hne. induction d as [|[k0 v0] d IH]; cbn [dict_set dict_get].
  - apply String.eqb_neq in Hne. now rewrite Hne.
  - destruct (String.eqb k k0) eqn:E; cbn [dict_get].
    + apply String.eqb_eq in E. subst k0.
      apply String.eqb_neq in Hne. now rewrite Hne.
    + destruct (String.eqb k' k0); [reflexivity|exact IH].
Qed.

Lemma dict_get_In k v d : dict_get k d = Some v -> In (k, v) d.
Proof.
  induction d as [|[k' v'] d IH]; cbn [dict_get]; [easy|].
  destruct (String.eqb k k') eqn:E.
  - apply String.eqb_eq in E. intros [= ->]. subst. now left.
  - intros Hg. right. now apply IH.
Qed.

Lemma dict_get_None k d : dict_get k d = None <-> ~ In k (dict_keys d).
Proof.
  induction d as [|[k' v'] d IH]; cbn [dict_get dict_keys map fst In].
  - tauto.
  - destruct (String.eqb k k') eqn:E.
    + apply String.eqb_eq in E. subst. split; [easy|]. intros Hn. exfalso. apply Hn. now left.
    + apply String.eqb_neq in E. rewrite IH. unfold dict_keys.
      split; [intros Hn [Heq|Hin]; [congruence|tauto]|tauto].
Qed.

Lemma dict_get_Some_key k d :
  In k (dict_keys d) -> exists v, dict_get k d = Some v.
Proof.
  intros Hin. destruct (dict_get k d) as [v|] eqn:E; [now exists v|].
  apply dict_get_None in E. contradiction.
Qed.

(** Assignment to a present key keeps the key list. *)
Lemma dict_keys_set_present k v d :
  In k (dict_keys d) -> dict_keys (dict_set k v d) = dict_keys d.
Proof.
  unfold dict_keys.
  induction d as [|[k' v'] d IH]; cbn [dict_set map fst In]; [easy|].
  intros Hin. destruct (String.eqb k k') eqn:E; cbn [map fst]; [reflexivity|].
  f_equal. apply IH. destruct Hin as [Heq|Hin]; [|exact Hin].
  apply String.eqb_neq in E. congruence.
Qed.

(** Assignment to a new key appends it. *)
Lemma dict_keys_set_absent k v d :
  ~ In k (dict_keys d) -> dict_keys (dict_set k v d) = dict_keys d ++ [k].
Proof.
  unfold dict_keys.
  induction d as [|[k' v'] d IH]; cbn [dict_set map fst In app]; [easy|].
  intros Hn. destruct (String.eqb k k') eqn:E.
  - apply String.eqb_eq in E. subst. exfalso. apply Hn. now left.
  - cbn [map fst]. f_equal. apply IH. tauto.
Qed.

Lemma dict_keys_set_In k k' v d :
  In k' (dict_keys (dict_set k v d)) <-> k' = k \/ In k' (dict_keys d).
Proof.
  destruct (in_dec string_dec k (dict_keys d)) as [Hin|Hn].
  - rewrite dict_keys_set_present by exact Hin.
    split; [tauto|]. intros [->|H]; assumption.
  - rewrite dict_keys_set_absent by exact Hn.
    rewrite in_app_iff. cbn [In]. split; [intros [H|[H|[]]]; auto|intros [H|H]; auto].
Qed.

Lemma dict_keys_set_NoDup k v d :
  NoDup (dict_keys d) -> NoDup (dict_keys (dict_set k v d)).
Proof.
  intros Hnd. destruct (in_dec string_dec k (dict_keys d)) as [Hin|Hn].
  - now rewrite dict_keys_set_present.
  - rewrite dict_keys_set_absent by exact Hn.
    apply NoDup_app; [exact Hnd|constructor; [easy|constructor]|].
    intros x Hx [<-|[]]. contradiction.
Qed.

(** The first key stays first. *)
Lemma dict_keys_set_head k v d k0 rest :
  dict_keys d = k0 :: rest ->
  exists rest', dict_keys (dict_set k v d) = k0 :: rest'.
Proof.
  destruct d as [|[k' v'] d]; [easy|]. unfold dict_keys. cbn [map fst dict_set].
  intros [= -> <-]. destruct (String.eqb k k0); cbn [map fst]; eauto.
Qed.

Lemma dict_values_set_In k v d x :
  In x (dict_values (dict_set k v d)) -> x = v \/ In x (dict_values d).
Proof.
  unfold dict_values.
  induction d as [|[k' v'] d IH]; cbn [dict_set map snd In].
  - intros [<-|[]]. now left.
  - destruct (String.eqb k k'); cbn [map snd In].
    + intros [<-|H]; auto.
    + intros [<-|H]; auto. destruct (IH H); auto.
Qed.

Lemma dict_get_value_In k v d : dict_get k d = Some v -> In v (dict_values d).
Proof.
  intros Hg. apply dict_get_In in Hg. unfold dict_values.
  change v with (snd (k, v)). now apply in_map.
Qed.

Lemma dict_set_nonempty k v d : dict_set k v d <> [].
Proof.
  destruct d as [|[k' v'] d]; cbn [dict_set]; [easy|].
  destruct (String.eqb k k'); easy.
Qed.

Lemma dict_mem_true k d : dict_mem k d = true <-> exists v, dict_get k d = Some v.
Proof.
  unfold dict_mem. destruct (dict_get k d) as [v|]; split; intros Hx; try easy.
  - now exists v.
  - now destruct Hx.
Qed.
Lemma dict_set_In_inv_key k v d k' (x : V) :
  In (k', x) (dict_set k v d) -> (k' = k /\ x = v) \/ In (k', x) d.
Proof.
  induction d as [|[k0 v0] d IH]; cbn [dict_set In].
  - intros [[= <- <-]|[]]. now left.
  - destruct (String.eqb k k0) eqn:E; cbn [In].
    + apply String.eqb_eq in E. subst k0.
      intros [[= <- <-]|Hin]; auto.
    + intros [Heq|Hin]; auto. destruct (IH Hin); auto.
Qed.
End Dict.

Lemma str_in_true (x : string) (l : list string) : str_in x l = true <-> In x l.
Proof.
  unfold str_in. rewrite existsb_exists. split.
  - intros [y [Hin E]]. apply String.eqb_eq in E. now subst.
  - intros Hin. exists x. split; [exact Hin|apply String.eqb_refl].
Qed.

End DictFacts.

(* ================================================================== *)
(** * Part XVI. The metric formulas: MAPE and the Sharpe-style ratio *)
(* ================================================================== *)

Module Metrics.
Import Backtesting PyFacts DictFacts Spec Samples.

(** ** MAPE *)


Lemma abs_pct_errors_nil_l (predicted : list R) : abs_pct_errors [] predicted = [].
Proof. reflexivity. Qed.





(** The terms of the code's mean, for any sign of the actual values. *)
Lemma abs_pct_errors_In (actual predicted : list R) (e : R) :
  In e (abs_pct_errors actual predicted) <->
  exists a p, In (a, p) (combine actual predicted) /\ a <> 0 /\
              e = Rabs (a - p) / Rabs a.
Proof.
  unfold abs_pct_errors. rewrite in_map_iff. split.
  - intros [[a p] [<- Hin]]. apply filter_In in Hin. destruct Hin as [Hin Hnz].
    cbn [fst snd] in *. unfold nonzero in Hnz.
    apply negb_true_iff, Reqb_false in Hnz.
    exists a, p. repeat split; try assumption.
    unfold Rdiv. rewrite Rabs_mult, Rabs_inv. reflexivity.
  - intros [a [p [Hin [Hnz ->]]]]. exists (a, p). cbn [fst snd]. split.
    + unfold Rdiv. rewrite Rabs_mult, Rabs_inv. reflexivity.
    + apply filter_In. split; [exact Hin|]. cbn [fst]. unfold nonzero.
      apply negb_true_iff, Reqb_false. exact Hnz.
Qed.

Section Synthetic.
Context `{NumpyRandom}.

Lemma np_random_normal_ok (loc scale : R) (st : rng) :
  0 <= scale -> np_random_normal loc scale st = Ok (normal loc scale st).
Proof.
  intros Hs. unfold np_random_normal. destruct (Rlt_dec scale 0); [lra|reflexivity].
Qed.



Lemma mock_predictions_length (actual : list R) (st : rng)
    (predicted errors : list R) (st' : rng) :
  mock_predictions actual st = Ok ((predicted, errors), st') ->
  length predicted = length actual /\ length errors = length actual.
Proof.
  revert st predicted errors st'.
  induction actual as [|a actual IH]; intros st predicted errors st'.
  - cbn. intros [= <- <- _]. now split.
  - cbn [mock_predictions].
    destruct (np_random_normal 0 (a * (3 / 100)) st) as [[e st1]|]; cbn [bind]; [|easy].
    destruct (mock_predictions actual st1) as [[[ps es] st2]|] eqn:Ep;
      cbn [bind fst snd]; [|easy].
    intros [= <- <- _]. cbn [length].
    destruct (IH _ _ _ _ Ep) as [-> ->]. now split.
Qed.
End Synthetic.

(** ** Sharpe-style ratio *)

Lemma mapM_Ok {A B : Type} (f : A -> result B) (g : A -> B) (l : list A) :
  (forall x, In x l -> f x = Ok (g x)) -> mapM f l = Ok (map g l).
Proof.
  induction l as [|x l IH]; intros Hf; cbn [mapM map]; [reflexivity|].
  rewrite (Hf x) by now left. cbn [bind].
  rewrite IH; [reflexivity|]. intros y Hy. apply Hf. now right.
Qed.

Lemma period_returns_Ok (prices : list R) :
  Forall (fun a => a <> 0) (removelast prices) ->
  period_returns prices =
  Ok (map (fun ap => snd ap / fst ap - 1) (combine (removelast prices) (tl prices))).
Proof.
  intros Hnz. unfold period_returns. apply mapM_Ok.
  intros [a p] Hin. cbn [fst snd]. apply in_combine_l in Hin.
  rewrite Forall_forall in Hnz. specialize (Hnz a Hin).
  unfold py_div. destruct (Req_dec_T a 0); [contradiction|reflexivity].
Qed.







End Metrics.

(* ================================================================== *)
(** * Part XVII. Aggregate statistics *)
(* ================================================================== *)

Module OverallStatsFacts.
Import Store Backtesting PyFacts DictFacts Spec Samples.

Lemma avg_key_inj (a b : string) : avg_key a = avg_key b -> a = b.
Proof. unfold avg_key. cbn. now intros [= ->]. Qed.

Lemma best_key_inj (a b : string) : best_key a = best_key b -> a = b.
Proof. unfold best_key. cbn. now intros [= ->]. Qed.

Lemma avg_key_not_best (a b : string) : avg_key a <> best_key b.
Proof. unfold avg_key, best_key. cbn. discriminate. Qed.

(** ** Collecting the values *)

Lemma dict_set_In_inv {V : Type} (k : string) (v : V) (d : dict V) (k' : string) (x : V) :
  In (k', x) (dict_set k v d) -> x = v \/ In (k', x) d.
Proof.
  induction d as [|[k0 v0] d IH]; cbn [dict_set In].
  - intros [[= _ <-]|[]]. now left.
  - destruct (String.eqb k k0); cbn [In].
    + intros [[= _ <-]|Hin]; auto.
    + intros [E|Hin]; auto. destruct (IH Hin); auto.
Qed.

Lemma vals_dict_append (m n : string) (v : pyfloat) (d : dict (list pyfloat)) :
  vals m (dict_append n v d) =
  if String.eqb n m then vals m d ++ [v] else vals m d.
Proof.
  unfold vals, dict_append.
  destruct (String.eqb n m) eqn:E.
  - apply String.eqb_eq in E. subst n.
    destruct (dict_get m d) as [l|]; now rewrite dict_get_set_same.
  - apply String.eqb_neq in E.
    destruct (dict_get n d) as [l|]; rewrite dict_get_set_other; auto.
Qed.

Lemma wf_dict_append (n : string) (v : pyfloat) (d : dict (list pyfloat)) :
  wf d -> wf (dict_append n v d).
Proof.
  intros [Hnd Hne]. unfold dict_append.
  destruct (dict_get n d) as [l|]; split;
    try (apply dict_keys_set_NoDup; exact Hnd);
    intros k x Hin; apply dict_set_In_inv in Hin;
    destruct Hin as [->|Hin]; eauto; try discriminate.
  now destruct l.
Qed.

Lemma collect_inner (m : string) (ms : dict pyfloat) (am : dict (list pyfloat)) :
  wf am ->
  let am' := fold_left (fun am mv => dict_append (fst mv) (snd mv) am) ms am in
  wf am' /\
  vals m am' = vals m am ++ map snd (filter (fun mv => String.eqb (fst mv) m) ms).
Proof.
  revert am. induction ms as [|[n v] ms IH]; intros am Hwf; cbn [fold_left filter map fst snd].
  - split; [exact Hwf|now rewrite app_nil_r].
  - destruct (IH (dict_append n v am) (wf_dict_append n v am Hwf)) as [Hwf' Hv].
    split; [exact Hwf'|]. cbn zeta in Hv. rewrite Hv, vals_dict_append.
    destruct (String.eqb n m); cbn [map snd]; [now rewrite <- app_assoc|reflexivity].
Qed.

Lemma collect_outer (m : string) (results : dict BacktestResult)
    (acc : dict (list pyfloat)) :
  wf acc ->
  let all_metrics :=
    fold_left
      (fun all_metrics kv =>
         fold_left (fun am mv => dict_append (fst mv) (snd mv) am)
                   (metrics (snd kv)) all_metrics)
      results acc in
  wf all_metrics /\ vals m all_metrics = vals m acc ++ metric_values m results.
Proof.
  revert acc. induction results as [|kv results IH]; intros acc Hwf;
    cbn [fold_left metric_values flat_map].
  - split; [exact Hwf|now rewrite app_nil_r].
  - destruct (collect_inner m (metrics (snd kv)) acc Hwf) as [Hwf1 Hv1].
    destruct (IH _ Hwf1) as [Hwf2 Hv2].
    split; [exact Hwf2|]. cbn zeta in Hv1, Hv2.
    unfold metric_values in Hv2. rewrite Hv2, Hv1. now rewrite <- app_assoc.
Qed.

Lemma wf_nil : wf [].
Proof. split; [constructor|intros k l []]. Qed.

Lemma collect_metrics_spec (m : string) (results : dict BacktestResult) :
  wf (collect_metrics results) /\
  vals m (collect_metrics results) = metric_values m results.
Proof.
  destruct (collect_outer m results [] wf_nil) as [Hwf Hv]. split; [exact Hwf|exact Hv].
Qed.

Lemma collect_metrics_get (m : string) (results : dict BacktestResult) :
  metric_values m results <> [] ->
  dict_get m (collect_metrics results) = Some (metric_values m results).
Proof.
  intros Hne. destruct (collect_metrics_spec m results) as [_ Hv].
  unfold vals in Hv. destruct (dict_get m (collect_metrics results)); congruence.
Qed.

(** ** Minimum and maximum *)

(** The result of a scan is an item none of the scanned items beats. *)
Lemma best_from_minimal {A : Type} (better : A -> A -> bool) :
  (forall v, better v v = false) ->
  (forall v x y, better v y = false -> better x y = true -> better v x = false) ->
  forall (l seen : list A) (x : A),
    (forall v, In v seen -> better v x = false) ->
    forall v, In v (seen ++ l) -> better v (best_from better x l) = false.
Proof.
  intros Hirr Htr. induction l as [|y l IH]; intros seen x Hseen v Hin; cbn [best_from].
  - rewrite app_nil_r in Hin. auto.
  - destruct (better y x) eqn:E.
    + apply (IH (seen ++ [y])).
      * intros w Hw. apply in_app_iff in Hw. destruct Hw as [Hw|[<-|[]]].
        -- apply (Htr w y x); auto.
        -- apply Hirr.
      * now rewrite <- app_assoc.
    + apply (IH (seen ++ [y])).
      * intros w Hw. apply in_app_iff in Hw. destruct Hw as [Hw|[<-|[]]]; auto.
      * now rewrite <- app_assoc.
Qed.

Lemma py_lt_step (v x y : pyfloat) :
  py_lt v y = false -> py_lt x y = true -> py_lt v x = false.
Proof.
  destruct v as [c|], x as [a|], y as [b|]; cbn; try easy.
  rewrite Rltb_false, Rltb_true, Rltb_false. lra.
Qed.

Lemma py_gt_step (v x y : pyfloat) :
  py_gt v y = false -> py_gt x y = true -> py_gt v x = false.
Proof.
  unfold py_gt. destruct v as [c|], x as [a|], y as [b|]; cbn; try easy.
  rewrite Rltb_false, Rltb_true, Rltb_false. lra.
Qed.

Lemma py_lt_inf_step (v x y : pyfloat_inf) :
  py_lt_inf v y = false -> py_lt_inf x y = true -> py_lt_inf v x = false.
Proof.
  destruct v as [[c|]|], x as [[a|]|], y as [[b|]|]; cbn; try easy.
  rewrite Rltb_false, Rltb_true, Rltb_false. lra.
Qed.

Lemma py_best_spec {A : Type} (better : A -> A -> bool) (l : list A) :
  (forall v, better v v = false) ->
  (forall v x y, better v y = false -> better x y = true -> better v x = false) ->
  l <> [] ->
  exists b, py_best better l = Some b /\ In b l /\
            forall v, In v l -> better v b = false.
Proof.
  intros Hirr Htr Hne. destruct l as [|x l]; [easy|].
  exists (best_from better x l). split; [reflexivity|]. split.
  - apply best_from_In.
  - intros v Hv. apply (best_from_minimal better Hirr Htr l [x] x).
    + intros w [<-|[]]. apply Hirr.
    + exact Hv.
Qed.

Lemma best_value_spec (m : string) (values : list pyfloat) :
  values <> [] ->
  exists b, best_value m values = Some b /\ In b values /\
    forall v, In v values ->
      (if is_error_metric m then py_lt v b else py_lt b v) = false.
Proof.
  intros Hne. unfold best_value, py_min, py_max.
  destruct (is_error_metric m).
  - apply py_best_spec; [apply py_lt_irrefl|apply py_lt_step|exact Hne].
  - apply (py_best_spec py_gt); [|apply py_gt_step|exact Hne].
    intros v. apply py_lt_irrefl.
Qed.

(** The first of the best items wins: every item before the result is
    strictly worse, provided the order is total on the items. *)
Lemma best_from_first_occurrence {A : Type} (better : A -> A -> bool)
    (total : A -> Prop) :
  (forall x y, better x y = true -> better y x = false) ->
  (forall x y v, total v -> better x y = true -> better v y = false ->
                 better x v = true) ->
  forall (l pre post : list A) (x : A),
    exists pre' post',
      pre ++ x :: post ++ l = pre' ++ best_from better x l :: post' /\
      (Forall total (pre ++ x :: post ++ l) ->
       (forall v, In v pre -> better x v = true) ->
       (forall v, In v post -> better v x = false) ->
       forall v, In v pre' -> better (best_from better x l) v = true).
Proof.
  intros Hasym Htot. induction l as [|y l IH]; intros pre post x; cbn [best_from].
  - exists pre, post. rewrite app_nil_r. split; [reflexivity|auto].
  - destruct (better y x) eqn:E.
    + destruct (IH (pre ++ x :: post) [] y) as [pre' [post' [Heq Hbest]]].
      exists pre', post'. split.
      * rewrite <- Heq. cbn [app]. rewrite <- app_assoc. reflexivity.
      * intros Hall Hpre Hpost. apply Hbest.
        -- cbn [app]. rewrite <- app_assoc. exact Hall.
        -- rewrite Forall_forall in Hall.
           intros v Hv. apply in_app_iff in Hv.
           assert (Hvt : total v).
           { apply Hall. apply in_app_iff. destruct Hv as [Hv|[<-|Hv]].
             - now left.
             - right. now left.
             - right. right. apply in_app_iff. now left. }
           destruct Hv as [Hv|[<-|Hv]].
           ++ apply (Htot y x v Hvt E). apply Hasym. now apply Hpre.
           ++ exact E.
           ++ apply (Htot y x v Hvt E). now apply Hpost.
        -- intros v [].
    + destruct (IH pre (post ++ [y]) x) as [pre' [post' [Heq Hbest]]].
      exists pre', post'. split.
      * rewrite <- Heq. rewrite <- app_assoc. reflexivity.
      * intros Hall Hpre Hpost. apply Hbest.
        -- rewrite <- app_assoc. exact Hall.
        -- exact Hpre.
        -- intros v Hv. apply in_app_iff in Hv. destruct Hv as [Hv|[<-|[]]]; auto.
Qed.

Lemma py_lt_inf_asym (x y : pyfloat_inf) :
  py_lt_inf x y = true -> py_lt_inf y x = false.
Proof.
  destruct x as [[a|]|], y as [[b|]|]; cbn; try easy.
  rewrite Rltb_true, Rltb_false. lra.
Qed.

Lemma py_lt_inf_total (x y v : pyfloat_inf) :
  v <> Val NaN -> py_lt_inf x y = true -> py_lt_inf v y = false ->
  py_lt_inf x v = true.
Proof.
  destruct v as [[c|]|], x as [[a|]|], y as [[b|]|]; cbn; try easy.
  rewrite Rltb_true, Rltb_false, Rltb_true. lra.
Qed.

(** [min(keys, key=...)]: a key none beats, and the first such one when
    no key is NaN. *)
Lemma py_min_by_spec {A : Type} (key : A -> pyfloat_inf) (l : list A) :
  l <> [] ->
  exists b pre post,
    py_min_by key l = Some b /\ l = pre ++ b :: post /\
    (forall x, In x l -> py_lt_inf (key x) (key b) = false) /\
    ((forall x, In x l -> key x <> Val NaN) ->
     forall x, In x pre -> py_lt_inf (key b) (key x) = true).
Proof.
  intros Hne. destruct l as [|x l]; [easy|].
  set (better := fun a b : A => py_lt_inf (key a) (key b)).
  assert (Hmin : forall v, In v (x :: l) -> better v (best_from better x l) = false).
  { intros v Hv. apply (best_from_minimal better) with (seen := [x]).
    - intros a. apply py_lt_inf_irrefl.
    - intros a b c. unfold better. apply py_lt_inf_step.
    - intros w [<-|[]]. apply py_lt_inf_irrefl.
    - exact Hv. }
  destruct (best_from_first_occurrence better (fun v => key v <> Val NaN)
              (fun a b => py_lt_inf_asym (key a) (key b))
              (fun a b v => py_lt_inf_total (key a) (key b) (key v))
              l [] [] x) as [pre [post [Heq Hfirst]]].
  cbn [app] in Heq, Hfirst.
  exists (best_from better x l), pre, post.
  split; [reflexivity|]. split; [exact Heq|]. split; [exact Hmin|].
  intros Hnan v Hv. apply Hfirst; try easy.
  rewrite Forall_forall. exact Hnan.
Qed.

End OverallStatsFacts.

Module OverallStats.
Import Store Backtesting PyFacts DictFacts OverallStatsFacts Spec Samples.

Lemma summarise_fold (l : dict (list pyfloat)) (acc : dict pyfloat) :
  NoDup (dict_keys l) ->
  (forall k x, In (k, x) l -> x <> []) ->
  exists s,
    fold_left summarise_step l (Some acc) = Some s /\
    (forall m vs, dict_get m l = Some vs ->
       dict_get (avg_key m) s = Some (np_mean_f vs) /\
       exists b, best_value m vs = Some b /\ dict_get (best_key m) s = Some b) /\
    (forall key,
       (forall m, In m (dict_keys l) -> key <> avg_key m /\ key <> best_key m) ->
       dict_get key s = dict_get key acc).
Proof.
  revert acc. induction l as [|[n vs] l IH]; intros acc Hnd Hne.
  - exists acc. cbn. split; [reflexivity|]. split; [easy|reflexivity].
  - cbn [dict_keys map fst] in Hnd. apply NoDup_cons_iff in Hnd.
    destruct Hnd as [Hnotin Hnd].
    destruct (best_value_spec n vs) as [b [Hb _]].
    { apply (Hne n). now left. }
    cbn [fold_left]. unfold summarise_step at 2. cbn [fst snd]. rewrite Hb.
    set (acc' := dict_set (best_key n) b (dict_set (avg_key n) (np_mean_f vs) acc)).
    destruct (IH acc' Hnd) as [s [Hs [Hget Hkeep]]].
    { intros k x Hin. apply (Hne k). now right. }
    exists s. split; [exact Hs|]. split.
    + intros m ws. cbn [dict_get].
      destruct (String.eqb m n) eqn:E.
      * apply String.eqb_eq in E. subst m. intros [= <-].
        assert (Hfresh : forall key, (key = avg_key n \/ key = best_key n) ->
                  forall m', In m' (dict_keys l) ->
                    key <> avg_key m' /\ key <> best_key m').
        { intros key Hk m' Hm'.
          assert (Hneq : m' <> n) by (intros ->; contradiction).
          destruct Hk as [-> | ->]; split; intros Ek.
          - apply avg_key_inj in Ek. congruence.
          - now apply avg_key_not_best in Ek.
          - symmetry in Ek. now apply avg_key_not_best in Ek.
          - apply best_key_inj in Ek. congruence. }
        split.
        -- rewrite (Hkeep (avg_key n)) by (apply Hfresh; now left).
           unfold acc'. rewrite dict_get_set_other.
           ++ apply dict_get_set_same.
           ++ apply avg_key_not_best.
        -- exists b. split; [exact Hb|].
           rewrite (Hkeep (best_key n)) by (apply Hfresh; now right).
           unfold acc'. apply dict_get_set_same.
      * intros Hg. now apply Hget.
    + intros key Hkey. rewrite Hkeep.
      * destruct (Hkey n) as [Ha Hbk]; [now left|].
        unfold acc'. rewrite !dict_get_set_other; auto.
      * intros m Hm. apply Hkey. now right.
Qed.

Lemma summarise_spec (d : dict (list pyfloat)) :
  wf d ->
  exists s,
    summarise d = Some s /\
    forall m vs, dict_get m d = Some vs ->
      dict_get (avg_key m) s = Some (np_mean_f vs) /\
      exists b, best_value m vs = Some b /\ dict_get (best_key m) s = Some b.
Proof.
  intros [Hnd Hne]. destruct (summarise_fold d [] Hnd Hne) as [s [Hs [Hget _]]].
  exists s. split; [exact Hs|exact Hget].
Qed.

(** The statistics exist for every non-empty result dictionary. *)
Lemma overall_stats_some (results : dict BacktestResult) :
  results <> [] ->
  exists avg_metrics best pre post s starts e ends,
    summarise (collect_metrics results) = Some avg_metrics /\
    py_min_by (mape_key results) (dict_keys results) = Some best /\
    dict_keys results = pre ++ best :: post /\
    map period_start (dict_values results) = s :: starts /\
    map period_end (dict_values results) = e :: ends /\
    (forall x, In x (dict_keys results) ->
       py_lt_inf (mape_key results x) (mape_key results best) = false) /\
    ((forall x, In x (dict_keys results) -> mape_key results x <> Val NaN) ->
     forall x, In x pre ->
       py_lt_inf (mape_key results best) (mape_key results x) = true) /\
    _calculate_overall_stats results =
      Some {| summary_metrics := avg_metrics;
              best_model := best;
              total_models := length results;
              evaluation_start := Zmin_list s starts;
              evaluation_end := Zmax_list e ends |}.
Proof.
  intros Hne.
  destruct (collect_metrics_spec "" results) as [Hwf _].
  destruct (summarise_spec _ Hwf) as [avg [Hs _]].
  destruct (py_min_by_spec (mape_key results) (dict_keys results))
    as [best [pre [post [Hb [Hsplit [Hmin Hfirst]]]]]].
  { destruct results; [easy|]. cbn. easy. }
  destruct results as [|[k r] rest]; [easy|].
  exists avg, best, pre, post, (period_start r),
    (map period_start (dict_values rest)), (period_end r),
    (map period_end (dict_values rest)).
  repeat split; try assumption.
  unfold _calculate_overall_stats. rewrite Hs, Hb. reflexivity.
Qed.

(** The specification's vocabulary and the code's. *)
Lemma is_error_metric_spec (m : string) : is_error_metric m = true <-> error_metric m.
Proof.
  unfold is_error_metric, error_metric. rewrite str_in_true. cbn [In]. split.
  - intros [E|[E|[E|[]]]]; subst; auto.
  - intros [E|[E|E]]; subst; auto.
Qed.

Lemma mape_key_spec : mape_key = mape_of.
Proof. reflexivity. Qed.

Lemma py_lt_inf_below (x y : pyfloat_inf) : py_lt_inf x y = true <-> below x y.
Proof.
  destruct x as [[a|]|], y as [[b|]|]; cbn [py_lt_inf py_lt below];
    try apply Rltb_true; split; intros Hx; try easy.
Qed.

Lemma py_lt_below (v b : pyfloat) : py_lt v b = false <-> ~ below (Val v) (Val b).
Proof.
  rewrite <- (py_lt_inf_below (Val v) (Val b)).
  assert (E : py_lt_inf (Val v) (Val b) = py_lt v b) by (destruct v, b; reflexivity).
  rewrite E. destruct (py_lt v b); split.
  - discriminate.
  - intros Hx. elim Hx. reflexivity.
  - intros _ Hx. discriminate Hx.
  - reflexivity.
Qed.

Lemma all_fin_map_Fin (rs : list R) : all_fin (map Fin rs) = Some rs.
Proof.
  induction rs as [|r rs IH]; [reflexivity|]. cbn [map all_fin]. now rewrite IH.
Qed.

Lemma all_fin_NaN (vs : list pyfloat) : In NaN vs -> all_fin vs = None.
Proof.
  induction vs as [|[v|] vs IH]; cbn [In all_fin]; [easy| |reflexivity].
  intros [E|Hin]; [discriminate|]. now rewrite (IH Hin).
Qed.

(** C4. For every non-empty mapping of per-model results the aggregate
    statistics exist and hold, for each metric name [m] that some model
    reports, under ["avg_" + m] the average of the values of [m] (their
    sum divided by their number; NaN if one of them is NaN) and under
    ["best_" + m] one of those values: for mae, rmse and mape a value
    that none of them is below, so the minimum, and for every other
    metric a value that is below none of them, so the maximum. The best
    model is a model whose MAPE (+infinity when it has none) no model's
    MAPE is below, and, MAPE values being numbers, the first such model
    in iteration order: every model before it has a strictly larger
    MAPE. *)
Theorem overall_stats_spec (results : dict BacktestResult) :
  results <> [] ->
  exists stats,
    _calculate_overall_stats results = Some stats /\
    total_models stats = length results /\
    (forall m,
       let vs := metric_values m results in
       vs <> [] ->
       (forall rs, vs = map Fin rs ->
          dict_get (avg_key m) (summary_metrics stats)
          = Some (Fin (Rsum rs / INR (length rs)))) /\
       (In NaN vs -> dict_get (avg_key m) (summary_metrics stats) = Some NaN) /\
       exists b,
         dict_get (best_key m) (summary_metrics stats) = Some b /\
         In b vs /\
         (error_metric m ->
            (forall v, In v vs -> ~ below (Val v) (Val b)) /\
            (forall rb r, b = Fin rb -> In (Fin r) vs -> rb <= r)) /\
         (~ error_metric m ->
            (forall v, In v vs -> ~ below (Val b) (Val v)) /\
            (forall rb r, b = Fin rb -> In (Fin r) vs -> r <= rb))) /\
    exists pre post,
      dict_keys results = pre ++ best_model stats :: post /\
      (forall k, In k (dict_keys results) ->
         ~ below (mape_of results k) (mape_of results (best_model stats))) /\
      ((forall k, In k (dict_keys results) -> mape_of results k <> Val NaN) ->
       forall k, In k pre ->
         below (mape_of results (best_model stats)) (mape_of results k)).
Proof.
  intros Hne.
  destruct (overall_stats_some results Hne)
    as [avg [best [pre [post [s [starts [e [ends
         [Hs [Hb [Hsplit [_ [_ [Hmin [Hfirst Hstats]]]]]]]]]]]]]]].
  eexists. split; [exact Hstats|]. cbn [total_models summary_metrics best_model].
  split; [reflexivity|]. split.
  - intros m Hvs. set (vs := metric_values m results) in *.
    destruct (collect_metrics_spec m results) as [Hwf _].
    destruct (summarise_spec _ Hwf) as [avg' [Hs' Hget]].
    rewrite Hs in Hs'. injection Hs' as <-.
    destruct (Hget m vs (collect_metrics_get m results Hvs)) as [Havg [b [Hbv Hbest]]].
    split; [|split].
    + intros rs Hrs. rewrite Havg. unfold np_mean_f. rewrite Hrs, all_fin_map_Fin.
      destruct rs as [|r rs]; [|reflexivity].
      rewrite Hrs in Hvs. now elim Hvs.
    + intros Hnan. rewrite Havg. unfold np_mean_f. now rewrite (all_fin_NaN vs Hnan).
    + destruct (best_value_spec m vs Hvs) as [b' [Hb' [Hin Hbeat]]].
      rewrite Hbv in Hb'. injection Hb' as <-.
      exists b. split; [exact Hbest|]. split; [exact Hin|]. split.
      * intros Herr. apply is_error_metric_spec in Herr. rewrite Herr in Hbeat. split.
        -- intros v Hv. apply py_lt_below. now apply Hbeat.
        -- intros rb r -> Hr. specialize (Hbeat _ Hr). cbn in Hbeat.
           now apply Rltb_false in Hbeat.
      * intros Herr.
        assert (E : is_error_metric m = false).
        { destruct (is_error_metric m) eqn:E; [|reflexivity].
          elim Herr. now apply is_error_metric_spec. }
        rewrite E in Hbeat. split.
        -- intros v Hv. apply py_lt_below. now apply Hbeat.
        -- intros rb r -> Hr. specialize (Hbeat _ Hr). cbn in Hbeat.
           now apply Rltb_false in Hbeat.
  - exists pre, post. split; [exact Hsplit|]. split.
    + intros k Hk Hbelow. apply py_lt_inf_below in Hbelow.
      rewrite mape_key_spec in Hmin. rewrite (Hmin k Hk) in Hbelow. discriminate.
    + intros Hdef k Hk. apply py_lt_inf_below.
      rewrite mape_key_spec in Hfirst. now apply Hfirst.
Qed.

(** Three models: the average and the minimum of the MAE, the maximum of
    the Sharpe ratio, and the first of the two models with the smallest
    MAPE as the best model. *)
Lemma overall_stats_spec_witness :
  exists stats,
    _calculate_overall_stats three_results = Some stats /\
    total_models stats = 3%nat /\
    dict_get "avg_mae" (summary_metrics stats) = Some (Fin ((2 + (1 + (4 + 0))) / 3)) /\
    dict_get "best_mae" (summary_metrics stats) = Some (Fin 1) /\
    dict_get "best_sharpe" (summary_metrics stats) = Some (Fin 2) /\
    best_model stats = "m1".
Proof.
  assert (Hne : three_results <> []) by discriminate.
  destruct (overall_stats_spec three_results Hne)
    as [stats [Hs [Ht [Hm [pre [post [Hsplit [Hmin Hfirst]]]]]]]].
  exists stats. split; [exact Hs|]. split; [exact Ht|].
  destruct (Hm "mae" ltac:(discriminate)) as [Havg [_ [b [Hb [Hin [Herr _]]]]]].
  destruct (Hm "sharpe" ltac:(discriminate)) as [_ [_ [c [Hc [Hic [_ Hmax]]]]]].
  unfold avg_key, best_key in Havg, Hb, Hc. cbn [String.append] in Havg, Hb, Hc.
  split; [|split; [|split]].
  - rewrite (Havg [2; 1; 4] eq_refl). do 2 f_equal. cbn. lra.
  - destruct (Herr ltac:(left; reflexivity)) as [_ Hle].
    cbn in Hin. destruct Hin as [<-|[<-|[<-|[]]]].
    + specialize (Hle 2 1 eq_refl ltac:(cbn; auto)). lra.
    + exact Hb.
    + specialize (Hle 4 1 eq_refl ltac:(cbn; auto)). lra.
  - destruct Hmax as [_ Hge].
    { unfold error_metric. intros [E|[E|E]]; discriminate E. }
    cbn in Hic. destruct Hic as [<-|[<-|[<-|[]]]].
    + specialize (Hge 1 2 eq_refl ltac:(cbn; auto)). lra.
    + exact Hc.
    + specialize (Hge 0 2 eq_refl ltac:(cbn; auto)). lra.
  - assert (Hdef : forall k, In k (dict_keys three_results) ->
                             mape_of three_results k <> Val NaN).
    { intros k [<-|[<-|[<-|[]]]]; cbn; discriminate. }
    specialize (Hfirst Hdef).
    assert (Hin1 : In "m1" (dict_keys three_results)) by (cbn; auto).
    specialize (Hmin "m1" Hin1).
    assert (Hbest : In (best_model stats) (dict_keys three_results))
      by (rewrite Hsplit; apply in_elt).
    cbn in Hbest. destruct Hbest as [E|[E|[E|[]]]]; [now rewrite <- E| |].
    + exfalso. rewrite <- E in Hsplit, Hfirst.
      destruct pre as [|k pre]; [cbn in Hsplit; discriminate Hsplit|].
      cbn in Hsplit. injection Hsplit as <- _.
      specialize (Hfirst "m1" (or_introl eq_refl)). cbn in Hfirst. lra.
    + exfalso. rewrite <- E in Hmin. apply Hmin. cbn. lra.
Defined.

End OverallStats.

(* ================================================================== *)
(** * Part XVIII. The synthetic backtest of run_backtest *)
(* ================================================================== *)

Module SyntheticBacktest.
Import Store Backtesting PyFacts DictFacts OverallStatsFacts Spec Samples.

Section Synthetic.
Context `{NumpyRandom}.

(** The outcome of [_backtest_model] depends neither on the model name
    (beyond the name field) nor on the generator state on entry: the
    generator is reseeded with 42 first. *)
Lemma backtest_model_rename (today : Z) (name1 name2 : string)
    (period_days window_days horizon_days : nat) (requested : list string)
    (st1 st2 : rng) :
  _backtest_model today name1 period_days window_days horizon_days requested st1 =
  rename_outcome name1
    (_backtest_model today name2 period_days window_days horizon_days requested st2).
Proof.
  unfold _backtest_model.
  destruct (random_walk (n_dates period_days) 180 (np_seed 42)) as [[actual s1]|e];
    cbn [bind]; [|reflexivity].
  destruct (mock_predictions actual s1) as [[pe s2]|e]; cbn [bind]; [|reflexivity].
  destruct (compute_metrics requested actual (fst pe) (snd pe)) as [ms|e];
    cbn [bind]; reflexivity.
Qed.

Variable evaluate : string -> rng -> result (BacktestResult * rng).

Lemma backtest_loop_same (r : BacktestResult) (st' : rng) :
  (forall n st, evaluate n st = Ok (rename n r, st')) ->
  forall names acc st,
    backtest_loop evaluate names acc st =
    Ok (all_renamed r names acc, match names with [] => st | _ => st' end).
Proof.
  intros Hev. induction names as [|n names IH]; intros acc st; cbn [backtest_loop].
  - reflexivity.
  - rewrite Hev. cbn [bind]. rewrite IH. unfold all_renamed. cbn [fold_left].
    destruct names; reflexivity.
Qed.

(** The loop has no handler: the first exception leaves it. *)
Lemma backtest_loop_raises (e : exn) (n : string) (names : list string)
    (acc : dict BacktestResult) (st : rng) :
  evaluate n st = Raise e ->
  backtest_loop evaluate (n :: names) acc st = Raise e.
Proof. intros Hev. cbn [backtest_loop]. now rewrite Hev. Qed.
End Synthetic.

Lemma all_renamed_spec (r : BacktestResult) (names : list string)
    (acc : dict BacktestResult) :
  renamed_dict r acc ->
  renamed_dict r (all_renamed r names acc) /\
  (forall k, In k (dict_keys (all_renamed r names acc)) <->
             In k (dict_keys acc) \/ In k names) /\
  (forall k0 rest, dict_keys acc = k0 :: rest ->
     exists rest', dict_keys (all_renamed r names acc) = k0 :: rest').
Proof.
  revert acc. induction names as [|n names IH]; intros acc Hacc; unfold all_renamed;
    cbn [fold_left].
  - split; [exact Hacc|]. split; [intros k; cbn; tauto|eauto].
  - destruct (IH (dict_set n (rename n r) acc)) as [Hr [Hk Hh]].
    { intros k v Hin. apply dict_set_In_inv_key in Hin.
      destruct Hin as [[-> ->]|Hin]; [reflexivity|now apply Hacc]. }
    split; [exact Hr|]. split.
    + intros k. unfold all_renamed in Hk. rewrite Hk, dict_keys_set_In. cbn [In].
      split; [intros [[->|Hx]|Hx]; auto|intros [Hx|[->|Hx]]; auto].
    + intros k0 rest Hk0.
      destruct (dict_keys_set_head n (rename n r) acc k0 rest Hk0) as [rest1 H1].
      apply (Hh k0 rest1 H1).
Qed.

Lemma all_renamed_get (r : BacktestResult) (names : list string) (k : string) :
  In k names -> dict_get k (all_renamed r names []) = Some (rename k r).
Proof.
  intros Hin.
  destruct (all_renamed_spec r names []) as [Hr [Hk _]]; [intros ? ? []|].
  destruct (dict_get_Some_key k (all_renamed r names [])) as [v Hv].
  { apply Hk. now right. }
  rewrite Hv. f_equal. apply Hr. now apply dict_get_In.
Qed.

Lemma all_renamed_first (r : BacktestResult) (first : string) (rest : list string) :
  exists rest', dict_keys (all_renamed r (first :: rest) []) = first :: rest'.
Proof.
  unfold all_renamed. cbn [fold_left dict_set].
  destruct (all_renamed_spec r rest [(first, rename first r)]) as [_ [_ Hh]].
  { intros k v [[= <- <-]|[]]. reflexivity. }
  apply (Hh first []). reflexivity.
Qed.

(** When every model has the same metrics the best model is the first
    key. *)
Lemma best_model_first (r : BacktestResult) (first : string) (rest : list string) :
  let results := all_renamed r (first :: rest) [] in
  exists stats, _calculate_overall_stats results = Some stats /\
                best_model stats = first.
Proof.
  intros results.
  destruct (all_renamed_first r first rest) as [rest' Hkeys]. fold results in Hkeys.
  destruct (all_renamed_spec r (first :: rest) []) as [Hr [Hk _]]; [intros ? ? []|].
  fold results in Hr, Hk.
  assert (Hne : results <> []).
  { intros E. rewrite E in Hkeys. discriminate. }
  assert (Hkey : forall k, In k (dict_keys results) ->
            mape_key results k = mape_key results first).
  { assert (Hone : forall k, In k (dict_keys results) ->
              mape_key results k =
              match dict_get "mape" (metrics r) with
              | Some v => Val v
              | None => PosInf
              end).
    { intros k Hin. unfold mape_key.
      destruct (dict_get_Some_key k results Hin) as [v Hv]. rewrite Hv.
      apply dict_get_In, Hr in Hv. subst v. reflexivity. }
    intros k Hin. rewrite (Hone k Hin). symmetry. apply Hone.
    rewrite Hkeys. now left. }
  destruct (OverallStats.overall_stats_some results Hne)
    as [avg [best [pre [post [s [starts [e [ends
         [_ [Hb [_ [_ [_ [_ [_ Hstats]]]]]]]]]]]]]]].
  eexists. split; [exact Hstats|]. cbn [best_model].
  unfold py_min_by in Hb. rewrite Hkeys in Hb. cbn [py_best] in Hb.
  rewrite best_from_first in Hb; [now injection Hb|].
  intros y Hy. rewrite (Hkey y) by (rewrite Hkeys; now right).
  apply py_lt_inf_irrefl.
Qed.

End SyntheticBacktest.

Module RunBacktest.
Import Store Backtesting PyFacts DictFacts SyntheticBacktest Spec Samples.

Section Run.
Context `{NumpyRandom}.

(** C9. Every model of a [run_backtest] call is evaluated on the series
    generated after [np.random.seed(42)]: the outcome of
    [_backtest_model] is the same for every model name and every
    generator state on entry, up to the name field. So either the
    evaluation of the first model raises and the call raises with it, or
    every requested model gets the same metrics, rolling accuracy and
    period, and the reported best model is the first model in iteration
    order. *)
Theorem synthetic_backtest_best_is_first (today : Z)
    (aid period rolling_window forecast_horizon : string)
    (requested : list string) (analysis_results : dict Analysis) (st : rng)
    (analysis : Analysis) (first : string) (rest : list string) :
  dict_get aid analysis_results = Some analysis ->
  dict_keys (models analysis) = first :: rest ->
  let pd := _parse_period period in
  let wd := _parse_period rolling_window in
  let hd := _parse_period forecast_horizon in
  (forall n1 n2 st1 st2,
     _backtest_model today n1 pd wd hd requested st1 =
     rename_outcome n1 (_backtest_model today n2 pd wd hd requested st2)) /\
  match _backtest_model today first pd wd hd requested st with
  | Raise e =>
      run_backtest today aid period rolling_window forecast_horizon requested
                   analysis_results st = Raise e
  | Ok (r, st') =>
      exists out,
        run_backtest today aid period rolling_window forecast_horizon requested
                     analysis_results st = Ok (out, st') /\
        (forall n, In n (first :: rest) ->
           dict_get n (backtest_results out) = Some (rename n r)) /\
        exists stats, overall_stats out = Some stats /\ best_model stats = first
  end.
Proof.
  intros Hget Hkeys pd wd hd.
  split; [intros; apply backtest_model_rename|].
  unfold run_backtest, run_backtest_with. rewrite Hget, Hkeys.
  fold pd wd hd.
  destruct (_backtest_model today first pd wd hd requested st) as [[r st']|e] eqn:Ecore.
  - rewrite (backtest_loop_same
               (fun n s => _backtest_model today n pd wd hd requested s) r st').
    + cbn [bind]. eexists. split; [reflexivity|]. cbn [backtest_results overall_stats].
      split.
      * intros n Hn. now apply all_renamed_get.
      * apply best_model_first.
    + intros n s. rewrite (backtest_model_rename today n first pd wd hd requested s st).
      rewrite Ecore. reflexivity.
  - rewrite (backtest_loop_raises _ e); [reflexivity|exact Ecore].
Qed.

(** The random walk itself never raises. *)
Lemma random_walk_total (n : nat) (price : R) (st : rng) :
  exists prices st', random_walk n price st = Ok (prices, st') /\ length prices = n.
Proof.
  revert price st. induction n as [|n IH]; intros price st; cbn [random_walk].
  - now exists [], st.
  - rewrite Metrics.np_random_normal_ok by lra.
    destruct (normal (1 / 1000) (2 / 100) st) as [change st1]. cbn [bind].
    destruct (IH (price * (1 + change)) st1) as [prices [st' [Hw Hl]]].
    rewrite Hw. cbn [bind]. eexists. eexists. split; [reflexivity|].
    cbn [length]. now rewrite Hl.
Qed.

End Run.

Lemma synthetic_backtest_best_is_first_witness :
  @_backtest_model constant_rng 0 "arima" 30 7 7 ["mape"] tt =
  rename_outcome "arima" (@_backtest_model constant_rng 0 "prophet" 30 7 7 ["mape"] tt).
Proof.
  exact (proj1 (@synthetic_backtest_best_is_first constant_rng 0 "a1"
                  "30 Days" "7 Days" "7 Days" ["mape"] [("a1", sample_analysis)] tt
                  sample_analysis "arima" ["prophet"] eq_refl eq_refl)
               "arima" "prophet" tt tt).
Defined.

End RunBacktest.

(** The synthetic evaluation does return for a generator whose draws
    keep the prices positive; [constant_rng] is one. *)
Module ConstantRng.
Import Store Backtesting PyFacts DictFacts SyntheticBacktest Spec Samples.

Lemma In_removelast {A : Type} (x : A) (l : list A) : In x (removelast l) -> In x l.
Proof.
  induction l as [|y l IH]; cbn [removelast]; [easy|].
  destruct l as [|z l]; [easy|]. intros [<-|Hin]; [now left|right; now apply IH].
Qed.

Lemma random_walk_positive (n : nat) (price : R) :
  0 < price ->
  exists prices,
    @random_walk constant_rng n price tt = Ok (prices, tt) /\
    Forall (fun a => 0 < a) prices.
Proof.
  revert price. induction n as [|n IH]; intros price Hp; cbn [random_walk].
  - exists []. split; [reflexivity|constructor].
  - rewrite Metrics.np_random_normal_ok by lra. cbn [normal constant_rng bind].
    destruct (IH (price * (1 + 1 / 1000))) as [prices [Hw Hpos]]; [nra|].
    rewrite Hw. cbn [bind]. eexists. split; [reflexivity|].
    constructor; [nra|exact Hpos].
Qed.

Lemma mock_predictions_positive (prices : list R) :
  Forall (fun a => 0 < a) prices ->
  exists pe, @mock_predictions constant_rng prices tt = Ok (pe, tt).
Proof.
  induction 1 as [|a prices Ha _ [pe IH]]; cbn [mock_predictions].
  - eexists. reflexivity.
  - rewrite Metrics.np_random_normal_ok by lra. cbn [normal constant_rng bind].
    rewrite IH. cbn [bind]. eexists. reflexivity.
Qed.

Lemma compute_metrics_positive (requested : list string)
    (prices predicted errors : list R) :
  Forall (fun a => 0 < a) prices ->
  exists ms, compute_metrics requested prices predicted errors = Ok ms.
Proof.
  intros Hpos. unfold compute_metrics.
  destruct (str_in "sharpe" requested); [|eexists; reflexivity].
  unfold sharpe_metric. rewrite Metrics.period_returns_Ok.
  - cbn [bind]. eexists. reflexivity.
  - rewrite Forall_forall in *. intros a Ha. apply In_removelast, Hpos in Ha. lra.
Qed.

Lemma backtest_model_returns (today : Z) (name : string) (pd wd hd : nat)
    (requested : list string) :
  exists r, @_backtest_model constant_rng today name pd wd hd requested tt = Ok (r, tt).
Proof.
  unfold _backtest_model.
  destruct (random_walk_positive (n_dates pd) 180) as [prices [Hw Hpos]]; [lra|].
  cbn [np_seed constant_rng]. rewrite Hw. cbn [bind].
  destruct (mock_predictions_positive prices Hpos) as [pe Hp]. rewrite Hp. cbn [bind].
  destruct (compute_metrics_positive requested prices (fst pe) (snd pe) Hpos) as [ms Hm].
  rewrite Hm. cbn [bind]. eexists. reflexivity.
Qed.

(** A complete run: two models, both evaluated, the first one reported
    as best. *)
Lemma run_backtest_two_models :
  exists out stats,
    @run_backtest constant_rng 0 "a1" "30 Days" "7 Days" "7 Days"
                  ["mae"; "rmse"; "mape"; "sharpe"]
                  [("a1", sample_analysis)] tt = Ok (out, tt) /\
    dict_keys (backtest_results out) = ["arima"; "prophet"] /\
    overall_stats out = Some stats /\
    best_model stats = "arima".
Proof.
  destruct (backtest_model_returns 0 "arima" (_parse_period "30 Days")
              (_parse_period "7 Days") (_parse_period "7 Days")
              ["mae"; "rmse"; "mape"; "sharpe"]) as [r Hr].
  unfold run_backtest, run_backtest_with.
  cbn [dict_get String.eqb Ascii.eqb Bool.eqb sample_analysis models dict_keys map fst].
  rewrite (@backtest_loop_same constant_rng
             (fun n s => @_backtest_model constant_rng 0 n (_parse_period "30 Days")
                           (_parse_period "7 Days") (_parse_period "7 Days")
                           ["mae"; "rmse"; "mape"; "sharpe"] s) r tt).
  - cbn [bind]. destruct (best_model_first r "arima" ["prophet"]) as [stats [Hs Hb]].
    eexists. exists stats. split; [reflexivity|]. cbn [backtest_results overall_stats].
    split; [reflexivity|]. split; [exact Hs|exact Hb].
  - intros n []. rewrite (@backtest_model_rename constant_rng 0 n "arima" _ _ _ _ tt tt).
    rewrite Hr. reflexivity.
Qed.

End ConstantRng.

(* ================================================================== *)
(** * Part XIX. MAPE and Sharpe as reported by _backtest_model *)
(* ================================================================== *)

Module MetricClaims.
Import Store Backtesting PyFacts DictFacts Metrics Spec Samples.

Section Reported.
Context `{NumpyRandom}.

End Reported.





(** ** Returns that exist, returns that raise *)







Section Claims.
Context `{NumpyRandom}.


End Claims.





End MetricClaims.

(* ================================================================== *)
(** * Part XX. Failures inside a batch *)
(* ================================================================== *)

Module TrainFacts.
Import Store Models PyFacts DictFacts Spec Samples.

Section Train.
Context `{NumpyRandom} `{Imports}.

Lemma upd_refl (m : string) (job : Job) : upd m job job.
Proof. split; [reflexivity|auto]. Qed.

Lemma upd_trans (m : string) (j1 j2 j3 : Job) : upd m j1 j2 -> upd m j2 j3 -> upd m j1 j3.
Proof.
  intros [K1 G1] [K2 G2]. split; [congruence|].
  intros m' Hne. rewrite G2, G1; auto.
Qed.

Lemma bindM_ok {A B : Type} (m : M A) (k : A -> M B) (s s' : TrainState) (a : A) :
  m s = (Ok a, s') -> bindM m k s = k a s'.
Proof. intros E. unfold bindM. now rewrite E. Qed.

Lemma bindM_raise {A B : Type} (m : M A) (k : A -> M B) (s s' : TrainState) (e : exn) :
  m s = (Raise e, s') -> bindM m k s = (Raise e, s').
Proof. intros E. unfold bindM. now rewrite E. Qed.

Lemma set_job_step (aid : string) (f : Job -> Job) (s : TrainState) (job : Job)
    (a : Analysis) :
  view aid s job a ->
  exists s', set_job aid f s = (Ok tt, s') /\ view aid s' (f job) a.
Proof.
  intros [Hj Ha]. unfold set_job. rewrite Hj. eexists. split; [reflexivity|].
  split; cbn [training_jobs analysis_results]; [apply dict_get_set_same|exact Ha].
Qed.

Lemma set_model_job_step (aid m : string) (f : ModelJob -> ModelJob)
    (s : TrainState) (job : Job) (a : Analysis) (mj : ModelJob) :
  view aid s job a ->
  dict_get m (job_models job) = Some mj ->
  exists s' job',
    set_model_job aid m f s = (Ok tt, s') /\ view aid s' job' a /\
    upd m job job' /\ dict_get m (job_models job') = Some (f mj).
Proof.
  intros Hv Hm. unfold set_model_job.
  assert (Hg : get_job aid s = (Ok job, s)).
  { unfold get_job. destruct Hv as [Hj _]. now rewrite Hj. }
  rewrite (bindM_ok _ _ _ _ _ Hg). rewrite Hm.
  destruct (set_job_step aid
              (fun job => {| job_status := job_status job;
                             job_models := dict_set m (f mj) (job_models job);
                             job_error := job_error job |}) s job a Hv)
    as [s' [Es Hv']].
  exists s'. eexists. split; [exact Es|]. split; [exact Hv'|].
  cbn [job_models]. split; [split|].
  - apply dict_keys_set_present.
    destruct (dict_get_None m (job_models job)) as [_ Hn].
    destruct (in_dec string_dec m (dict_keys (job_models job))) as [Hin|Hnin]; [exact Hin|].
    rewrite (Hn Hnin) in Hm. discriminate.
  - intros m' Hne. now apply dict_get_set_other.
  - apply dict_get_set_same.
Qed.

Lemma set_model_job_missing (aid m : string) (f : ModelJob -> ModelJob)
    (s : TrainState) (job : Job) (a : Analysis) :
  view aid s job a ->
  dict_get m (job_models job) = None ->
  set_model_job aid m f s = (Raise (KeyError m), s).
Proof.
  intros [Hj _] Hm. unfold set_model_job, bindM, get_job. rewrite Hj, Hm. reflexivity.
Qed.

Lemma store_result_step (aid m : string) (r : ModelResult) (s : TrainState)
    (job : Job) (a : Analysis) :
  view aid s job a ->
  exists s',
    store_result aid m r s = (Ok tt, s') /\
    view aid s' job {| models := dict_set m r (models a);
                       request := request a;
                       created_at := created_at a |}.
Proof.
  intros [Hj Ha]. unfold store_result. rewrite Ha. eexists. split; [reflexivity|].
  split; cbn [training_jobs analysis_results]; [exact Hj|apply dict_get_set_same].
Qed.

Lemma mock_result_step (aid name : string) (ranges : list (string * (R * R)))
    (s : TrainState) (job : Job) (a : Analysis) :
  view aid s job a ->
  exists s' r,
    mock_result name ranges s = (Ok r, s') /\ view aid s' job a /\
    mr_model_name r = name /\ mr_status r = "completed".
Proof.
  intros [Hj Ha]. unfold mock_result.
  destruct (draw_metrics ranges (rng_state s)) as [ms st].
  eexists. eexists. split; [reflexivity|]. repeat split; assumption.
Qed.

(** The progress updates keep the status and the error of the entry. *)
Lemma progress_loop_step (aid m : string) (steps : list nat) (s : TrainState)
    (job : Job) (a : Analysis) (mj : ModelJob) :
  view aid s job a ->
  dict_get m (job_models job) = Some mj ->
  exists s' job' mj',
    for_each steps (fun progress => set_model_job aid m (with_progress progress)) s
      = (Ok tt, s') /\
    view aid s' job' a /\ upd m job job' /\
    dict_get m (job_models job') = Some mj' /\
    mj_status mj' = mj_status mj /\ mj_error mj' = mj_error mj.
Proof.
  revert s job mj. induction steps as [|p steps IH]; intros s job mj Hv Hm;
    cbn [for_each].
  - exists s, job, mj. split; [reflexivity|]. split; [exact Hv|].
    split; [apply upd_refl|]. auto.
  - destruct (set_model_job_step aid m (with_progress p) s job a mj Hv Hm)
      as [s1 [job1 [E1 [V1 [U1 G1]]]]].
    rewrite (bindM_ok _ _ _ _ _ E1).
    destruct (IH s1 job1 _ V1 G1) as [s2 [job2 [mj2 [E2 [V2 [U2 [G2 [S2 R2]]]]]]]].
    exists s2, job2, mj2. split; [exact E2|]. split; [exact V2|].
    split; [exact (upd_trans m _ _ _ U1 U2)|].
    split; [exact G2|]. split; [exact S2|exact R2].
Qed.

(** [_train_single_model]: a result for a trainable model, a
    [ValueError] for any other; in both cases only the progress of the
    model's own job entry has changed. *)
Lemma train_single_model_step (aid m : string) (s : TrainState) (job : Job)
    (a : Analysis) (mj : ModelJob) :
  view aid s job a ->
  dict_get m (job_models job) = Some mj ->
  exists s' job' mj',
    view aid s' job' a /\ upd m job job' /\
    dict_get m (job_models job') = Some mj' /\
    if trainable m
    then exists r, _train_single_model m aid s = (Ok r, s') /\
                   mr_model_name r = m /\ mr_status r = "completed"
    else _train_single_model m aid s = (Raise (ValueError (failure_message m)), s').
Proof.
  intros Hv Hm. unfold _train_single_model.
  destruct (progress_loop_step aid m (py_range 20 101 20) s job a mj Hv Hm)
    as [s1 [job1 [mj1 [E1 [V1 [U1 [G1 _]]]]]]].
  rewrite (bindM_ok _ _ _ _ _ E1).
  unfold trainable, failure_message.
  destruct (String.eqb m "arima") eqn:Ea.
  { apply String.eqb_eq in Ea. subst m.
    destruct (mock_result_step aid "arima"
                [ ("mae", (2, 4)); ("rmse", (3, 5)); ("mape", (15 / 10, 3));
                  ("aic", (100, 200)); ("bic", (110, 210)) ] s1 job1 a V1)
      as [s2 [r [E2 [V2 [N2 S2]]]]].
    exists s2, job1, mj1. split; [exact V2|]. split; [exact U1|]. split; [exact G1|].
    cbn [orb]. exists r. auto. }
  destruct (String.eqb m "prophet") eqn:Ep.
  { apply String.eqb_eq in Ep. subst m.
    destruct (mock_result_step aid "prophet"
                [ ("mae", (18 / 10, 35 / 10)); ("rmse", (25 / 10, 45 / 10));
                  ("mape", (12 / 10, 28 / 10)); ("coverage", (85 / 100, 95 / 100)) ]
                s1 job1 a V1)
      as [s2 [r [E2 [V2 [N2 S2]]]]].
    exists s2, job1, mj1. split; [exact V2|]. split; [exact U1|]. split; [exact G1|].
    cbn [orb]. exists r. auto. }
  destruct (String.eqb m "lstm") eqn:El.
  { apply String.eqb_eq in El. subst m. unfold _train_lstm.
    destruct HAS_TENSORFLOW; cbn [negb andb orb].
    - destruct (mock_result_step aid "lstm"
                  [ ("mae", (22 / 10, 42 / 10)); ("rmse", (32 / 10, 52 / 10));
                    ("mape", (18 / 10, 32 / 10)); ("val_loss", (1 / 100, 5 / 100)) ]
                  s1 job1 a V1)
        as [s2 [r [E2 [V2 [N2 S2]]]]].
      exists s2, job1, mj1. split; [exact V2|]. split; [exact U1|]. split; [exact G1|].
      exists r. auto.
    - exists s1, job1, mj1. split; [exact V1|]. split; [exact U1|]. split; [exact G1|].
      reflexivity. }
  destruct (String.eqb m "xgboost") eqn:Ex.
  { apply String.eqb_eq in Ex. subst m.
    destruct (mock_result_step aid "xgboost"
                [ ("mae", (25 / 10, 45 / 10)); ("rmse", (35 / 10, 55 / 10));
                  ("mape", (2, 35 / 10)); ("r2_score", (7 / 10, 9 / 10)) ]
                s1 job1 a V1)
      as [s2 [r [E2 [V2 [N2 S2]]]]].
    exists s2, job1, mj1. split; [exact V2|]. split; [exact U1|]. split; [exact G1|].
    cbn [orb]. exists r. auto. }
  cbn [orb andb].
  exists s1, job1, mj1. split; [exact V1|]. split; [exact U1|]. split; [exact G1|].
  reflexivity.
Qed.
End Train.

End TrainFacts.

Module TrainModels.
Import Store Models PyFacts DictFacts TrainFacts Spec Samples.

Section Train.
Context `{NumpyRandom} `{Imports}.

Lemma outcome_ext (m : string) (job job' : Job) (a a' : Analysis) :
  dict_get m (job_models job') = dict_get m (job_models job) ->
  dict_get m (models a') = dict_get m (models a) ->
  outcome m job a -> outcome m job' a'.
Proof.
  intros Ej Ea. unfold outcome. rewrite Ej, Ea. auto.
Qed.

Lemma dict_get_Some_In_keys {V : Type} (k : string) (v : V) (d : dict V) :
  dict_get k d = Some v -> In k (dict_keys d).
Proof.
  intros Hg. destruct (in_dec string_dec k (dict_keys d)) as [Hin|Hn]; [exact Hin|].
  apply dict_get_None in Hn. congruence.
Qed.

(** One iteration of the loop of [train_models]: it never raises, it
    touches only the entries of its own model, and it leaves them in
    the state [outcome]. *)
Lemma train_one_step (aid m : string) (s : TrainState) (job : Job) (a : Analysis)
    (mj : ModelJob) :
  view aid s job a ->
  dict_get m (job_models job) = Some mj ->
  stored_ok a ->
  exists s' job' a',
    train_one aid m s = (Ok tt, s') /\ view aid s' job' a' /\ upd m job job' /\
    (forall m', m' <> m -> dict_get m' (models a') = dict_get m' (models a)) /\
    outcome m job' a' /\ stored_ok a' /\
    (forall k, In k (dict_keys (models a')) -> k = m \/ In k (dict_keys (models a))).
Proof.
  intros Hv Hm Hok. unfold train_one, try_except.
  destruct (set_model_job_step aid m (with_status "training") s job a mj Hv Hm)
    as [s1 [job1 [E1 [V1 [U1 G1]]]]].
  rewrite (bindM_ok _ _ _ _ _ E1). cbv beta.
  destruct (set_model_job_step aid m (with_progress 10) s1 job1 a _ V1 G1)
    as [s2 [job2 [E2 [V2 [U2 G2]]]]].
  rewrite (bindM_ok _ _ _ _ _ E2). cbv beta.
  destruct (train_single_model_step aid m s2 job2 a _ V2 G2)
    as [s3 [job3 [mj3 [V3 [U3 [G3 Hcase]]]]]].
  pose proof (upd_trans m _ _ _ (upd_trans m _ _ _ U1 U2) U3) as U13.
  destruct (trainable m) eqn:Et.
  - destruct Hcase as [r [E3 [Hname Hstatus]]].
    rewrite (bindM_ok _ _ _ _ _ E3). cbv beta.
    destruct (store_result_step aid m r s3 job3 a V3) as [s4 [E4 V4]].
    rewrite (bindM_ok _ _ _ _ _ E4). cbv beta.
    destruct (set_model_job_step aid m (with_status "completed") s4 job3 _ mj3 V4 G3)
      as [s5 [job5 [E5 [V5 [U5 G5]]]]].
    rewrite (bindM_ok _ _ _ _ _ E5). cbv beta.
    destruct (set_model_job_step aid m (with_progress 100) s5 job5 _ _ V5 G5)
      as [s6 [job6 [E6 [V6 [U6 G6]]]]].
    rewrite E6.
    exists s6, job6. eexists. split; [reflexivity|]. split; [exact V6|].
    split; [exact (upd_trans m _ _ _ U13 (upd_trans m _ _ _ U5 U6))|].
    cbn [models]. split; [intros m' Hne; now apply dict_get_set_other|].
    split; [|split].
    + unfold outcome. rewrite Et. eexists. exists r.
      split; [exact G6|]. cbn [mj_status mj_progress with_progress with_status].
      split; [reflexivity|]. split; [reflexivity|].
      split; [apply dict_get_set_same|exact Hname].
    + intros k Hk. apply dict_keys_set_In in Hk.
      destruct Hk as [->|Hk]; [exact Et|now apply Hok].
    + intros k Hk. now apply dict_keys_set_In in Hk.
  - rewrite (bindM_raise _ _ _ _ _ Hcase).
    destruct (set_model_job_step aid m (with_status "failed") s3 job3 a mj3 V3 G3)
      as [s4 [job4 [E4 [V4 [U4 G4]]]]].
    rewrite (bindM_ok _ _ _ _ _ E4). cbv beta.
    destruct (set_model_job_step aid m
                (with_error (str_exn (ValueError (failure_message m))))
                s4 job4 a _ V4 G4)
      as [s5 [job5 [E5 [V5 [U5 G5]]]]].
    rewrite E5.
    exists s5, job5, a. split; [reflexivity|]. split; [exact V5|].
    split; [exact (upd_trans m _ _ _ U13 (upd_trans m _ _ _ U4 U5))|].
    split; [reflexivity|]. split; [|split; [exact Hok|auto]].
    unfold outcome. rewrite Et. eexists.
    split; [exact G5|]. cbn [mj_status mj_error with_error with_status str_exn].
    split; [reflexivity|]. split; [reflexivity|].
    apply dict_get_None. intros Hin. apply Hok in Hin. congruence.
Qed.

(** The whole loop. *)
Lemma train_loop (aid : string) (l : list string) (s : TrainState) (job : Job)
    (a : Analysis) :
  view aid s job a ->
  (forall m, In m l -> In m (dict_keys (job_models job))) ->
  stored_ok a ->
  exists s' job' a',
    for_each l (train_one aid) s = (Ok tt, s') /\ view aid s' job' a' /\
    dict_keys (job_models job') = dict_keys (job_models job) /\
    (forall m', ~ In m' l ->
       dict_get m' (job_models job') = dict_get m' (job_models job) /\
       dict_get m' (models a') = dict_get m' (models a)) /\
    (forall m, In m l -> outcome m job' a') /\ stored_ok a' /\
    (forall k, In k (dict_keys (models a')) -> In k l \/ In k (dict_keys (models a))).
Proof.
  revert s job a. induction l as [|m l IH]; intros s job a Hv Hkeys Hok; cbn [for_each].
  - exists s, job, a. split; [reflexivity|]. split; [exact Hv|].
    split; [reflexivity|]. split; [auto|]. split; [intros m []|]. split; [exact Hok|auto].
  - destruct (dict_get_Some_key m (job_models job)) as [mj Hm]; [apply Hkeys; now left|].
    destruct (train_one_step aid m s job a mj Hv Hm Hok)
      as [s1 [job1 [a1 [E1 [V1 [[K1 F1] [A1 [O1 [Ok1 S1]]]]]]]]].
    rewrite (bindM_ok _ _ _ _ _ E1). cbv beta.
    destruct (IH s1 job1 a1 V1) as [s2 [job2 [a2 [E2 [V2 [K2 [F2 [O2 [Ok2 S2]]]]]]]]].
    { intros m' Hm'. rewrite K1. apply Hkeys. now right. }
    { exact Ok1. }
    exists s2, job2, a2. split; [exact E2|]. split; [exact V2|].
    split; [congruence|]. split; [|split; [|split]].
    + intros m' Hn. destruct (F2 m') as [Fj Fa]; [intros Hin; apply Hn; now right|].
      assert (Hne : m' <> m) by (intros ->; apply Hn; now left).
      rewrite Fj, Fa, F1, A1 by exact Hne. auto.
    + intros m' [<-|Hin]; [|now apply O2].
      destruct (in_dec string_dec m l) as [Hin|Hn]; [now apply O2|].
      destruct (F2 m Hn) as [Fj Fa]. exact (outcome_ext m job1 job2 a1 a2 Fj Fa O1).
    + exact Ok2.
    + intros k Hk. destruct (S2 k Hk) as [Hl|H1]; [left; now right|].
      destruct (S1 k H1) as [->|Ha]; [left; now left|now right].
Qed.

(** C1 (as amended): [train_models]. When the job registry holds an
    entry for the analysis with one model entry per selected model, the
    call returns normally; every selected model that fails to train is
    marked ["failed"] in its own job entry, with the message of its
    exception, and has no stored result; every other selected model is
    trained, marked ["completed"] and stored. The stored results, which
    are the models [run_backtest] evaluates and aggregates, are exactly
    the selected models that trained. *)
Theorem train_models_isolates_failures (now : Z) (request : TrainRequest)
    (s : TrainState) (job : Job) :
  let aid := analysis_id request in
  dict_get aid (training_jobs s) = Some job ->
  (forall m, In m (selected_models request) -> In m (dict_keys (job_models job))) ->
  exists s' job' a',
    train_models now request s = (Ok tt, s') /\
    dict_get aid (training_jobs s') = Some job' /\
    dict_get aid (analysis_results s') = Some a' /\
    dict_keys (job_models job') = dict_keys (job_models job) /\
    (forall m, In m (selected_models request) -> outcome m job' a') /\
    (forall k, In k (dict_keys (models a')) <->
               In k (selected_models request) /\ trainable k = true).
Proof.
  intros aid Hj Hkeys. unfold train_models, try_except. fold aid.
  set (job0 := job_with_status "training" job).
  set (a0 := {| models := []; request := request; created_at := now |}).
  set (s0 := {| training_jobs := dict_set aid job0 (training_jobs s);
                analysis_results := dict_set aid a0 (analysis_results s);
                rng_state := rng_state s |}).
  assert (E0 : set_job aid (job_with_status "training") s =
               (Ok tt, {| training_jobs := dict_set aid job0 (training_jobs s);
                          analysis_results := analysis_results s;
                          rng_state := rng_state s |})).
  { unfold set_job. now rewrite Hj. }
  rewrite (bindM_ok _ _ _ _ _ E0). cbv beta.
  assert (Ei : forall s1, init_results now request s1 =
               (Ok tt, {| training_jobs := training_jobs s1;
                          analysis_results := dict_set aid a0 (analysis_results s1);
                          rng_state := rng_state s1 |})) by reflexivity.
  rewrite (bindM_ok _ _ _ _ _ (Ei _)). cbv beta.
  cbn [training_jobs analysis_results rng_state]. fold s0.
  assert (V0 : view aid s0 job0 a0).
  { split; cbn [s0 training_jobs analysis_results]; apply dict_get_set_same. }
  destruct (train_loop aid (selected_models request) s0 job0 a0 V0)
    as [s1 [job1 [a1 [E1 [V1 [K1 [_ [O1 [Ok1 S1]]]]]]]]].
  { exact Hkeys. }
  { intros k []. }
  rewrite (bindM_ok _ _ _ _ _ E1). cbv beta.
  assert (Eg : get_job aid s1 = (Ok job1, s1)).
  { unfold get_job. destruct V1 as [Hj1 _]. now rewrite Hj1. }
  rewrite (bindM_ok _ _ _ _ _ Eg). cbv beta.
  assert (Hkeys_models : forall k, In k (dict_keys (models a1)) <->
            In k (selected_models request) /\ trainable k = true).
  { intros k. split.
    - intros Hk. split; [|now apply Ok1].
      destruct (S1 k Hk) as [Hl|[]]. exact Hl.
    - intros [Hin Ht]. specialize (O1 k Hin). unfold outcome in O1. rewrite Ht in O1.
      destruct O1 as [mj [r [_ [_ [_ [Hr _]]]]]].
      exact (dict_get_Some_In_keys _ _ _ Hr). }
  destruct (all_finished job1).
  - destruct (set_job_step aid (job_with_status "completed") s1 job1 a1 V1)
      as [s2 [E2 [Hj2 Ha2]]].
    rewrite E2. exists s2, (job_with_status "completed" job1), a1.
    split; [reflexivity|]. split; [exact Hj2|]. split; [exact Ha2|].
    split; [exact K1|]. split; [|exact Hkeys_models].
    intros m Hm. exact (outcome_ext m job1 _ a1 a1 eq_refl eq_refl (O1 m Hm)).
  - destruct V1 as [Hj1 Ha1]. exists s1, job1, a1.
    split; [reflexivity|]. split; [exact Hj1|]. split; [exact Ha1|].
    split; [exact K1|]. split; [exact O1|exact Hkeys_models].
Qed.
End Train.

End TrainModels.

Module BatchFailures.
Import Store Models Backtesting PyFacts DictFacts TrainFacts TrainModels Spec Samples.

Lemma train_models_isolates_failures_witness :
  exists s' job' a',
    @train_models constant_rng no_tensorflow 0 three_request three_state = (Ok tt, s') /\
    dict_get "a1" (training_jobs s') = Some job' /\
    dict_get "a1" (analysis_results s') = Some a' /\
    dict_keys (job_models job') = ["arima"; "lstm"; "nope"] /\
    (forall m, In m ["arima"; "lstm"; "nope"] ->
       @outcome no_tensorflow m job' a') /\
    (forall k, In k (dict_keys (models a')) <->
               In k ["arima"; "lstm"; "nope"] /\ @trainable no_tensorflow k = true).
Proof.
  apply (@train_models_isolates_failures constant_rng no_tensorflow 0
           three_request three_state three_jobs).
  - reflexivity.
  - intros m Hm. exact Hm.
Defined.

(** Without a job entry for a selected model the handler of the loop
    raises itself ([KeyError]): the outer handler marks the whole
    analysis failed and the models after it are never trained. *)
Lemma train_models_missing_job_entry :
  exists s' job a,
    @train_models constant_rng no_tensorflow 0
       {| analysis_id := "a1"; selected_models := ["ghost"; "arima"] |}
       (@Build_TrainState constant_rng
          [("a1", {| job_status := "pending";
                     job_models := [("arima", fresh_entry)];
                     job_error := None |})] [] tt) = (Ok tt, s') /\
    dict_get "a1" (training_jobs s') = Some job /\
    job_status job = "failed" /\ job_error job = Some "'ghost'" /\
    dict_get "arima" (job_models job) = Some fresh_entry /\
    dict_get "a1" (analysis_results s') = Some a /\ models a = [].
Proof.
  eexists. eexists. eexists. split; [reflexivity|].
  cbn. repeat split; reflexivity.
Qed.

Lemma zero_walk (n : nat) (price : R) :
  exists prices,
    @random_walk zero_price_rng n price tt = Ok (prices, tt) /\
    Forall (fun a => a = 0) prices /\ length prices = n.
Proof.
  revert price. induction n as [|n IH]; intros price; cbn [random_walk].
  - exists []. repeat split. constructor.
  - rewrite Metrics.np_random_normal_ok by lra. cbn [normal zero_price_rng bind].
    destruct (IH (price * (1 + -1))) as [prices [Hw [Hz Hl]]].
    rewrite Hw. cbn [bind]. eexists. split; [reflexivity|]. split.
    + constructor; [ring|exact Hz].
    + cbn [length]. now rewrite Hl.
Qed.

Lemma zero_predictions (prices : list R) :
  Forall (fun a => a = 0) prices ->
  exists pe, @mock_predictions zero_price_rng prices tt = Ok (pe, tt).
Proof.
  induction 1 as [|a prices Ha _ [pe IH]]; cbn [mock_predictions].
  - eexists. reflexivity.
  - rewrite Metrics.np_random_normal_ok by (subst a; lra).
    cbn [normal zero_price_rng bind]. rewrite IH. cbn [bind]. eexists. reflexivity.
Qed.

(** With zero prices the returns divide by zero: the evaluation of a
    model raises when the Sharpe ratio is requested. *)
Lemma zero_price_model_raises (today : Z) (name : string) (pd wd hd : nat) :
  (1 <= pd)%nat ->
  @_backtest_model zero_price_rng today name pd wd hd ["sharpe"] tt
  = Raise ZeroDivisionError.
Proof.
  intros Hpd.
  unfold _backtest_model. cbn [np_seed zero_price_rng].
  destruct (zero_walk (n_dates pd) 180) as [prices [Hw [Hz Hl]]].
  rewrite Hw. cbn [bind].
  destruct (zero_predictions prices Hz) as [pe Hp]. rewrite Hp. cbn [bind].
  unfold n_dates in Hl.
  destruct prices as [|a prices]; [discriminate|].
  assert (Ha : a = 0) by (inversion Hz; assumption).
  unfold compute_metrics.
  assert (Hm : forall k, str_in k ["sharpe"] = String.eqb k "sharpe").
  { intros k. unfold str_in. cbn [existsb]. now rewrite orb_false_r. }
  rewrite !Hm. cbn [String.eqb Ascii.eqb Bool.eqb].
  unfold sharpe_metric, period_returns.
  destruct prices as [|b prices]; [cbn [length] in Hl; lia|].
  cbn [removelast tl combine mapM fst snd]. unfold py_div at 1.
  destruct (Req_dec_T a 0); [reflexivity|contradiction].
Qed.

(** C1, as stated, fails for [run_backtest]: its loop has no handler.
    With an evaluator that raises for "m1" only, the batch "m1", "m2"
    raises, although "m2" on its own evaluates; and with the module's
    own [_backtest_model], an evaluation that raises (here a division
    by a zero price) makes the whole call raise. No result entry, for
    the failed model or for the others, is returned. *)
Lemma run_backtest_aborts_on_failure :
  @run_backtest_with constant_rng failing_for_m1 0 "a1" "30 Days" "7 Days" "7 Days"
     ["mape"] [("a1", m1_m2)] tt = Raise (ValueError "evaluation failed") /\
  failing_for_m1 30 7 7 ["mape"] "m2" tt = Ok (result_of "m2", tt) /\
  @run_backtest zero_price_rng 0 "a1" "30 Days" "7 Days" "7 Days"
     ["sharpe"] [("a1", m1_m2)] tt = Raise ZeroDivisionError.
Proof.
  split; [reflexivity|]. split; [reflexivity|].
  unfold run_backtest, run_backtest_with.
  cbn [dict_get String.eqb Ascii.eqb Bool.eqb m1_m2 models dict_keys map fst].
  rewrite (@SyntheticBacktest.backtest_loop_raises zero_price_rng _ ZeroDivisionError).
  - reflexivity.
  - apply zero_price_model_raises. cbn. lia.
Qed.

End BatchFailures.

(* ================================================================== *)
(** * Part XXI. Feature importance *)
(* ================================================================== *)

Module ImportanceFacts.
Import FeatureEngineering PyFacts DictFacts Spec Samples.

Lemma insert_desc_perm (x : ImportanceEntry) (l : list ImportanceEntry) :
  Permutation (x :: l) (insert_desc x l).
Proof.
  induction l as [|y l IH]; cbn [insert_desc]; [reflexivity|].
  destruct (Rltb (importance x) (importance y)); [|reflexivity].
  rewrite perm_swap. now constructor.
Qed.

Lemma sort_desc_perm (l : list ImportanceEntry) : Permutation l (sort_desc l).
Proof.
  induction l as [|x l IH]; cbn [sort_desc fold_right]; [reflexivity|].
  rewrite <- insert_desc_perm. now constructor.
Qed.

Lemma insert_desc_sorted (x : ImportanceEntry) (l : list ImportanceEntry) :
  StronglySorted desc l -> StronglySorted desc (insert_desc x l).
Proof.
  induction 1 as [|y l Hs IH Hall]; cbn [insert_desc].
  - repeat constructor.
  - destruct (Rltb (importance x) (importance y)) eqn:E.
    + constructor; [exact IH|].
      apply Rltb_true in E.
      rewrite <- insert_desc_perm. constructor; [unfold desc; lra|exact Hall].
    + apply Rltb_false in E. constructor; [now constructor|].
      constructor; [exact E|].
      rewrite Forall_forall in *. intros z Hz. specialize (Hall z Hz).
      unfold desc in *. lra.
Qed.

Lemma sort_desc_sorted (l : list ImportanceEntry) : StronglySorted desc (sort_desc l).
Proof.
  induction l as [|x l IH]; cbn [sort_desc fold_right]; [constructor|].
  now apply insert_desc_sorted.
Qed.

Section Scores.
Context `{NumpyRandom}.

Lemma score_features_spec (names : list string) (st : rng) :
  uniform_in_range ->
  map feature (fst (score_features names st)) = names /\
  Forall score_ok (fst (score_features names st)).
Proof.
  intros Hu. revert st. induction names as [|n names IH]; intros st; cbn [score_features].
  - split; [reflexivity|constructor].
  - pose proof (Hu (1 / 10) (9 / 10) st ltac:(lra)) as Hr.
    destruct (uniform (1 / 10) (9 / 10) st) as [fallback st1]. cbn [fst] in Hr.
    destruct (IH st1) as [Hn Hs].
    destruct (score_features names st1) as [entries st2]. cbn [fst map feature] in *.
    split; [now rewrite Hn|].
    constructor; [|exact Hs]. unfold score_ok. cbn [feature importance].
    destruct (dict_get n importance_scores); [reflexivity|exact Hr].
Qed.

(** C10. The importance list has exactly one entry per generated
    feature (its feature names are a rearrangement of the keys of the
    feature table, without repetition), it is in non-increasing order
    of the score, and each score is the one of the static lookup table
    when the feature is listed there and a draw from [0.1, 0.9]
    otherwise. *)
Theorem feature_importance_sorted (features_data : dict FeatureInfo) (st : rng) :
  uniform_in_range ->
  let importance_list := fst (_calculate_feature_importance features_data st) in
  Permutation (dict_keys features_data) (map feature importance_list) /\
  length importance_list = length features_data /\
  (NoDup (dict_keys features_data) -> NoDup (map feature importance_list)) /\
  StronglySorted desc importance_list /\
  Forall score_ok importance_list.
Proof.
  intros Hu. unfold _calculate_feature_importance.
  destruct (score_features_spec (dict_keys features_data) st Hu) as [Hn Hs].
  destruct (score_features (dict_keys features_data) st) as [entries st'].
  cbn [fst] in *.
  assert (Hp : Permutation (dict_keys features_data) (map feature (sort_desc entries))).
  { rewrite <- Hn. apply Permutation_map, sort_desc_perm. }
  split; [exact Hp|]. split.
  - apply Permutation_length in Hp. rewrite length_map in Hp.
    unfold dict_keys in Hp. rewrite length_map in Hp. now symmetry.
  - split; [intros Hnd; exact (Permutation_NoDup Hp Hnd)|].
    split; [apply sort_desc_sorted|].
    rewrite Forall_forall in *. intros e He. apply Hs.
    apply (Permutation_in e (Permutation_sym (sort_desc_perm entries))). exact He.
Qed.
End Scores.

Lemma constant_rng_in_range : @uniform_in_range constant_rng.
Proof. intros low high st Hle. cbn. lra. Qed.

Lemma feature_importance_sorted_witness :
  StronglySorted desc
    (fst (@_calculate_feature_importance constant_rng close_and_gdp tt)).
Proof.
  exact (proj1 (proj2 (proj2 (proj2
           (@feature_importance_sorted constant_rng close_and_gdp tt
              constant_rng_in_range))))).
Defined.

End ImportanceFacts.

(* ================================================================== *)
(** * Part XXII. generate_features *)
(* ================================================================== *)

Module GenerateFacts.
Import FeatureEngineering PyFacts DictFacts Spec Samples.

Lemma length_insert_by_date (p : PricePoint) (l : DataFrame) :
  length (insert_by_date p l) = S (length l).
Proof.
  induction l as [|q l IH]; cbn [insert_by_date]; [reflexivity|].
  destruct (date q <=? date p)%Z; cbn [length]; [now rewrite IH|reflexivity].
Qed.

Lemma length_sort_index (rows : list PricePoint) :
  length (sort_index rows) = length rows.
Proof.
  unfold sort_index. rewrite <- (length_rev rows).
  induction (rev rows) as [|p l IH]; cbn [fold_right]; [reflexivity|].
  rewrite length_insert_by_date. cbn [length]. now rewrite IH.
Qed.

(** ** The date order of the frame *)

Lemma insert_by_date_perm (p : PricePoint) (l : DataFrame) :
  Permutation (p :: l) (insert_by_date p l).
Proof.
  induction l as [|q l IH]; cbn [insert_by_date]; [reflexivity|].
  destruct (date q <=? date p)%Z; [|reflexivity].
  rewrite perm_swap. now apply perm_skip.
Qed.

Lemma sort_index_snoc (rows : list PricePoint) (p : PricePoint) :
  sort_index (rows ++ [p]) = insert_by_date p (sort_index rows).
Proof. unfold sort_index. rewrite rev_app_distr. reflexivity. Qed.

Lemma sort_index_perm (rows : list PricePoint) : Permutation rows (sort_index rows).
Proof.
  induction rows as [|p rows IH] using rev_ind; [reflexivity|].
  rewrite sort_index_snoc, <- insert_by_date_perm.
  rewrite Permutation_app_comm. cbn [app]. now apply perm_skip.
Qed.

Lemma insert_by_date_sorted (p : PricePoint) (l : DataFrame) :
  StronglySorted by_date l -> StronglySorted by_date (insert_by_date p l).
Proof.
  induction 1 as [|q l Hs IH Hq]; cbn [insert_by_date].
  - constructor; constructor.
  - destruct (date q <=? date p)%Z eqn:E.
    + apply Z.leb_le in E. constructor; [exact IH|].
      rewrite <- insert_by_date_perm. constructor; assumption.
    + apply Z.leb_gt in E. constructor; [now constructor|].
      constructor; [unfold by_date; lia|].
      rewrite Forall_forall in *. intros r Hr. specialize (Hq r Hr).
      unfold by_date in *. lia.
Qed.

Lemma sort_index_sorted (rows : list PricePoint) : StronglySorted by_date (sort_index rows).
Proof.
  induction rows as [|p rows IH] using rev_ind; [constructor|].
  rewrite sort_index_snoc. now apply insert_by_date_sorted.
Qed.

Lemma insert_by_date_last (p : PricePoint) (l : DataFrame) :
  Forall (fun q => by_date q p) l -> insert_by_date p l = l ++ [p].
Proof.
  induction 1 as [|q l Hq _ IH]; cbn [insert_by_date app]; [reflexivity|].
  apply Z.leb_le in Hq. now rewrite Hq, IH.
Qed.

Lemma sorted_snoc_inv (rows : list PricePoint) (p : PricePoint) :
  StronglySorted by_date (rows ++ [p]) ->
  StronglySorted by_date rows /\ Forall (fun q => by_date q p) rows.
Proof.
  induction rows as [|q rows IH]; cbn [app]; intros Hs.
  - split; constructor.
  - inversion Hs as [|x l Hl Hall]; subst. destruct (IH Hl) as [Hs' Hf]. split.
    + constructor; [exact Hs'|]. rewrite Forall_forall in *.
      intros r Hr. apply Hall. apply in_app_iff. now left.
    + constructor; [|exact Hf]. rewrite Forall_forall in Hall. apply Hall.
      apply in_app_iff. right. now left.
Qed.

Lemma sort_index_sorted_id (rows : list PricePoint) :
  StronglySorted by_date rows -> sort_index rows = rows.
Proof.
  induction rows as [|p rows IH] using rev_ind; [reflexivity|].
  intros Hs. destruct (sorted_snoc_inv rows p Hs) as [Hs' Hf].
  rewrite sort_index_snoc, (IH Hs'). now apply insert_by_date_last.
Qed.

(** ** The tables of [_generate_feature] and the recognised names *)

Lemma price_columns_spec (f : string) : dict_get f price_columns = price_field f.
Proof. reflexivity. Qed.

Lemma mock_constants_spec (f : string) :
  dict_get f mock_constants = placeholder_constant f.
Proof. reflexivity. Qed.

Lemma library_features_spec : library_features = indicator_names.
Proof. reflexivity. Qed.

Lemma recognised_known (f : string) : known_feature f = recognised f.
Proof.
  unfold known_feature, recognised, dict_mem.
  rewrite price_columns_spec, mock_constants_spec, library_features_spec.
  destruct (price_field f); [reflexivity|].
  destruct (placeholder_constant f); [apply orb_true_r|apply orb_false_r].
Qed.

Lemma indicator_not_price (f : string) :
  In f indicator_names -> price_field f = None.
Proof.
  intros Hf.
  assert (Hall : forallb (fun f => match price_field f with
                                   | None => true
                                   | Some _ => false
                                   end) indicator_names = true)
    by (vm_compute; reflexivity).
  rewrite forallb_forall in Hall. specialize (Hall f Hf).
  destruct (price_field f); [discriminate|reflexivity].
Qed.

Lemma constant_not_other (f : string) (c : R) :
  placeholder_constant f = Some c ->
  price_field f = None /\ str_in f indicator_names = false.
Proof.
  unfold placeholder_constant.
  repeat match goal with
  | |- context [String.eqb f ?k] =>
      let E := fresh "E" in
      destruct (String.eqb f k) eqn:E;
        [apply String.eqb_eq in E; subst f; intros _; split; reflexivity|]
  end.
  discriminate.
Qed.

Section Generate.
Context `{IndicatorLibrary}.

(** An unknown name is skipped with a warning. *)
Lemma generate_unknown (df : DataFrame) (feature : string) :
  known_feature feature = false ->
  _generate_feature df feature = (None, [unknown_warning feature]).
Proof.
  unfold known_feature, _generate_feature, dict_mem.
  destruct (dict_get feature price_columns); [easy|].
  destruct (str_in feature library_features); [easy|].
  destruct (dict_get feature mock_constants); [easy|]. reflexivity.
Qed.

(** A known name never logs the warning. *)
Lemma generate_known (df : DataFrame) (feature : string) :
  known_feature feature = true ->
  ~ In (unknown_warning feature) (snd (_generate_feature df feature)).
Proof.
  unfold known_feature, _generate_feature, dict_mem.
  destruct (dict_get feature price_columns); [easy|].
  destruct (str_in feature library_features).
  - intros _. destruct (indicator feature df); cbn; [easy|]. intros [E|[]]. discriminate.
  - destruct (dict_get feature mock_constants); easy.
Qed.

Lemma known_never_warns (df : DataFrame) (f msg : string) :
  known_feature f = true -> ~ In (LogWarning msg) (snd (_generate_feature df f)).
Proof.
  unfold known_feature, _generate_feature, dict_mem.
  destruct (dict_get f price_columns); [easy|].
  destruct (str_in f library_features).
  - intros _. destruct (indicator f df); cbn; [easy|]. intros [E|[]]. discriminate.
  - destruct (dict_get f mock_constants); easy.
Qed.

(** The three kinds of recognised names. *)
Lemma generate_price (df : DataFrame) (f : string) (field : PricePoint -> pyfloat) :
  price_field f = Some field ->
  _generate_feature df f = (Some (map field df), []).
Proof.
  intros Hf. unfold _generate_feature. now rewrite price_columns_spec, Hf.
Qed.

Lemma generate_constant (df : DataFrame) (f : string) (c : R) :
  placeholder_constant f = Some c ->
  _generate_feature df f = (Some (repeat (Fin c) (length df)), []).
Proof.
  intros Hc. destruct (constant_not_other f c Hc) as [Hp Hl].
  unfold _generate_feature.
  now rewrite price_columns_spec, Hp, library_features_spec, Hl, mock_constants_spec, Hc.
Qed.

Lemma generate_indicator (df : DataFrame) (f : string) :
  In f indicator_names ->
  fst (_generate_feature df f) =
  match indicator f df with
  | Ok c => Some c
  | Raise _ => None
  end.
Proof.
  intros Hf. unfold _generate_feature.
  rewrite price_columns_spec, (indicator_not_price f Hf), library_features_spec.
  apply str_in_true in Hf. rewrite Hf.
  destruct (indicator f df); reflexivity.
Qed.

(** Generated columns are aligned with the frame. *)
Lemma generate_length (df : DataFrame) (feature : string) (c : column) :
  indicator_aligned ->
  fst (_generate_feature df feature) = Some c -> length c = length df.
Proof.
  intros Hal. unfold _generate_feature.
  destruct (dict_get feature price_columns) as [field|].
  - cbn. intros [= <-]. apply length_map.
  - destruct (str_in feature library_features).
    + destruct (indicator feature df) as [c'|e] eqn:E; cbn; [|easy].
      intros [= <-]. exact (Hal _ _ _ E).
    + destruct (dict_get feature mock_constants); cbn; [|easy].
      intros [= <-]. apply repeat_length.
Qed.

Lemma collect_features_cons (df : DataFrame) (f : string) (rest : list string)
    (acc : dict FeatureInfo) :
  collect_features df (f :: rest) acc =
  (fst (collect_features df rest
          (match fst (_generate_feature df f) with
           | Some c => dict_set f (entry f c) acc
           | None => acc
           end)),
   snd (_generate_feature df f) ++
   snd (collect_features df rest
          (match fst (_generate_feature df f) with
           | Some c => dict_set f (entry f c) acc
           | None => acc
           end))).
Proof.
  cbn [collect_features]. unfold entry.
  destruct (_generate_feature df f) as [[c|] log1]; cbn [fst snd];
    match goal with |- context [collect_features df rest ?a] =>
      destruct (collect_features df rest a) end; reflexivity.
Qed.

(** The loop over the requested names. *)
Lemma collect_features_spec (df : DataFrame) (names : list string)
    (acc : dict FeatureInfo) :
  let fd := fst (collect_features df names acc) in
  let log := snd (collect_features df names acc) in
  (forall f e, In f names -> In e (snd (_generate_feature df f)) -> In e log) /\
  (forall e, In e log -> exists f, In f names /\ In e (snd (_generate_feature df f))) /\
  (forall f c, In f names -> fst (_generate_feature df f) = Some c ->
     dict_get f fd = Some (entry f c)) /\
  (forall f, ~ In f names \/ fst (_generate_feature df f) = None ->
     dict_get f fd = dict_get f acc) /\
  (NoDup (dict_keys acc) -> NoDup (dict_keys fd)) /\
  (forall k v, In (k, v) fd ->
     In (k, v) acc \/
     (In k names /\ exists c, fst (_generate_feature df k) = Some c /\ v = entry k c)).
Proof.
  revert acc. induction names as [|f0 rest IH]; intros acc.
  - cbn. repeat split; try easy; auto.
  - rewrite collect_features_cons. cbn [fst snd].
    set (acc' := match fst (_generate_feature df f0) with
                 | Some c => dict_set f0 (entry f0 c) acc
                 | None => acc
                 end).
    destruct (IH acc') as [Hlog [Hlog' [Hget [Hframe [Hnd Hin]]]]].
    cbn zeta in *.
    assert (Hacc' : forall f, f <> f0 \/ fst (_generate_feature df f0) = None ->
              dict_get f acc' = dict_get f acc).
    { intros f Hf. unfold acc'.
      destruct (fst (_generate_feature df f0)) as [c|]; [|reflexivity].
      destruct Hf as [Hne|Hn]; [now apply dict_get_set_other|discriminate]. }
    split; [|split; [|split; [|split; [|split]]]].
    + intros f e [<-|Hf] He; apply in_app_iff; [now left|right; eauto].
    + intros e He. apply in_app_iff in He. destruct He as [He|He].
      * exists f0. split; [now left|exact He].
      * destruct (Hlog' e He) as [f [Hf Hfe]]. exists f. split; [now right|exact Hfe].
    + intros f c Hf Hc.
      destruct (in_dec string_dec f rest) as [Hr|Hnr]; [now apply Hget|].
      destruct Hf as [<-|Hf]; [|contradiction].
      rewrite Hframe by now left. unfold acc'. rewrite Hc. apply dict_get_set_same.
    + intros f Hf. rewrite Hframe.
      * apply Hacc'. destruct Hf as [Hf|Hf].
        -- left. intros ->. apply Hf. now left.
        -- destruct (string_dec f f0) as [->|Hne]; [now right|now left].
      * destruct Hf as [Hf|Hf]; [left; intros Hr; apply Hf; now right|now right].
    + intros Hn. apply Hnd. unfold acc'.
      destruct (fst (_generate_feature df f0)); [now apply dict_keys_set_NoDup|exact Hn].
    + intros k v Hkv. destruct (Hin k v Hkv) as [Ha|[Hk Hc]].
      * unfold acc' in Ha.
        destruct (fst (_generate_feature df f0)) as [c|] eqn:E; [|now left].
        apply dict_set_In_inv_key in Ha.
        destruct Ha as [[-> ->]|Ha]; [|now left].
        right. split; [now left|]. exists c. split; [exact E|reflexivity].
      * right. split; [now right|exact Hc].
Qed.

(** Requesting unknown names changes nothing in the table: it is the
    table of the request without them. *)
Lemma collect_features_filter (df : DataFrame) (names : list string)
    (acc : dict FeatureInfo) :
  fst (collect_features df names acc) =
  fst (collect_features df (filter known_feature names) acc).
Proof.
  revert acc. induction names as [|f rest IH]; intros acc; [reflexivity|].
  cbn [filter]. destruct (known_feature f) eqn:E.
  - rewrite !collect_features_cons. cbn [fst]. apply IH.
  - rewrite collect_features_cons. cbn [fst].
    rewrite (generate_unknown df f E). cbn [fst]. apply IH.
Qed.
End Generate.

Section Service.
Context `{NumpyRandom} `{IndicatorLibrary}.

(** The shape of the result for a non-empty series: nothing raises, and
    only the time stamp depends on the clock. *)
Lemma generate_features_form (now : Z) (ticker preset : string)
    (selected : list string) (rows : list PricePoint) (st : rng) :
  rows <> [] ->
  let df := sort_index rows in
  let to_generate := features_to_generate preset selected in
  let fd := fst (collect_features df to_generate []) in
  generate_features now ticker preset selected (Some rows) st =
  (Ok ({| features := fd;
          feature_importance := fst (_calculate_feature_importance fd st);
          correlation_matrix := _calculate_correlation_matrix fd;
          selected_features := to_generate;
          ticker := ticker;
          generated_at := now |},
       snd (_calculate_feature_importance fd st)),
   snd (collect_features df to_generate [])).
Proof.
  intros Hne. unfold generate_features.
  destruct rows as [|p rows]; [easy|].
  destruct (collect_features (sort_index (p :: rows))
              (features_to_generate preset selected) []) as [fd log].
  cbn [fst snd].
  destruct (_calculate_feature_importance fd st) as [imp st']. reflexivity.
Qed.

(** C8. For every non-empty series and every requested feature list
    [generate_features] returns a result, it does not raise. The frame
    is the series in ascending date order. Each requested name that is
    not recognised is skipped: a warning naming it is logged and it has
    no entry in the table; no other warning of that kind is logged. The
    recognised features are produced: a requested price feature (close,
    volume, open, high, low) is in the table with the values of that
    field, a requested placeholder feature (pe_ratio, market_cap,
    book_value, gdp, cpi, interest_rates) with its constant once per
    record, and a requested indicator with the column the indicator
    library computes on the frame (it has no entry when the library
    raises). With the "custom" preset the requested list is the
    selected one. And the table is the one of the request without the
    unrecognised names, which logs no such warning. *)
Theorem unknown_features_are_skipped (now : Z) (ticker preset : string)
    (selected : list string) (rows : list PricePoint) (st : rng) :
  rows <> [] ->
  let requested := features_to_generate preset selected in
  exists out st' log df,
    generate_features now ticker preset selected (Some rows) st = (Ok (out, st'), log) /\
    Permutation rows df /\ StronglySorted by_date df /\
    (forall f, In f requested -> recognised f = false ->
       In (unknown_warning f) log /\ dict_get f (features out) = None) /\
    (forall f, In (unknown_warning f) log ->
       In f requested /\ recognised f = false) /\
    (forall f field, In f requested -> price_field f = Some field ->
       exists info,
         dict_get f (features out) = Some info /\
         name info = f /\ values info = map field df) /\
    (forall f c, In f requested -> placeholder_constant f = Some c ->
       exists info,
         dict_get f (features out) = Some info /\
         name info = f /\ values info = repeat (Fin c) (length rows)) /\
    (forall f, In f requested -> In f indicator_names ->
       match indicator f df with
       | Ok c =>
           exists info,
             dict_get f (features out) = Some info /\
             name info = f /\ values info = c
       | Raise _ => dict_get f (features out) = None
       end) /\
    (preset = "custom" -> requested = selected) /\
    exists out2 st2 log2,
      generate_features now ticker "custom" (filter recognised requested) (Some rows) st
      = (Ok (out2, st2), log2) /\
      features out2 = features out /\
      (forall f, ~ In (unknown_warning f) log2).
Proof.
  intros Hne requested.
  rewrite (generate_features_form now ticker preset selected rows st Hne).
  fold requested.
  destruct (collect_features_spec (sort_index rows) requested [])
    as [Hlog [Hlog' [Hget [Hframe _]]]].
  cbn zeta in *.
  eexists. eexists. eexists. exists (sort_index rows).
  split; [reflexivity|]. cbn [features].
  split; [apply sort_index_perm|]. split; [apply sort_index_sorted|].
  split; [|split; [|split; [|split; [|split; [|split]]]]].
  - intros f Hf Hu. rewrite <- recognised_known in Hu. split.
    + apply (Hlog f _ Hf). rewrite (generate_unknown _ f Hu). now left.
    + rewrite Hframe; [reflexivity|]. right. now rewrite (generate_unknown _ f Hu).
  - intros f Hw. destruct (Hlog' _ Hw) as [g [Hg Hing]].
    destruct (known_feature g) eqn:Eg.
    + exfalso. exact (known_never_warns _ g _ Eg Hing).
    + rewrite (generate_unknown _ g Eg) in Hing. destruct Hing as [E|[]].
      unfold unknown_warning in E. cbn in E. injection E as ->.
      split; [exact Hg|]. now rewrite <- recognised_known.
  - intros f field Hf Hp. exists (entry f (map field (sort_index rows))).
    split; [|split; reflexivity].
    apply Hget; [exact Hf|]. now rewrite (generate_price _ f field Hp).
  - intros f c Hf Hc. exists (entry f (repeat (Fin c) (length rows))).
    split; [|split; reflexivity].
    apply Hget; [exact Hf|].
    now rewrite (generate_constant _ f c Hc), length_sort_index.
  - intros f Hf Hi. pose proof (generate_indicator (sort_index rows) f Hi) as E.
    destruct (indicator f (sort_index rows)) as [c|e].
    + exists (entry f c). split; [now apply Hget|split; reflexivity].
    + rewrite Hframe; [reflexivity|]. now right.
  - intros ->. reflexivity.
  - rewrite (generate_features_form now ticker "custom" (filter recognised requested)
               rows st Hne).
    cbn zeta.
    assert (Ec : forall l, features_to_generate "custom" l = l) by reflexivity.
    rewrite !Ec.
    eexists. eexists. eexists. split; [reflexivity|]. cbn [features]. split.
    + rewrite (collect_features_filter _ requested).
      now rewrite (filter_ext known_feature recognised recognised_known).
    + intros f Hw.
      destruct (collect_features_spec (sort_index rows) (filter recognised requested) [])
        as [_ [Hl2 _]].
      destruct (Hl2 _ Hw) as [g [Hg Hing]]. apply filter_In in Hg.
      destruct Hg as [_ Hr]. rewrite <- recognised_known in Hr.
      exact (known_never_warns _ g _ Hr Hing).
Qed.
End Service.

(** A request with an unknown name between two recognised ones: the
    unknown name is skipped with its warning, the closing prices and the
    placeholder constant are in the table. *)
Lemma unknown_features_are_skipped_witness :
  exists out st' log,
    @generate_features constant_rng failing_indicators 0 "ACME" "custom"
       ["close"; "moon_phase"; "pe_ratio"] (Some one_row) tt = (Ok (out, st'), log) /\
    In (unknown_warning "moon_phase") log /\
    dict_get "moon_phase" (features out) = None /\
    (exists info,
       dict_get "close" (features out) = Some info /\ values info = [Fin 11]) /\
    (exists info,
       dict_get "pe_ratio" (features out) = Some info /\
       values info = [Fin (205 / 10)]).
Proof.
  assert (Hne : one_row <> []) by discriminate.
  destruct (@unknown_features_are_skipped constant_rng failing_indicators 0 "ACME"
              "custom" ["close"; "moon_phase"; "pe_ratio"] one_row tt Hne)
    as [out [st' [log [df [E [Hp [_ [Hu [_ [Hprice [Hconst _]]]]]]]]]]].
  assert (Hdf : df = one_row) by (apply Permutation_length_1_inv; exact Hp).
  exists out, st', log. split; [exact E|].
  destruct (Hu "moon_phase") as [Hw Hn]; [right; now left|reflexivity|].
  split; [exact Hw|]. split; [exact Hn|]. split.
  - destruct (Hprice "close" close) as [info [Hg [_ Hv]]]; [now left|reflexivity|].
    exists info. split; [exact Hg|]. rewrite Hv, Hdf. reflexivity.
  - destruct (Hconst "pe_ratio" (205 / 10)) as [info [Hg [_ Hv]]];
      [right; right; now left|reflexivity|].
    exists info. split; [exact Hg|exact Hv].
Defined.

End GenerateFacts.

(* ================================================================== *)
(** * Part XXIII. Repeated calls of generate_features *)
(* ================================================================== *)

Module Idempotence.
Import FeatureEngineering PyFacts DictFacts GenerateFacts ImportanceFacts Spec Samples.

Section Calls.
Context `{NumpyRandom} `{IndicatorLibrary}.

Lemma score_features_names (names : list string) (st : rng) :
  map feature (fst (score_features names st)) = names.
Proof.
  revert st. induction names as [|n names IH]; intros st; cbn [score_features].
  - reflexivity.
  - destruct (uniform (1 / 10) (9 / 10) st) as [fallback st1].
    specialize (IH st1). destruct (score_features names st1) as [entries st2].
    cbn [fst map feature] in *. now rewrite IH.
Qed.


Lemma importance_names (fd : dict FeatureInfo) (st : rng) :
  Permutation (dict_keys fd) (map feature (fst (_calculate_feature_importance fd st))).
Proof.
  unfold _calculate_feature_importance.
  pose proof (score_features_names (dict_keys fd) st) as Hn.
  destruct (score_features (dict_keys fd) st) as [entries st']. cbn [fst] in *.
  rewrite <- Hn at 1. apply Permutation_map, sort_desc_perm.
Qed.


End Calls.


End Idempotence.

(* ================================================================== *)
(** * Part XXIV. The correlation matrix *)
(* ================================================================== *)

Module PearsonFacts.
Import FeatureEngineering PyFacts DictFacts Spec Samples.

Lemma complete_pairs_swap (x y : column) :
  complete_pairs y x = map swap (complete_pairs x y).
Proof.
  revert y. induction x as [|a x IH]; intros y.
  - destruct y as [|[b|] y]; reflexivity.
  - destruct y as [|b y]; [destruct a; reflexivity|].
    destruct a as [a|], b as [b|]; cbn [complete_pairs map]; rewrite IH; reflexivity.
Qed.

Lemma complete_pairs_diag (x : column) :
  complete_pairs x x = map (fun a => (a, a)) (finite_values x).
Proof.
  induction x as [|[a|] x IH]; cbn [complete_pairs finite_values map];
    [reflexivity|now rewrite IH|exact IH].
Qed.

Lemma map_fst_swap (ps : list (R * R)) : map fst (map swap ps) = map snd ps.
Proof. rewrite map_map. reflexivity. Qed.

Lemma map_snd_swap (ps : list (R * R)) : map snd (map swap ps) = map fst ps.
Proof. rewrite map_map. reflexivity. Qed.

Lemma sum_co_dev_swap (ps : list (R * R)) : sum_co_dev (map swap ps) = sum_co_dev ps.
Proof.
  unfold sum_co_dev. rewrite map_fst_swap, map_snd_swap, map_map.
  apply Rsum_map_ext. intros p _. cbn [swap fst snd]. ring.
Qed.

Lemma pearson_sym (x y : column) : pearson x y = pearson y x.
Proof.
  unfold pearson. rewrite (complete_pairs_swap x y).
  rewrite length_map, map_fst_swap, map_snd_swap, sum_co_dev_swap.
  rewrite (Rmult_comm (sum_sq_dev (map snd (complete_pairs x y)))).
  reflexivity.
Qed.

(** ** Cauchy-Schwarz *)

Lemma Rsum_squares_nonneg {A : Type} (f : A -> R) (l : list A) :
  0 <= Rsum (map (fun p => f p * f p) l).
Proof.
  apply Rsum_nonneg. rewrite Forall_forall. intros v Hv.
  apply in_map_iff in Hv. destruct Hv as [p [<- _]]. nra.
Qed.

Lemma cauchy_schwarz {A : Type} (f g : A -> R) (l : list A) :
  Rsum (map (fun p => f p * g p) l) * Rsum (map (fun p => f p * g p) l) <=
  Rsum (map (fun p => f p * f p) l) * Rsum (map (fun p => g p * g p) l).
Proof.
  induction l as [|p l IH]; cbn [map].
  - unfold Rsum. cbn. lra.
  - rewrite !Rsum_cons.
    pose proof (Rsum_squares_nonneg f l) as HA.
    pose proof (Rsum_squares_nonneg g l) as HB.
    set (A0 := Rsum (map (fun p => f p * f p) l)) in *.
    set (B0 := Rsum (map (fun p => g p * g p) l)) in *.
    set (C0 := Rsum (map (fun p => f p * g p) l)) in *.
    set (x := f p). set (y := g p).
    assert (Hkey : 2 * (C0 * (x * y)) <= A0 * (y * y) + B0 * (x * x)).
    { set (P := A0 * (y * y)). set (Q := B0 * (x * x)). set (T := C0 * (x * y)).
      assert (HP : 0 <= P) by (unfold P; nra).
      assert (HQ : 0 <= Q) by (unfold Q; nra).
      assert (HT : T * T <= P * Q).
      { unfold T, P, Q.
        replace (C0 * (x * y) * (C0 * (x * y))) with ((C0 * C0) * ((x * y) * (x * y))) by ring.
        replace (A0 * (y * y) * (B0 * (x * x))) with ((A0 * B0) * ((x * y) * (x * y))) by ring.
        apply Rmult_le_compat_r; [nra|exact IH]. }
      destruct (Rle_dec (2 * T) (P + Q)) as [Hle|Hgt]; [exact Hle|].
      exfalso. assert (H1 : P + Q < 2 * T) by lra.
      assert (H2 : (P + Q) * (P + Q) < (2 * T) * (2 * T)).
      { apply Rmult_le_0_lt_compat; lra. }
      pose proof (Rle_0_sqr (P - Q)) as H3. unfold Rsqr in H3.
      clearbody P Q T. nra. }
    unfold x, y in *. nra.
Qed.

(** ** The range of a coefficient *)

Lemma sum_sq_dev_fst (ps : list (R * R)) :
  sum_sq_dev (map fst ps) =
  Rsum (map (fun p => (fst p - mean_R (map fst ps)) * (fst p - mean_R (map fst ps))) ps).
Proof. unfold sum_sq_dev. now rewrite map_map. Qed.

Lemma sum_sq_dev_snd (ps : list (R * R)) :
  sum_sq_dev (map snd ps) =
  Rsum (map (fun p => (snd p - mean_R (map snd ps)) * (snd p - mean_R (map snd ps))) ps).
Proof. unfold sum_sq_dev. now rewrite map_map. Qed.

Lemma sum_sq_dev_nonneg (l : list R) : 0 <= sum_sq_dev l.
Proof. unfold sum_sq_dev. apply (Rsum_squares_nonneg (fun a => a - mean_R l)). Qed.

Lemma pearson_range (x y : column) (r : R) : pearson x y = Fin r -> -1 <= r <= 1.
Proof.
  unfold pearson. set (ps := complete_pairs x y).
  destruct (length ps <? 1)%nat; [easy|].
  set (ssx := sum_sq_dev (map fst ps)). set (ssy := sum_sq_dev (map snd ps)).
  destruct (Req_dec_T (sqrt (ssx * ssy)) 0) as [E|Hne]; [easy|].
  intros [= <-].
  pose proof (sum_sq_dev_nonneg (map fst ps)) as Hx. fold ssx in Hx.
  pose proof (sum_sq_dev_nonneg (map snd ps)) as Hy. fold ssy in Hy.
  assert (Hprod : 0 <= ssx * ssy) by nra.
  pose proof (sqrt_pos (ssx * ssy)) as Hd0.
  pose proof (sqrt_sqrt (ssx * ssy) Hprod) as Hdd.
  set (d := sqrt (ssx * ssy)) in *.
  assert (Hd : 0 < d) by lra.
  assert (Hcs : sum_co_dev ps * sum_co_dev ps <= ssx * ssy).
  { unfold ssx, ssy. rewrite sum_sq_dev_fst, sum_sq_dev_snd. unfold sum_co_dev.
    apply (cauchy_schwarz (fun p => fst p - mean_R (map fst ps))
                          (fun p => snd p - mean_R (map snd ps))). }
  set (c := sum_co_dev ps) in *.
  assert (Hc : - d <= c <= d) by nra.
  pose proof (Rinv_0_lt_compat d Hd) as Hi.
  assert (Hid : d * / d = 1) by (apply Rinv_r; lra).
  unfold Rdiv. split; nra.
Qed.

(** ** The diagonal *)

Lemma sum_co_dev_diag (l : list R) :
  sum_co_dev (map (fun a => (a, a)) l) = sum_sq_dev l.
Proof.
  unfold sum_co_dev, sum_sq_dev. rewrite !map_map. cbn [fst snd].
  rewrite map_id. reflexivity.
Qed.

Lemma pearson_diag (x : column) :
  pearson x x =
  if Req_dec_T (sum_sq_dev (finite_values x)) 0 then NaN else Fin 1.
Proof.
  unfold pearson. rewrite complete_pairs_diag, length_map.
  rewrite !map_map. cbn [fst snd]. rewrite map_id, sum_co_dev_diag.
  pose proof (sum_sq_dev_nonneg (finite_values x)) as Hs.
  set (S0 := sum_sq_dev (finite_values x)) in *.
  rewrite (sqrt_square S0 Hs).
  destruct (Req_dec_T S0 0) as [E|Hne].
  - destruct (length (finite_values x) <? 1)%nat; reflexivity.
  - destruct (finite_values x) as [|a l] eqn:El.
    + exfalso. apply Hne. unfold S0. reflexivity.
    + cbn [length Nat.ltb Nat.leb]. f_equal. now field.
Qed.

Lemma Rsum_zero_inv (l : list R) :
  Forall (fun v => 0 <= v) l -> Rsum l = 0 -> Forall (fun v => v = 0) l.
Proof.
  induction 1 as [|v l Hv Hl IH]; [constructor|].
  rewrite Rsum_cons. intros Hs. pose proof (Rsum_nonneg l Hl) as Hn.
  constructor; [lra|apply IH; lra].
Qed.

Lemma Rsum_constant (c : R) (l : list R) :
  (forall a, In a l -> a = c) -> Rsum l = INR (length l) * c.
Proof.
  induction l as [|a l IH]; intros Hc.
  - unfold Rsum. cbn. lra.
  - rewrite Rsum_cons, IH by (intros b Hb; apply Hc; now right).
    rewrite (Hc a) by now left.
    cbn [length]. rewrite S_INR. ring.
Qed.

(** The sum of squared deviations vanishes exactly on constant
    columns. *)
Lemma sum_sq_dev_zero (x : column) :
  sum_sq_dev (finite_values x) = 0 <-> constant_column x.
Proof.
  unfold constant_column. set (l := finite_values x). split.
  - intros Hz a b Ha Hb.
    assert (Hall : Forall (fun v => v = 0)
                     (map (fun a => (a - mean_R l) * (a - mean_R l)) l)).
    { apply Rsum_zero_inv; [|exact Hz].
      rewrite Forall_forall. intros v Hv. apply in_map_iff in Hv.
      destruct Hv as [p [<- _]]. apply (Rle_0_sqr (p - mean_R l)). }
    rewrite Forall_forall in Hall.
    assert (Hm : forall v, In v l -> v = mean_R l).
    { intros v Hv.
      assert (H0 : (v - mean_R l) * (v - mean_R l) = 0).
      { apply Hall. apply in_map_iff. now exists v. }
      apply Rmult_integral in H0. destruct H0; lra. }
    rewrite (Hm a Ha), (Hm b Hb). reflexivity.
  - intros Hc. destruct l as [|c l'] eqn:El; [reflexivity|].
    assert (Hall : forall a, In a (c :: l') -> a = c).
    { intros a Ha. apply Hc; [exact Ha|now left]. }
    assert (Hmean : mean_R (c :: l') = c).
    { unfold mean_R. rewrite (Rsum_constant c) by exact Hall.
      field. apply Rgt_not_eq. apply lt_0_INR. cbn. lia. }
    unfold sum_sq_dev. rewrite Hmean.
    rewrite (Rsum_constant 0).
    + ring.
    + intros v Hv. apply in_map_iff in Hv. destruct Hv as [a [<- Ha]].
      rewrite (Hall a Ha). ring.
Qed.

Lemma pearson_diag_constant (x : column) :
  (constant_column x -> fillna0 (pearson x x) = 0) /\
  (~ constant_column x -> fillna0 (pearson x x) = 1).
Proof.
  rewrite pearson_diag.
  destruct (Req_dec_T (sum_sq_dev (finite_values x)) 0) as [E|Hne]; cbn [fillna0]; split.
  - reflexivity.
  - intros Hn. exfalso. apply Hn. now apply sum_sq_dev_zero.
  - intros Hc. exfalso. apply Hne. now apply sum_sq_dev_zero.
  - reflexivity.
Qed.

Lemma fillna0_range (x y : column) : -1 <= fillna0 (pearson x y) <= 1.
Proof.
  destruct (pearson x y) as [r|] eqn:E; cbn [fillna0]; [|lra].
  now apply pearson_range in E.
Qed.

End PearsonFacts.

Module Correlation.
Import FeatureEngineering PyFacts DictFacts GenerateFacts PearsonFacts Spec Samples.

Lemma frame_columns_aligned (n : nat) (fd : dict FeatureInfo) :
  aligned_table n fd -> (0 < n)%nat -> frame_columns fd = columns_of fd.
Proof.
  unfold frame_columns, columns_of, aligned_table, dict_values.
  induction fd as [|[k v] fd IH]; intros Hal Hn; cbn [map snd filter]; [reflexivity|].
  rewrite (Hal k v) by now left.
  destruct (Nat.eqb_spec n 0) as [E|_]; [lia|]. cbn [negb].
  apply (f_equal (cons (values v))).
  apply IH; [|exact Hn]. intros k' v' Hin. apply (Hal k'). now right.
Qed.

Lemma same_length_aligned (n : nat) (cols : list column) :
  (forall c, In c cols -> length c = n) -> same_length cols = true.
Proof.
  intros Hc. destruct cols as [|c cols]; [reflexivity|]. cbn [same_length].
  apply forallb_forall. intros c' Hc'. apply Nat.eqb_eq.
  rewrite (Hc c) by now left. apply Hc. now right.
Qed.

Lemma columns_of_length (n : nat) (fd : dict FeatureInfo) :
  aligned_table n fd -> forall c, In c (columns_of fd) -> length c = n.
Proof.
  intros Hal c Hc. unfold columns_of, dict_values in Hc. rewrite map_map in Hc.
  apply in_map_iff in Hc. destruct Hc as [[k v] [<- Hin]]. exact (Hal k v Hin).
Qed.

(** On an aligned table with at least one row the matrix is the table
    of the pairwise coefficients with NaN replaced by 0. *)
Lemma correlation_matrix_aligned (n : nat) (fd : dict FeatureInfo) :
  aligned_table n fd -> (0 < n)%nat ->
  _calculate_correlation_matrix fd =
  map (fun x => map (fun y => fillna0 (pearson x y)) (columns_of fd)) (columns_of fd).
Proof.
  intros Hal Hn. unfold _calculate_correlation_matrix.
  rewrite (frame_columns_aligned n fd Hal Hn).
  rewrite (same_length_aligned n) by (apply columns_of_length; exact Hal).
  cbn [negb]. unfold corr. rewrite map_map.
  destruct (columns_of fd) as [|c cols] eqn:E; [reflexivity|].
  apply map_ext. intros x. now rewrite map_map.
Qed.

Lemma entry_at_map (F : column -> column -> R) (cols : list column) (i j : nat) :
  (i < length cols)%nat -> (j < length cols)%nat ->
  entry_at (map (fun x => map (fun y => F x y) cols) cols) i j =
  F (nth i cols []) (nth j cols []).
Proof.
  intros Hi Hj. unfold entry_at.
  rewrite (nth_indep _ [] ((fun x => map (fun y => F x y) cols) []))
    by (rewrite length_map; exact Hi).
  rewrite (map_nth (fun x => map (fun y => F x y) cols)).
  rewrite (nth_indep _ 0 (F (nth i cols []) [])) by (rewrite length_map; exact Hj).
  rewrite (map_nth (fun y => F (nth i cols []) y)). reflexivity.
Qed.

(** The properties of the matrix of an aligned table. *)
Lemma correlation_matrix_properties (n : nat) (fd : dict FeatureInfo) :
  aligned_table n fd -> (0 < n)%nat ->
  let cols := columns_of fd in
  let k := length fd in
  let M := _calculate_correlation_matrix fd in
  length M = k /\
  (forall row, In row M -> length row = k) /\
  (forall i j, (i < k)%nat -> (j < k)%nat ->
     entry_at M i j = fillna0 (pearson (nth i cols []) (nth j cols [])) /\
     entry_at M i j = entry_at M j i /\
     -1 <= entry_at M i j <= 1) /\
  (forall i, (i < k)%nat ->
     (constant_column (nth i cols []) -> entry_at M i i = 0) /\
     (~ constant_column (nth i cols []) -> entry_at M i i = 1)).
Proof.
  intros Hal Hn cols k M.
  assert (Hk : length cols = k).
  { unfold cols, columns_of, dict_values. now rewrite !length_map. }
  assert (HM : M = map (fun x => map (fun y => fillna0 (pearson x y)) cols) cols).
  { apply (correlation_matrix_aligned n fd Hal Hn). }
  assert (Hentry : forall i j, (i < k)%nat -> (j < k)%nat ->
            entry_at M i j = fillna0 (pearson (nth i cols []) (nth j cols []))).
  { intros i j Hi Hj. rewrite HM.
    apply (entry_at_map (fun x y => fillna0 (pearson x y))); lia. }
  split; [rewrite HM, length_map; exact Hk|].
  split.
  { intros row Hrow. rewrite HM in Hrow. apply in_map_iff in Hrow.
    destruct Hrow as [x [<- _]]. rewrite length_map. exact Hk. }
  split.
  - intros i j Hi Hj. split; [now apply Hentry|]. split.
    + rewrite (Hentry i j Hi Hj), (Hentry j i Hj Hi). f_equal. apply pearson_sym.
    + rewrite (Hentry i j Hi Hj). apply fillna0_range.
  - intros i Hi. rewrite (Hentry i i Hi Hi). apply pearson_diag_constant.
Qed.

Section Service.
Context `{NumpyRandom} `{IndicatorLibrary}.

(** The table [generate_features] builds is aligned with the frame. *)
Lemma collected_features_aligned (df : DataFrame) (names : list string) :
  indicator_aligned ->
  aligned_table (length df) (fst (collect_features df names [])).
Proof.
  intros Hal k v Hin.
  destruct (collect_features_spec df names []) as [_ [_ [_ [_ [_ Hsrc]]]]].
  destruct (Hsrc k v Hin) as [[]|[_ [c [Hc ->]]]].
  cbn [values entry]. exact (generate_length df k c Hal Hc).
Qed.

(** C2 (as amended). For every non-empty series the call returns a
    result whose correlation matrix is square over the generated
    columns, in the order of the feature table, and symmetric; every
    entry is the Pearson coefficient of its two columns over the rows
    where both hold a number, or 0 where that coefficient is undefined
    (NaN), and lies in [-1, 1]. A diagonal entry is 1.0 when the numbers
    of its column are not all the same, and 0 when they are (a constant
    column, a single row, or no number at all): the coefficient of such
    a column with itself is undefined and is replaced by 0. *)
Theorem correlation_matrix_spec (now : Z) (ticker preset : string)
    (selected : list string) (rows : list PricePoint) (st : rng) :
  indicator_aligned ->
  rows <> [] ->
  exists out st' log,
    generate_features now ticker preset selected (Some rows) st = (Ok (out, st'), log) /\
    let cols := columns_of (features out) in
    let k := length (features out) in
    let M := correlation_matrix out in
    length M = k /\
    (forall row, In row M -> length row = k) /\
    (forall i j, (i < k)%nat -> (j < k)%nat ->
       entry_at M i j = fillna0 (pearson (nth i cols []) (nth j cols [])) /\
       entry_at M i j = entry_at M j i /\
       -1 <= entry_at M i j <= 1) /\
    (forall i, (i < k)%nat ->
       (constant_column (nth i cols []) -> entry_at M i i = 0) /\
       (~ constant_column (nth i cols []) -> entry_at M i i = 1)).
Proof.
  intros Hal Hne.
  rewrite (generate_features_form now ticker preset selected rows st Hne).
  eexists. eexists. eexists. split; [reflexivity|].
  cbn [features correlation_matrix].
  apply (correlation_matrix_properties (length (sort_index rows))).
  - apply collected_features_aligned. exact Hal.
  - rewrite length_sort_index. destruct rows; [easy|cbn; lia].
Qed.
End Service.

Lemma failing_indicators_aligned : @indicator_aligned failing_indicators.
Proof. intros name df c E. discriminate E. Qed.

Lemma correlation_matrix_spec_witness :
  exists out st' log,
    @generate_features constant_rng failing_indicators 0 "ACME" "macro" []
       (Some two_rows) tt = (Ok (out, st'), log) /\
    length (correlation_matrix out) = length (features out).
Proof.
  assert (Hne : two_rows <> []) by discriminate.
  destruct (@correlation_matrix_spec constant_rng failing_indicators 0 "ACME" "macro"
              [] two_rows tt failing_indicators_aligned Hne)
    as [out [st' [log [E [Hlen _]]]]].
  exists out, st', log. split; [exact E|exact Hlen].
Defined.

Lemma constant_column_repeat (c : R) (n : nat) : constant_column (repeat (Fin c) n).
Proof.
  assert (Hf : forall a, In a (finite_values (repeat (Fin c) n)) -> a = c).
  { induction n as [|n IH]; cbn [repeat finite_values]; [easy|].
    intros a [<-|Ha]; [reflexivity|now apply IH]. }
  intros a b Ha Hb. rewrite (Hf a Ha), (Hf b Hb). reflexivity.
Qed.

(** C2, as stated, fails on the diagonal: with the "macro" preset the
    columns gdp, cpi and interest_rates are constants, their
    coefficient with themselves is undefined, and the diagonal entry is
    0, not 1.0. *)
Lemma diagonal_of_constant_feature_is_zero :
  exists out st' log,
    @generate_features constant_rng failing_indicators 0 "ACME" "macro" []
       (Some two_rows) tt = (Ok (out, st'), log) /\
    dict_keys (features out) = ["close"; "gdp"; "cpi"; "interest_rates"] /\
    entry_at (correlation_matrix out) 1 1 = 0 /\
    entry_at (correlation_matrix out) 1 1 <> 1.
Proof.
  rewrite (@generate_features_form constant_rng failing_indicators) by discriminate.
  eexists. eexists. eexists. split; [reflexivity|].
  cbn [features correlation_matrix].
  set (fd := fst (@collect_features failing_indicators (sort_index two_rows)
                    (features_to_generate "macro" []) [])).
  assert (Hkeys : dict_keys fd = ["close"; "gdp"; "cpi"; "interest_rates"]) by reflexivity.
  assert (Hcol : nth 1 (columns_of fd) [] = repeat (Fin (21 / 10)) 2) by reflexivity.
  assert (Hlen : length fd = 4%nat) by reflexivity.
  assert (Hal : aligned_table (length (sort_index two_rows)) fd).
  { apply (@collected_features_aligned failing_indicators).
    exact failing_indicators_aligned. }
  destruct (correlation_matrix_properties _ fd Hal) as [_ [_ [_ Hdiag]]].
  { cbn. lia. }
  destruct (Hdiag 1%nat) as [Hzero _]; [rewrite Hlen; lia|].
  rewrite Hcol in Hzero. specialize (Hzero (constant_column_repeat _ _)).
  split; [exact Hkeys|]. split; [exact Hzero|]. rewrite Hzero. lra.
Qed.

End Correlation.

(* ================================================================== *)
(** * Part XXV. More facts about dictionaries *)
(* ================================================================== *)

Module MoreDictFacts.
Import PyFacts DictFacts.

Lemma dict_In_get {V : Type} (k : string) (v : V) (d : dict V) :
  NoDup (dict_keys d) -> In (k, v) d -> dict_get k d = Some v.
Proof.
  induction d as [|[k' v'] d IH]; cbn [dict_keys map fst dict_get]; [easy|].
  intros Hnd [E|Hin].
  - injection E as -> ->. now rewrite String.eqb_refl.
  - apply NoDup_cons_iff in Hnd. destruct Hnd as [Hn Hnd].
    destruct (String.eqb k k') eqn:E.
    + apply String.eqb_eq in E. subst k'. exfalso. apply Hn.
      unfold dict_keys. change k with (fst (k, v)). now apply in_map.
    + now apply IH.
Qed.

Lemma dict_values_In {V : Type} (v : V) (d : dict V) :
  In v (dict_values d) <-> exists k, In (k, v) d.
Proof.
  unfold dict_values. rewrite in_map_iff. split.
  - intros [[k x] [E Hin]]. cbn in E. subst x. now exists k.
  - intros [k Hin]. now exists (k, v).
Qed.

End MoreDictFacts.

(* ================================================================== *)
(** * Part XXVI. run_backtest: outcomes and shape of the results *)
(* ================================================================== *)

Module BacktestShape.
Import Store Backtesting PyFacts DictFacts OverallStatsFacts SyntheticBacktest Spec Samples.

Lemma all_renamed_keys (r : BacktestResult) (names : list string)
    (acc : dict BacktestResult) :
  NoDup (dict_keys acc ++ names) ->
  dict_keys (all_renamed r names acc) = dict_keys acc ++ names.
Proof.
  revert acc. induction names as [|n names IH]; intros acc Hnd; unfold all_renamed;
    cbn [fold_left].
  - now rewrite app_nil_r.
  - assert (Hn : ~ In n (dict_keys acc)).
    { intros Hin. apply NoDup_remove_2 in Hnd. apply Hnd.
      apply in_app_iff. now left. }
    fold (all_renamed r names (dict_set n (rename n r) acc)).
    rewrite IH; rewrite (dict_keys_set_absent n _ acc Hn).
    + now rewrite <- app_assoc.
    + rewrite <- app_assoc. exact Hnd.
Qed.

(** The statistics are the empty dictionary exactly when there is no
    result. *)
Lemma overall_stats_none_iff (results : dict BacktestResult) :
  _calculate_overall_stats results = None <-> results = [].
Proof.
  split.
  - intros Hn. destruct results as [|kv results]; [reflexivity|].
    destruct (OverallStats.overall_stats_some (kv :: results))
      as [avg [best [pre [post [s [starts [e [ends [_ [_ [_ [_ [_ [_ [_ Hs]]]]]]]]]]]]]]];
      [easy|congruence].
  - intros ->. reflexivity.
Qed.

Section Run.
Context `{NumpyRandom}.

Lemma random_walk_length (n : nat) (price : R) (st st' : rng) (prices : list R) :
  random_walk n price st = Ok (prices, st') -> length prices = n.
Proof.
  intros Hw. destruct (RunBacktest.random_walk_total n price st) as [l [s [E Hl]]].
  rewrite E in Hw. injection Hw as <- _. exact Hl.
Qed.

(** The fields of one model's result. *)
Lemma backtest_model_shape (today : Z) (name : string) (pd wd hd : nat)
    (requested : list string) (st st' : rng) (r : BacktestResult) :
  _backtest_model today name pd wd hd requested st = Ok (r, st') ->
  model_name r = name /\
  total_predictions r = S pd /\
  period_start r = (today - Z.of_nat pd)%Z /\
  period_end r = today /\
  length (rolling_accuracy r) = (pd / 7)%nat.
Proof.
  unfold _backtest_model.
  destruct (random_walk (n_dates pd) 180 (np_seed 42)) as [[actual s1]|e] eqn:Ew;
    cbn [bind]; [|easy].
  destruct (mock_predictions actual s1) as [[pe s2]|e]; cbn [bind]; [|easy].
  destruct (compute_metrics requested actual (fst pe) (snd pe)) as [ms|e];
    cbn [bind]; [|easy].
  intros [= <- _].
  cbn [model_name total_predictions period_start period_end rolling_accuracy].
  apply random_walk_length in Ew. unfold n_dates in Ew.
  repeat split; try assumption.
  rewrite RollingAccuracy.rolling_accuracy_unfold, length_map, length_seq, Ew.
  cbn [Nat.sub]. now rewrite Nat.sub_0_r.
Qed.

(** X1. [run_backtest] on an unknown analysis raises the not-found
    [ValueError]; on an analysis without stored models it returns empty
    results and the empty statistics, leaving the generator untouched;
    otherwise it raises exactly the exception of the evaluation of the
    first model, if that raises. The statistics are empty only for an
    empty result dictionary. *)
Theorem run_backtest_outcomes (today : Z)
    (aid period rolling_window forecast_horizon : string)
    (requested : list string) (analysis_results : dict Analysis) (st : rng) :
  let run := run_backtest today aid period rolling_window forecast_horizon
                          requested analysis_results st in
  (dict_get aid analysis_results = None ->
   run = Raise (ValueError (String.append "Analysis "
                              (String.append aid " not found")))) /\
  (forall analysis,
     dict_get aid analysis_results = Some analysis -> models analysis = [] ->
     exists out, run = Ok (out, st) /\ backtest_results out = [] /\
                 overall_stats out = None) /\
  (forall analysis first rest,
     dict_get aid analysis_results = Some analysis ->
     dict_keys (models analysis) = first :: rest ->
     (forall e, run = Raise e <->
        _backtest_model today first (_parse_period period)
          (_parse_period rolling_window) (_parse_period forecast_horizon)
          requested st = Raise e) /\
     (forall out st', run = Ok (out, st') ->
        exists stats, overall_stats out = Some stats)).
Proof.
  intros run. subst run. unfold run_backtest, run_backtest_with.
  split; [|split].
  - intros Hn. now rewrite Hn.
  - intros analysis Hget Hm. rewrite Hget, Hm. cbn [dict_keys map backtest_loop bind].
    eexists. split; [reflexivity|]. split; reflexivity.
  - intros analysis first rest Hget Hkeys. rewrite Hget, Hkeys.
    set (pd := _parse_period period). set (wd := _parse_period rolling_window).
    set (hd := _parse_period forecast_horizon).
    destruct (_backtest_model today first pd wd hd requested st) as [[r s1]|e0] eqn:Ecore.
    + rewrite (backtest_loop_same
                 (fun n s => _backtest_model today n pd wd hd requested s) r s1).
      * cbn [bind]. split.
        -- intros e. split; intros Hx; discriminate Hx.
        -- intros out st' [= <- _]. cbn [overall_stats].
           destruct (best_model_first r first rest) as [stats [Hs _]].
           exists stats. exact Hs.
      * intros n s.
        rewrite (backtest_model_rename today n first pd wd hd requested s st).
        rewrite Ecore. reflexivity.
    + rewrite (backtest_loop_raises _ e0); [|exact Ecore]. cbn [bind]. split.
      * intros e. split; intros Hx; injection Hx as <-; reflexivity.
      * intros out st' Hx. discriminate Hx.
Qed.

(** X2. The results of a call that returns: one entry per stored model,
    in the order of the stored models, each carrying its own key as
    model name, [period_days + 1] predictions (at least two), the
    period from [today - period_days] to [today], and one rolling
    accuracy entry per full week before the last day. *)
Theorem run_backtest_shape (today : Z)
    (aid period rolling_window forecast_horizon : string)
    (requested : list string) (analysis_results : dict Analysis) (st st' : rng)
    (analysis : Analysis) (out : BacktestOutput) :
  dict_get aid analysis_results = Some analysis ->
  NoDup (dict_keys (models analysis)) ->
  run_backtest today aid period rolling_window forecast_horizon requested
               analysis_results st = Ok (out, st') ->
  let pd := _parse_period period in
  out_analysis_id out = aid /\ completed_at out = today /\
  p_metrics (parameters out) = requested /\
  dict_keys (backtest_results out) = dict_keys (models analysis) /\
  (forall k r, dict_get k (backtest_results out) = Some r ->
     model_name r = k /\
     total_predictions r = S pd /\ (2 <= total_predictions r)%nat /\
     period_start r = (today - Z.of_nat pd)%Z /\ period_end r = today /\
     length (rolling_accuracy r) = (pd / 7)%nat).
Proof.
  intros Hget Hnd Hrun pd.
  unfold run_backtest, run_backtest_with in Hrun. rewrite Hget in Hrun.
  fold pd in Hrun.
  set (wd := _parse_period rolling_window) in *.
  set (hd := _parse_period forecast_horizon) in *.
  destruct (dict_keys (models analysis)) as [|first rest] eqn:Hkeys.
  - cbn [backtest_loop bind] in Hrun. injection Hrun as <- _.
    cbn [out_analysis_id completed_at parameters p_metrics backtest_results].
    split; [reflexivity|]. split; [reflexivity|]. split; [reflexivity|].
    split; [reflexivity|]. intros k r Hx. discriminate Hx.
  - destruct (_backtest_model today first pd wd hd requested st) as [[r0 s1]|e0] eqn:Ecore.
    + rewrite (backtest_loop_same
                 (fun n s => _backtest_model today n pd wd hd requested s) r0 s1) in Hrun.
      * cbn [bind] in Hrun. injection Hrun as <- _.
        cbn [out_analysis_id completed_at parameters p_metrics backtest_results].
        split; [reflexivity|]. split; [reflexivity|]. split; [reflexivity|].
        split; [now rewrite all_renamed_keys|].
        intros k r Hk.
        destruct (all_renamed_spec r0 (first :: rest) []) as [Hr _]; [intros ? ? []|].
        apply dict_get_In, Hr in Hk. subst r.
        destruct (backtest_model_shape _ _ _ _ _ _ _ _ _ Ecore)
          as [_ [Ht [Hs [He Hl]]]].
        cbn [rename model_name total_predictions period_start period_end
             rolling_accuracy].
        assert (Hpd : (1 <= pd)%nat).
        { unfold pd, _parse_period.
          destruct (dict_get period period_map) as [d|] eqn:Ed; [|lia].
          apply dict_get_In in Ed. cbn in Ed.
          repeat (destruct Ed as [Ed|Ed]; [injection Ed as _ <-; lia|]).
          destruct Ed. }
        repeat split; try assumption. rewrite Ht. lia.
      * intros n s.
        rewrite (backtest_model_rename today n first pd wd hd requested s st).
        rewrite Ecore. reflexivity.
    + rewrite (backtest_loop_raises _ e0) in Hrun; [|exact Ecore]. discriminate Hrun.
Qed.
End Run.

Lemma run_backtest_shape_witness :
  exists out,
    @run_backtest constant_rng 0 "a1" "30 Days" "7 Days" "7 Days"
                  ["mae"; "rmse"; "mape"; "sharpe"]
                  [("a1", sample_analysis)] tt = Ok (out, tt) /\
    dict_keys (backtest_results out) = dict_keys (models sample_analysis).
Proof.
  destruct ConstantRng.run_backtest_two_models as [out [stats [Hrun _]]].
  exists out. split; [exact Hrun|].
  assert (Hnd : NoDup (dict_keys (models sample_analysis))).
  { cbn. repeat constructor; cbn; intuition discriminate. }
  exact (proj1 (proj2 (proj2 (proj2
           (@run_backtest_shape constant_rng 0 "a1" "30 Days" "7 Days" "7 Days"
              ["mae"; "rmse"; "mape"; "sharpe"] [("a1", sample_analysis)] tt tt
              sample_analysis out eq_refl Hnd Hrun))))).
Defined.

End BacktestShape.

(* ================================================================== *)
(** * Part XXVII. The metrics reported by _backtest_model *)
(* ================================================================== *)

Module MetricFacts.
Import Store Backtesting PyFacts DictFacts Metrics PearsonFacts Spec Samples MoreSpec.

Lemma compute_metrics_keys (requested : list string)
    (actual predicted errors : list R) (ms : dict pyfloat) :
  compute_metrics requested actual predicted errors = Ok ms ->
  dict_keys ms = filter (fun k => str_in k requested) known_metrics.
Proof.
  unfold compute_metrics, known_metrics. cbn [filter].
  destruct (str_in "mae" requested), (str_in "rmse" requested),
           (str_in "mape" requested), (str_in "sharpe" requested);
    try (destruct (sharpe_metric actual) as [sh|e]; cbn [bind]; [|easy]);
    intros [= <-]; reflexivity.
Qed.

(** ** MAE and RMSE *)

Lemma Rsum_ones {A : Type} (l : list A) : Rsum (map (fun _ => 1 * 1) l) = INR (length l).
Proof.
  induction l as [|x l IH]; [reflexivity|].
  cbn [map]. rewrite Rsum_cons, IH. cbn [length]. rewrite S_INR. ring.
Qed.

Lemma Rsum_abs_nonneg (l : list R) : 0 <= Rsum (map Rabs l).
Proof.
  apply Rsum_nonneg. rewrite Forall_forall. intros v Hv.
  apply in_map_iff in Hv. destruct Hv as [x [<- _]]. apply Rabs_pos.
Qed.

(** The mean absolute value is at most the root of the mean square. *)
Lemma mean_abs_le_root_mean_square (l : list R) :
  l <> [] ->
  0 <= mean_R (map Rabs l) <= sqrt (mean_R (map (fun x => x * x) l)).
Proof.
  intros Hne.
  assert (Hn : 0 < INR (length l)) by now apply INR_length_pos.
  pose proof (Rsum_abs_nonneg l) as H1.
  pose proof (cauchy_schwarz Rabs (fun _ => 1) l) as Hcs.
  rewrite Rsum_ones in Hcs.
  assert (Habs : Rsum (map (fun p => Rabs p * Rabs p) l) = Rsum (map (fun x => x * x) l)).
  { apply Rsum_map_ext. intros x _.
    unfold Rabs. destruct (Rcase_abs x); ring. }
  rewrite Habs in Hcs.
  assert (Hone : Rsum (map (fun p => Rabs p * 1) l) = Rsum (map Rabs l)).
  { apply Rsum_map_ext. intros x _. ring. }
  rewrite Hone in Hcs.
  unfold mean_R. rewrite !length_map.
  set (S1 := Rsum (map Rabs l)) in *. set (S2 := Rsum (map (fun x => x * x) l)) in *.
  set (n := INR (length l)) in *.
  assert (Hi : 0 < / n) by now apply Rinv_0_lt_compat.
  assert (Hm : 0 <= S1 / n) by (unfold Rdiv; clearbody S1 n; nra).
  split; [exact Hm|].
  rewrite <- (sqrt_square (S1 / n) Hm).
  apply sqrt_le_1_alt.
  assert (Hnn : n * / n = 1) by (apply Rinv_r; lra).
  unfold Rdiv. clearbody S1 S2 n.
  assert (Hgoal : S1 * / n * (S1 * / n) = (S1 * S1) * (/ n * / n)) by ring.
  rewrite Hgoal.
  assert (Hrhs : S2 * / n = (S2 * n) * (/ n * / n)).
  { replace (S2 * n * (/ n * / n)) with (S2 * / n * (n * / n)) by ring.
    rewrite Hnn. ring. }
  rewrite Hrhs. apply Rmult_le_compat_r; [nra|exact Hcs].
Qed.

Lemma combine_map_diff (f : R * R -> R) (g : R -> R) (actual predicted : list R) :
  (forall ap, f ap = g (fst ap - snd ap)) ->
  map f (combine actual predicted) =
  map g (map (fun ap => fst ap - snd ap) (combine actual predicted)).
Proof. intros E. rewrite map_map. apply map_ext. exact E. Qed.

(** The MAE of a sequence of pairs never exceeds its RMSE. *)
Lemma mae_le_rmse_lists (actual predicted : list R) :
  combine actual predicted <> [] ->
  exists m q,
    mae_metric (map (fun ap => Rabs (fst ap - snd ap)) (combine actual predicted)) = Fin m /\
    rmse_metric actual predicted = Fin q /\ 0 <= m <= q.
Proof.
  intros Hne. unfold mae_metric, rmse_metric.
  set (ds := map (fun ap => fst ap - snd ap) (combine actual predicted)).
  assert (Hds : ds <> []).
  { unfold ds. destruct (combine actual predicted); [easy|discriminate]. }
  rewrite (combine_map_diff (fun ap => Rabs (fst ap - snd ap)) Rabs) by reflexivity.
  rewrite (combine_map_diff (fun ap => (fst ap - snd ap) * (fst ap - snd ap))
             (fun x => x * x)) by reflexivity.
  fold ds.
  exists (mean_R (map Rabs ds)), (sqrt (mean_R (map (fun x => x * x) ds))).
  split; [|split].
  - destruct ds; [easy|reflexivity].
  - destruct ds; [easy|reflexivity].
  - now apply mean_abs_le_root_mean_square.
Qed.

Section Reported.
Context `{NumpyRandom}.

(** The recorded errors are the absolute differences of the series. *)
Lemma mock_predictions_errors (actual : list R) (st st' : rng)
    (predicted errors : list R) :
  mock_predictions actual st = Ok ((predicted, errors), st') ->
  errors = map (fun ap => Rabs (fst ap - snd ap)) (combine actual predicted).
Proof.
  revert st st' predicted errors.
  induction actual as [|a actual IH]; intros st st' predicted errors.
  - cbn. now intros [= <- <- _].
  - cbn [mock_predictions].
    destruct (np_random_normal 0 (a * (3 / 100)) st) as [[e s1]|]; cbn [bind]; [|easy].
    destruct (mock_predictions actual s1) as [[[ps es] s2]|] eqn:Ep;
      cbn [bind fst snd]; [|easy].
    intros [= <- <- _]. cbn [combine map fst snd].
    rewrite (IH _ _ _ _ Ep). f_equal.
    replace (a - (a + e)) with (- e) by ring. now rewrite Rabs_Ropp.
Qed.

Lemma backtest_model_series (today : Z) (name : string) (pd wd hd : nat)
    (requested : list string) (st st' : rng) (r : BacktestResult) :
  _backtest_model today name pd wd hd requested st = Ok (r, st') ->
  exists actual predicted errors,
    length actual = S pd /\ length predicted = S pd /\
    errors = map (fun ap => Rabs (fst ap - snd ap)) (combine actual predicted) /\
    compute_metrics requested actual predicted errors = Ok (metrics r) /\
    rolling_accuracy r = _calculate_rolling_accuracy today actual predicted.
Proof.
  unfold _backtest_model.
  destruct (random_walk (n_dates pd) 180 (np_seed 42)) as [[actual s1]|e] eqn:Ew;
    cbn [bind]; [|easy].
  destruct (mock_predictions actual s1) as [[[predicted errors] s2]|e] eqn:Ep;
    cbn [bind fst snd]; [|easy].
  destruct (compute_metrics requested actual predicted errors) as [ms|e] eqn:Em;
    cbn [bind]; [|easy].
  intros [= <- _]. cbn [metrics rolling_accuracy].
  exists actual, predicted, errors.
  apply BacktestShape.random_walk_length in Ew. unfold n_dates in Ew.
  destruct (mock_predictions_length _ _ _ _ _ Ep) as [Hlp _].
  split; [exact Ew|]. split; [congruence|].
  split; [exact (mock_predictions_errors _ _ _ _ _ Ep)|]. split; [exact Em|reflexivity].
Qed.

(** X3. The metric dictionary of a result holds exactly the requested
    metrics among mae, rmse, mape and sharpe, in that order; any other
    requested name is ignored. *)
Theorem reported_metrics_are_the_requested_ones (today : Z) (name : string)
    (pd wd hd : nat) (requested : list string) (st st' : rng) (r : BacktestResult) :
  _backtest_model today name pd wd hd requested st = Ok (r, st') ->
  dict_keys (metrics r) = filter (fun k => str_in k requested) known_metrics /\
  (forall k, dict_get k (metrics r) <> None <->
             In k known_metrics /\ In k requested).
Proof.
  intros Hrun.
  destruct (backtest_model_series _ _ _ _ _ _ _ _ _ Hrun)
    as [actual [predicted [errors [_ [_ [_ [Hm _]]]]]]].
  pose proof (compute_metrics_keys _ _ _ _ _ Hm) as Hk.
  split; [exact Hk|]. intros k.
  rewrite <- (str_in_true k requested).
  rewrite <- (filter_In (fun k => str_in k requested) k known_metrics), <- Hk.
  split.
  - intros Hne. destruct (dict_get k (metrics r)) eqn:E; [|easy].
    destruct (in_dec string_dec k (dict_keys (metrics r))) as [Hin|Hn]; [exact Hin|].
    apply dict_get_None in Hn. congruence.
  - intros Hin. destruct (dict_get_Some_key k _ Hin) as [v Hv]. now rewrite Hv.
Qed.

(** X4. The reported MAE and RMSE are numbers (never NaN), and
    [0 <= MAE <= RMSE]. *)
Theorem reported_mae_at_most_rmse (today : Z) (name : string)
    (pd wd hd : nat) (requested : list string) (st st' : rng) (r : BacktestResult) :
  _backtest_model today name pd wd hd requested st = Ok (r, st') ->
  (forall v, dict_get "mae" (metrics r) = Some v -> exists m, v = Fin m /\ 0 <= m) /\
  (forall v, dict_get "rmse" (metrics r) = Some v -> exists q, v = Fin q /\ 0 <= q) /\
  (forall m q, dict_get "mae" (metrics r) = Some (Fin m) ->
               dict_get "rmse" (metrics r) = Some (Fin q) -> m <= q).
Proof.
  intros Hrun.
  destruct (backtest_model_series _ _ _ _ _ _ _ _ _ Hrun)
    as [actual [predicted [errors [Hla [Hlp [He [Hm _]]]]]]].
  assert (Hne : combine actual predicted <> []).
  { destruct actual, predicted; cbn in *; try discriminate. }
  destruct (mae_le_rmse_lists actual predicted Hne) as [m0 [q0 [Hmae [Hrmse Hle]]]].
  rewrite <- He in Hmae.
  assert (Hgm : forall v, dict_get "mae" (metrics r) = Some v -> v = Fin m0).
  { intros v. unfold compute_metrics in Hm.
    destruct (str_in "mae" requested), (str_in "rmse" requested),
             (str_in "mape" requested), (str_in "sharpe" requested);
      try (destruct (sharpe_metric actual) as [sh|e]; cbn [bind] in Hm; [|easy]);
      injection Hm as <-; cbn; rewrite ?Hmae; intros [= <-]; reflexivity. }
  assert (Hgq : forall v, dict_get "rmse" (metrics r) = Some v -> v = Fin q0).
  { intros v. unfold compute_metrics in Hm.
    destruct (str_in "mae" requested), (str_in "rmse" requested),
             (str_in "mape" requested), (str_in "sharpe" requested);
      try (destruct (sharpe_metric actual) as [sh|e]; cbn [bind] in Hm; [|easy]);
      injection Hm as <-; cbn; rewrite ?Hrmse; intros [= <-]; reflexivity. }
  split; [|split].
  - intros v Hv. exists m0. split; [now apply Hgm|lra].
  - intros v Hv. exists q0. split; [now apply Hgq|lra].
  - intros m q Hv1 Hv2. apply Hgm in Hv1. apply Hgq in Hv2.
    injection Hv1 as ->. injection Hv2 as ->. lra.
Qed.
End Reported.

Lemma reported_metrics_are_the_requested_ones_witness :
  exists r,
    @_backtest_model constant_rng 0 "arima" 30 7 7 ["rmse"; "volume"; "mae"] tt
      = Ok (r, tt) /\
    dict_keys (metrics r) = ["mae"; "rmse"].
Proof.
  destruct (ConstantRng.backtest_model_returns 0 "arima" 30 7 7 ["rmse"; "volume"; "mae"])
    as [r Hr].
  exists r. split; [exact Hr|].
  exact (proj1 (@reported_metrics_are_the_requested_ones constant_rng 0 "arima" 30 7 7
                  ["rmse"; "volume"; "mae"] tt tt r Hr)).
Defined.

Lemma reported_mae_at_most_rmse_witness :
  exists r,
    @_backtest_model constant_rng 0 "arima" 30 7 7 ["mae"; "rmse"] tt = Ok (r, tt) /\
    (forall m q, dict_get "mae" (metrics r) = Some (Fin m) ->
                 dict_get "rmse" (metrics r) = Some (Fin q) -> m <= q).
Proof.
  destruct (ConstantRng.backtest_model_returns 0 "arima" 30 7 7 ["mae"; "rmse"])
    as [r Hr].
  exists r. split; [exact Hr|].
  exact (proj2 (proj2 (@reported_mae_at_most_rmse constant_rng 0 "arima" 30 7 7
                         ["mae"; "rmse"] tt tt r Hr))).
Defined.

End MetricFacts.

(* ================================================================== *)
(** * Part XXVIII. Exact predictions, accuracy range, price units *)
(* ================================================================== *)

Module MetricEdgeFacts.
Import Store Backtesting PyFacts DictFacts Metrics PearsonFacts MetricFacts Spec Samples MoreSpec.

(** ** Exact predictions *)

Lemma combine_eq_inv (actual predicted : list R) :
  length predicted = length actual ->
  Forall (fun ap => fst ap - snd ap = 0) (combine actual predicted) ->
  predicted = actual.
Proof.
  revert predicted. induction actual as [|a actual IH]; intros [|p predicted] Hlen Hall;
    try discriminate; [reflexivity|].
  cbn [combine] in Hall. inversion Hall as [|x l Hx Hl]; subst. cbn [fst snd] in Hx.
  f_equal; [lra|]. apply IH; [now injection Hlen|exact Hl].
Qed.

Lemma combine_self (f : R * R -> R) (l : list R) :
  (forall a, f (a, a) = 0) -> Forall (fun v => v = 0) (map f (combine l l)).
Proof.
  intros Hf. induction l as [|a l IH]; cbn [combine map]; constructor; auto.
Qed.

Lemma Rsum_all_zero (l : list R) : Forall (fun v => v = 0) l -> Rsum l = 0.
Proof.
  induction 1 as [|v l Hv _ IH]; [reflexivity|]. rewrite Rsum_cons, IH, Hv. ring.
Qed.

Lemma mean_R_zero_iff (l : list R) :
  l <> [] -> Forall (fun v => 0 <= v) l ->
  (mean_R l = 0 <-> Forall (fun v => v = 0) l).
Proof.
  intros Hne Hpos. pose proof (INR_length_pos l Hne) as Hn. unfold mean_R. split.
  - intros Hm. apply Rsum_zero_inv; [exact Hpos|].
    assert (Hs : Rsum l = Rsum l / INR (length l) * INR (length l)) by (field; lra).
    rewrite Hs, Hm. ring.
  - intros Hz. rewrite (Rsum_all_zero l Hz). unfold Rdiv. ring.
Qed.

(** X5. For aligned, non-empty sequences the RMSE is 0 exactly when
    every prediction equals its actual value, and so is the MAE; in
    that case the MAPE is 0 as soon as one actual value is nonzero. *)
Theorem errors_vanish_iff_exact (actual predicted : list R) :
  length predicted = length actual ->
  actual <> [] ->
  (rmse_metric actual predicted = Fin 0 <-> predicted = actual) /\
  (mae_metric (map (fun ap => Rabs (fst ap - snd ap)) (combine actual predicted))
     = Fin 0 <-> predicted = actual) /\
  (predicted = actual -> (exists a, In a actual /\ a <> 0) ->
   mape_metric actual predicted = Fin 0).
Proof.
  intros Hlen Hne.
  assert (Hc : combine actual predicted <> []).
  { destruct actual, predicted; cbn in *; try discriminate; easy. }
  set (sq := map (fun ap => (fst ap - snd ap) * (fst ap - snd ap))
                 (combine actual predicted)).
  set (ab := map (fun ap => Rabs (fst ap - snd ap)) (combine actual predicted)).
  assert (Hsq_ne : sq <> []) by (unfold sq; destruct (combine actual predicted); easy).
  assert (Hab_ne : ab <> []) by (unfold ab; destruct (combine actual predicted); easy).
  assert (Hsq_pos : Forall (fun v => 0 <= v) sq).
  { unfold sq. rewrite Forall_forall. intros v Hv. apply in_map_iff in Hv.
    destruct Hv as [ap [<- _]]. apply (Rle_0_sqr (fst ap - snd ap)). }
  assert (Hab_pos : Forall (fun v => 0 <= v) ab).
  { unfold ab. rewrite Forall_forall. intros v Hv. apply in_map_iff in Hv.
    destruct Hv as [ap [<- _]]. apply Rabs_pos. }
  assert (Hexact_sq : predicted = actual -> Forall (fun v => v = 0) sq).
  { intros ->. unfold sq. apply combine_self. intros a. cbn. ring. }
  assert (Hexact_ab : predicted = actual -> Forall (fun v => v = 0) ab).
  { intros ->. unfold ab. apply combine_self. intros a. cbn.
    replace (a - a) with 0 by ring. apply Rabs_R0. }
  split; [|split].
  - unfold rmse_metric. fold sq. unfold np_mean.
    destruct sq as [|s0 sq'] eqn:Esq; [easy|]. cbn [pf_map]. rewrite <- Esq in *.
    split.
    + intros [= Hs].
      assert (Hm : mean_R sq = 0).
      { apply sqrt_eq_0; [|exact Hs].
        unfold mean_R. pose proof (Rsum_nonneg sq Hsq_pos).
        pose proof (INR_length_pos sq Hsq_ne) as Hn.
        apply Rmult_le_pos; [assumption|]. left. now apply Rinv_0_lt_compat. }
      apply (mean_R_zero_iff sq Hsq_ne Hsq_pos) in Hm.
      apply combine_eq_inv; [exact Hlen|].
      rewrite Forall_forall in *. intros ap Hap.
      assert (H0 : (fst ap - snd ap) * (fst ap - snd ap) = 0).
      { apply Hm. unfold sq. apply in_map_iff. now exists ap. }
      apply Rmult_integral in H0. destruct H0; assumption.
    + intros Hx. f_equal.
      apply (mean_R_zero_iff sq Hsq_ne Hsq_pos) in Hexact_sq; [|exact Hx].
      rewrite Hexact_sq. apply sqrt_0.
  - unfold mae_metric. fold ab. unfold np_mean.
    destruct ab as [|a0 ab'] eqn:Eab; [easy|]. rewrite <- Eab in *.
    split.
    + intros [= Hm]. apply (mean_R_zero_iff ab Hab_ne Hab_pos) in Hm.
      apply combine_eq_inv; [exact Hlen|].
      rewrite Forall_forall in *. intros ap Hap.
      assert (H0 : Rabs (fst ap - snd ap) = 0).
      { apply Hm. unfold ab. apply in_map_iff. now exists ap. }
      destruct (Req_dec (fst ap - snd ap) 0) as [E|Hn]; [exact E|].
      apply Rabs_no_R0 in Hn. contradiction.
    + intros Hx. f_equal. now apply (mean_R_zero_iff ab Hab_ne Hab_pos), Hexact_ab.
  - intros -> [a [Hin Hnz]]. unfold mape_metric.
    assert (Hall : Forall (fun v => v = 0) (abs_pct_errors actual actual)).
    { rewrite Forall_forall. intros e He. apply abs_pct_errors_In in He.
      destruct He as [x [y [Hxy [Hx ->]]]].
      assert (Exy : x = y).
      { clear - Hxy. induction actual as [|z l IH]; [easy|].
        cbn in Hxy. destruct Hxy as [[= -> ->]|Hxy]; [reflexivity|now apply IH]. }
      subst y. replace (x - x) with 0 by ring. rewrite Rabs_R0. unfold Rdiv. ring. }
    assert (Hne' : abs_pct_errors actual actual <> []).
    { assert (Hi : In (Rabs (a - a) / Rabs a) (abs_pct_errors actual actual)).
      { apply abs_pct_errors_In. exists a, a. repeat split; try assumption.
        clear - Hin. induction actual as [|z l IH]; [easy|].
        cbn. destruct Hin as [->|Hin]; [now left|right; now apply IH]. }
      intros E. rewrite E in Hi. exact Hi. }
    unfold np_mean. destruct (abs_pct_errors actual actual) as [|e0 es] eqn:Ee; [easy|].
    cbn [pf_map]. f_equal. rewrite <- Ee in *.
    unfold mean_R. rewrite (Rsum_all_zero _ Hall). unfold Rdiv. ring.
Qed.

Lemma errors_vanish_iff_exact_witness :
  rmse_metric [100; 200] [100; 200] = Fin 0.
Proof.
  apply (errors_vanish_iff_exact [100; 200] [100; 200]); [reflexivity|discriminate|].
  reflexivity.
Defined.

(** ** The range of a rolling accuracy *)

Lemma round_half_even_between (a b : Z) (y : R) :
  IZR a <= y <= IZR b -> (a <= round_half_even y <= b)%Z.
Proof.
  intros [Ha Hb]. unfold round_half_even.
  pose proof (Zfloor_bounds y) as [Hlo Hhi].
  set (f := Zfloor y) in *.
  assert (Haf : (a <= f)%Z).
  { assert (Hlt : IZR a < IZR (f + 1)) by (rewrite plus_IZR; lra).
    apply lt_IZR in Hlt. lia. }
  assert (Hfb : (f <= b)%Z) by (apply le_IZR; lra).
  assert (Hup : 1 / 2 <= y - IZR f -> (f + 1 <= b)%Z).
  { intros Hd. assert (Hlt : IZR f < IZR b) by lra. apply lt_IZR in Hlt. lia. }
  destruct (Rlt_dec (y - IZR f) (1 / 2)) as [Hd|Hd]; [lia|].
  assert (Hd' : 1 / 2 <= y - IZR f) by lra.
  destruct (Rlt_dec (1 / 2) (y - IZR f)); [specialize (Hup Hd'); lia|].
  destruct (Z.even f); [lia|specialize (Hup Hd'); lia].
Qed.

Lemma abs_pct_errors_nonneg (actual predicted : list R) :
  Forall (fun v => 0 <= v) (abs_pct_errors actual predicted).
Proof.
  rewrite Forall_forall. intros e He. unfold abs_pct_errors in He.
  apply in_map_iff in He. destruct He as [ap [<- _]]. apply Rabs_pos.
Qed.

Lemma window_accuracy_range (wa wp : list R) : 0 <= window_accuracy wa wp <= 100.
Proof.
  unfold window_accuracy, np_mean.
  destruct (abs_pct_errors wa wp) as [|e es] eqn:E; cbn [pf_map py_max0]; [lra|].
  assert (Hm : 0 <= mean_R (e :: es)).
  { unfold mean_R. pose proof (abs_pct_errors_nonneg wa wp) as Hp. rewrite E in Hp.
    pose proof (Rsum_nonneg _ Hp).
    assert (Hn : 0 < INR (length (e :: es))) by (apply INR_length_pos; easy).
    apply Rmult_le_pos; [assumption|]. left. now apply Rinv_0_lt_compat. }
  destruct (Rlt_dec 0 (1 - mean_R (e :: es))); lra.
Qed.

(** X6. Every entry of the rolling accuracy trend reports an accuracy
    between 0 and 100 that is a whole number of tenths, and a window
    end date strictly before today. *)
Theorem rolling_accuracy_range (today : Z) (actual predicted : list R)
    (p : AccuracyPoint) :
  In p (_calculate_rolling_accuracy today actual predicted) ->
  0 <= accuracy p <= 100 /\
  (exists z, (0 <= z <= 1000)%Z /\ accuracy p = IZR z / 10) /\
  (end_date p < today)%Z.
Proof.
  rewrite RollingAccuracy.rolling_accuracy_unfold. intros Hin.
  apply in_map_iff in Hin. destruct Hin as [k [<- Hk]].
  apply in_seq in Hk. destruct Hk as [_ Hk]. cbn [Nat.add] in Hk.
  unfold accuracy_point. cbn [accuracy end_date].
  set (w := window_accuracy _ _).
  assert (Hw : 0 <= w <= 100) by apply window_accuracy_range.
  assert (Hz : (0 <= round_half_even (w * 10) <= 1000)%Z).
  { apply round_half_even_between. lra. }
  assert (Hacc : 0 <= py_round1 w <= 100).
  { unfold py_round1. destruct Hz as [H0 H1].
    apply IZR_le in H0. apply IZR_le in H1. lra. }
  split; [exact Hacc|]. split.
  - exists (round_half_even (w * 10)). split; [exact Hz|reflexivity].
  - assert (Hb : (7 + 7 * k < length actual)%nat).
    { pose proof (Nat.div_mod_eq (length actual - 1) 7).
      pose proof (Nat.mod_upper_bound (length actual - 1) 7 ltac:(lia)). lia. }
    lia.
Qed.

Lemma rolling_accuracy_range_witness :
  0 <= accuracy (accuracy_point 0 (repeat 100 8) (repeat 100 8) 0 7) <= 100.
Proof.
  apply (rolling_accuracy_range 0 (repeat 100 8) (repeat 100 8)).
  rewrite RollingAccuracy.rolling_accuracy_unfold. left. reflexivity.
Defined.

(** ** The unit of the prices *)

Lemma removelast_map {A B : Type} (f : A -> B) (l : list A) :
  removelast (map f l) = map f (removelast l).
Proof.
  induction l as [|x l IH]; [reflexivity|]. cbn [map removelast].
  destruct l as [|y l]; [reflexivity|]. cbn [map] in *. now rewrite IH.
Qed.

Lemma combine_map_both {A B : Type} (f : A -> B) (l1 l2 : list A) :
  combine (map f l1) (map f l2) = map (fun p => (f (fst p), f (snd p))) (combine l1 l2).
Proof.
  revert l2. induction l1 as [|x l1 IH]; intros [|y l2]; cbn [map combine fst snd];
    try reflexivity. now rewrite IH.
Qed.

Lemma mapM_map {A B C : Type} (g : B -> result C) (h : A -> B) (l : list A) :
  mapM g (map h l) = mapM (fun x => g (h x)) l.
Proof. induction l as [|x l IH]; cbn [map mapM]; [reflexivity|now rewrite IH]. Qed.

Lemma mapM_ext {A B : Type} (g1 g2 : A -> result B) (l : list A) :
  (forall x, g1 x = g2 x) -> mapM g1 l = mapM g2 l.
Proof.
  intros E. induction l as [|x l IH]; cbn [mapM]; [reflexivity|]. now rewrite E, IH.
Qed.

(** X7. The returns, and with them the Sharpe-style ratio and its
    division-by-zero failure, do not depend on the unit of the prices:
    multiplying every price by the same nonzero factor changes
    nothing. *)
Theorem sharpe_scale_invariant (c : R) (prices : list R) :
  c <> 0 ->
  period_returns (map (Rmult c) prices) = period_returns prices /\
  sharpe_metric (map (Rmult c) prices) = sharpe_metric prices.
Proof.
  intros Hc.
  assert (Hr : period_returns (map (Rmult c) prices) = period_returns prices).
  { unfold period_returns.
    assert (Htl : tl (map (Rmult c) prices) = map (Rmult c) (tl prices))
      by (destruct prices; reflexivity).
    rewrite removelast_map, Htl, combine_map_both, mapM_map.
    apply mapM_ext. intros [a p]. cbn [fst snd]. unfold py_div.
    destruct (Req_dec_T (c * a) 0) as [E|E], (Req_dec_T a 0) as [Ea|Ea].
    - reflexivity.
    - exfalso. apply Rmult_integral in E. tauto.
    - exfalso. apply E. rewrite Ea. ring.
    - cbn [bind]. do 2 f_equal. field. tauto. }
  split; [exact Hr|]. unfold sharpe_metric. now rewrite Hr.
Qed.

Lemma sharpe_scale_invariant_witness :
  sharpe_metric (map (Rmult 2) [100; 110; 121]) = sharpe_metric [100; 110; 121].
Proof.
  apply (sharpe_scale_invariant 2 [100; 110; 121]). lra.
Defined.

End MetricEdgeFacts.

(* ================================================================== *)
(** * Part XXIX. More on the aggregate statistics *)
(* ================================================================== *)

Module StatsFacts.
Import Store Backtesting PyFacts DictFacts OverallStatsFacts OverallStats Spec Samples MoreSpec.

(** ** The evaluation period *)

Lemma Zmin_list_spec (l : list Z) (d : Z) :
  (Zmin_list d l <= d)%Z /\
  (forall x, In x l -> (Zmin_list d l <= x)%Z) /\
  In (Zmin_list d l) (d :: l).
Proof.
  unfold Zmin_list. revert d. induction l as [|y l IH]; intros d; cbn [fold_left].
  - split; [lia|]. split; [easy|now left].
  - destruct (IH (Z.min d y)) as [H1 [H2 H3]]. split; [lia|]. split.
    + intros x [<-|Hx]; [lia|now apply H2].
    + destruct H3 as [H3|H3]; [|right; now right].
      rewrite <- H3. destruct (Z.min_spec d y) as [[_ ->]|[_ ->]];
        [now left|right; now left].
Qed.

Lemma Zmax_list_spec (l : list Z) (d : Z) :
  (d <= Zmax_list d l)%Z /\
  (forall x, In x l -> (x <= Zmax_list d l)%Z) /\
  In (Zmax_list d l) (d :: l).
Proof.
  unfold Zmax_list. revert d. induction l as [|y l IH]; intros d; cbn [fold_left].
  - split; [lia|]. split; [easy|now left].
  - destruct (IH (Z.max d y)) as [H1 [H2 H3]]. split; [lia|]. split.
    + intros x [<-|Hx]; [lia|now apply H2].
    + destruct H3 as [H3|H3]; [|right; now right].
      rewrite <- H3. destruct (Z.max_spec d y) as [[_ ->]|[_ ->]];
        [right; now left|now left].
Qed.

(** X8. The evaluation period of the aggregate statistics spans the
    periods of all models: it starts at the earliest period start and
    ends at the latest period end, and both ends are the start and the
    end of some model's period. *)
Theorem evaluation_period_spans_all (results : dict BacktestResult)
    (stats : OverallStats) :
  _calculate_overall_stats results = Some stats ->
  (forall r, In r (dict_values results) ->
     (evaluation_start stats <= period_start r)%Z /\
     (period_end r <= evaluation_end stats)%Z) /\
  (exists r, In r (dict_values results) /\ period_start r = evaluation_start stats) /\
  (exists r, In r (dict_values results) /\ period_end r = evaluation_end stats).
Proof.
  unfold _calculate_overall_stats.
  destruct (summarise (collect_metrics results)) as [avg|]; [|easy].
  destruct (py_min_by (mape_key results) (dict_keys results)) as [best|]; [|easy].
  destruct (map period_start (dict_values results)) as [|s starts] eqn:Es; [easy|].
  destruct (map period_end (dict_values results)) as [|e ends] eqn:Ee; [easy|].
  intros [= <-]. cbn [evaluation_start evaluation_end].
  destruct (Zmin_list_spec starts s) as [Hs1 [Hs2 Hs3]].
  destruct (Zmax_list_spec ends e) as [He1 [He2 He3]].
  split; [|split].
  - intros r Hr. split.
    + assert (Hin : In (period_start r) (s :: starts))
        by (rewrite <- Es; now apply in_map).
      destruct Hin as [<-|Hin]; [exact Hs1|now apply Hs2].
    + assert (Hin : In (period_end r) (e :: ends))
        by (rewrite <- Ee; now apply in_map).
      destruct Hin as [<-|Hin]; [exact He1|now apply He2].
  - rewrite <- Es in Hs3. apply in_map_iff in Hs3. destruct Hs3 as [r [Hr Hin]].
    now exists r.
  - rewrite <- Ee in He3. apply in_map_iff in He3. destruct He3 as [r [Hr Hin]].
    now exists r.
Qed.

Lemma evaluation_period_spans_all_witness :
  exists stats,
    _calculate_overall_stats two_models = Some stats /\
    exists r, In r (dict_values two_models) /\ period_end r = evaluation_end stats.
Proof.
  assert (Hne : two_models <> []) by discriminate.
  destruct (overall_stats_some two_models Hne)
    as [avg [best [pre [post [s [starts [e [ends [_ [_ [_ [_ [_ [_ [_ Hs]]]]]]]]]]]]]]].
  eexists. split; [exact Hs|].
  exact (proj2 (proj2 (evaluation_period_spans_all two_models _ Hs))).
Defined.

(** ** The keys of the summary *)

Lemma collected_keys (m : string) (results : dict BacktestResult) :
  In m (dict_keys (collect_metrics results)) <-> metric_values m results <> [].
Proof.
  destruct (collect_metrics_spec m results) as [[Hnd Hne] Hv]. unfold vals in Hv.
  split.
  - intros Hin. destruct (dict_get_Some_key m _ Hin) as [vs Hvs].
    rewrite Hvs in Hv. rewrite <- Hv. apply (Hne m). now apply dict_get_In.
  - intros Hvals. destruct (in_dec string_dec m (dict_keys (collect_metrics results)))
      as [Hin|Hn]; [exact Hin|].
    apply dict_get_None in Hn. rewrite Hn in Hv. congruence.
Qed.

Lemma metric_values_reported (m : string) (results : dict BacktestResult) :
  metric_values m results <> [] <->
  exists k r, In (k, r) results /\ In m (dict_keys (metrics r)).
Proof.
  unfold metric_values. split.
  - intros Hne. destruct (flat_map _ results) as [|v vs] eqn:E; [easy|].
    assert (Hin : In v (v :: vs)) by now left. rewrite <- E in Hin.
    apply in_flat_map in Hin. destruct Hin as [[k r] [Hkr Hv]]. cbn [snd] in Hv.
    apply in_map_iff in Hv. destruct Hv as [[n x] [_ Hf]].
    apply filter_In in Hf. destruct Hf as [Hf Hn]. cbn [fst] in Hn.
    apply String.eqb_eq in Hn. subst n. exists k, r. split; [exact Hkr|].
    unfold dict_keys. apply in_map_iff. now exists (m, x).
  - intros [k [r [Hkr Hm]]] E. unfold dict_keys in Hm. apply in_map_iff in Hm.
    destruct Hm as [[n x] [Hn Hx]]. cbn [fst] in Hn. subst n.
    assert (Hin : In x (flat_map
              (fun kv => map snd (filter (fun mv => String.eqb (fst mv) m)
                                         (metrics (snd kv)))) results)).
    { apply in_flat_map. exists (k, r). split; [exact Hkr|]. cbn [snd].
      apply in_map_iff. exists (m, x). split; [reflexivity|].
      apply filter_In. split; [exact Hx|]. cbn [fst]. apply String.eqb_refl. }
    rewrite E in Hin. exact Hin.
Qed.

(** X9. The summary of the aggregate statistics holds an entry under a
    key exactly when the key is ["avg_" + m] or ["best_" + m] for a
    metric [m] that some model reports; nothing else is in it. *)
Theorem summary_keys_are_reported_metrics (results : dict BacktestResult)
    (stats : OverallStats) (key : string) :
  _calculate_overall_stats results = Some stats ->
  (dict_get key (summary_metrics stats) <> None <->
   exists m, (key = avg_key m \/ key = best_key m) /\
             exists k r, In (k, r) results /\ In m (dict_keys (metrics r))).
Proof.
  intros Hstats.
  assert (Hsum : summarise (collect_metrics results) = Some (summary_metrics stats)).
  { unfold _calculate_overall_stats in Hstats.
    destruct (summarise (collect_metrics results)) as [avg|]; [|easy].
    destruct (py_min_by (mape_key results) (dict_keys results)) as [best|]; [|easy].
    destruct (map period_start (dict_values results)) as [|s starts]; [easy|].
    destruct (map period_end (dict_values results)) as [|e ends]; [easy|].
    injection Hstats as <-. reflexivity. }
  destruct (collect_metrics_spec "" results) as [[Hnd Hne] _].
  destruct (summarise_fold (collect_metrics results) [] Hnd Hne)
    as [s [Hs [Hget Hkeep]]].
  assert (Es : summarise (collect_metrics results) = Some s) by exact Hs.
  rewrite Hsum in Es. injection Es as <-. split.
  - intros Hsome.
    set (hit := fun m => (String.eqb key (avg_key m) || String.eqb key (best_key m))%bool).
    destruct (existsb hit (dict_keys (collect_metrics results))) eqn:E.
    + apply existsb_exists in E. destruct E as [m [Hm Hhit]]. exists m. split.
      * unfold hit in Hhit. apply orb_true_iff in Hhit.
        destruct Hhit as [Hh|Hh]; apply String.eqb_eq in Hh; auto.
      * now apply metric_values_reported, collected_keys.
    + exfalso. apply Hsome. rewrite Hkeep; [reflexivity|].
      intros m Hm.
      assert (Hh : hit m = false).
      { destruct (hit m) eqn:Eh; [|reflexivity].
        assert (Hex : existsb hit (dict_keys (collect_metrics results)) = true)
          by (apply existsb_exists; now exists m).
        congruence. }
      unfold hit in Hh. apply orb_false_iff in Hh. destruct Hh as [Ha Hb].
      apply String.eqb_neq in Ha, Hb. now split.
  - intros [m [Hk Hrep]].
    apply metric_values_reported, collected_keys in Hrep.
    destruct (dict_get_Some_key m _ Hrep) as [vs Hvs].
    destruct (Hget m vs Hvs) as [Havg [b [_ Hb]]].
    destruct Hk as [->| ->]; congruence.
Qed.

Lemma summary_keys_are_reported_metrics_witness :
  exists stats,
    _calculate_overall_stats two_models = Some stats /\
    dict_get "avg_mae" (summary_metrics stats) <> None.
Proof.
  assert (Hne : two_models <> []) by discriminate.
  destruct (overall_stats_some two_models Hne)
    as [avg [best [pre [post [s [starts [e [ends [_ [_ [_ [_ [_ [_ [_ Hs]]]]]]]]]]]]]]].
  eexists. split; [exact Hs|].
  apply (proj2 (summary_keys_are_reported_metrics two_models _ "avg_mae" Hs)).
  exists "mae". split; [now left|].
  eexists "m1", _. split; [left; reflexivity|]. left. reflexivity.
Defined.

(** ** Best against average *)

Lemma all_fin_In (vs : list pyfloat) (rs : list R) :
  all_fin vs = Some rs -> vs = map Fin rs.
Proof.
  revert rs. induction vs as [|[v|] vs IH]; intros rs; cbn [all_fin].
  - intros [= <-]. reflexivity.
  - destruct (all_fin vs) as [rs'|] eqn:E; cbn; [|easy].
    intros [= <-]. cbn [map]. f_equal. now apply IH.
  - easy.
Qed.





End StatsFacts.

(* ================================================================== *)
(** * Part XXX. train_models: frame, exceptions, overall status *)
(* ================================================================== *)

Module TrainFrame.
Import Store Models PyFacts DictFacts MoreDictFacts TrainFacts TrainModels Spec Samples
  MoreSpec.

Section Relations.
Context `{NumpyRandom} `{Imports}.
Variable R : TrainState -> TrainState -> Prop.
Hypothesis R_refl : forall s, R s s.
Hypothesis R_trans : forall s1 s2 s3, R s1 s2 -> R s2 s3 -> R s1 s3.

Lemma preserves_ret {A : Type} (a : A) : preserves R (ret a).
Proof. intros s. apply R_refl. Qed.

Lemma preserves_raise {A : Type} (e : exn) : preserves R (@raise _ A e).
Proof. intros s. apply R_refl. Qed.

Lemma preserves_bind {A B : Type} (m : M A) (k : A -> M B) :
  preserves R m -> (forall a, preserves R (k a)) -> preserves R (bindM m k).
Proof.
  intros Hm Hk s. unfold bindM. specialize (Hm s).
  destruct (m s) as [[a|e] s1]; cbn [snd] in *; [|exact Hm].
  exact (R_trans _ _ _ Hm (Hk a s1)).
Qed.

Lemma preserves_try {A : Type} (m : M A) (handler : exn -> M A) :
  preserves R m -> (forall e, preserves R (handler e)) ->
  preserves R (try_except m handler).
Proof.
  intros Hm Hh s. unfold try_except. specialize (Hm s).
  destruct (m s) as [[a|e] s1]; cbn [snd] in *; [exact Hm|].
  exact (R_trans _ _ _ Hm (Hh e s1)).
Qed.

Lemma preserves_for_each {A : Type} (l : list A) (body : A -> M unit) :
  (forall x, preserves R (body x)) -> preserves R (for_each l body).
Proof.
  intros Hb. induction l as [|x l IH]; cbn [for_each].
  - apply preserves_ret.
  - apply preserves_bind; [apply Hb|intros _; exact IH].
Qed.
End Relations.

Section Frame.
Context `{NumpyRandom} `{Imports}.

Lemma others_kept_refl (aid : string) (s : TrainState) : others_kept aid s s.
Proof. split; [reflexivity|auto]. Qed.

Lemma others_kept_trans (aid : string) (s1 s2 s3 : TrainState) :
  others_kept aid s1 s2 -> others_kept aid s2 s3 -> others_kept aid s1 s3.
Proof.
  intros [K1 G1] [K2 G2]. split; [congruence|].
  intros aid' Hne. destruct (G1 aid' Hne) as [A1 B1]. destruct (G2 aid' Hne) as [A2 B2].
  split; congruence.
Qed.

Lemma entry_kept_refl (aid : string) (s : TrainState) : entry_kept aid s s.
Proof. split; [apply others_kept_refl|]. intros job Hj. now exists job. Qed.

Lemma entry_kept_trans (aid : string) (s1 s2 s3 : TrainState) :
  entry_kept aid s1 s2 -> entry_kept aid s2 s3 -> entry_kept aid s1 s3.
Proof.
  intros [O1 E1] [O2 E2]. split; [exact (others_kept_trans _ _ _ _ O1 O2)|].
  intros job Hj. destruct (E1 job Hj) as [job1 [Hj1 K1]].
  destruct (E2 job1 Hj1) as [job2 [Hj2 K2]]. exists job2. split; [exact Hj2|congruence].
Qed.

Lemma inner_refl (aid : string) (s : TrainState) : inner aid s s.
Proof.
  split; [apply entry_kept_refl|]. intros job job' Hj Hj'.
  rewrite Hj in Hj'. injection Hj' as <-. auto.
Qed.

Lemma inner_trans (aid : string) (s1 s2 s3 : TrainState) :
  inner aid s1 s2 -> inner aid s2 s3 -> inner aid s1 s3.
Proof.
  intros [E1 S1] [E2 S2]. split; [exact (entry_kept_trans _ _ _ _ E1 E2)|].
  intros job job3 Hj Hj3. destruct E1 as [_ E1]. destruct (E1 job Hj) as [job2 [Hj2 _]].
  destruct (S1 job job2 Hj Hj2) as [A1 B1]. destruct (S2 job2 job3 Hj2 Hj3) as [A2 B2].
  split; congruence.
Qed.

(** *** The primitive steps *)

Lemma set_job_others (aid : string) (f : Job -> Job) :
  preserves (others_kept aid) (set_job aid f).
Proof.
  intros s. unfold set_job. destruct (dict_get aid (training_jobs s)) as [job|] eqn:Hj;
    cbn [snd]; [|apply others_kept_refl].
  split; cbn [training_jobs analysis_results].
  - apply dict_keys_set_present. exact (dict_get_Some_In_keys _ _ _ Hj).
  - intros aid' Hne. split; [now apply dict_get_set_other|reflexivity].
Qed.

Lemma set_job_entry (aid : string) (f : Job -> Job) :
  (forall job, dict_keys (job_models (f job)) = dict_keys (job_models job)) ->
  preserves (entry_kept aid) (set_job aid f).
Proof.
  intros Hf s. split; [apply set_job_others|].
  intros job Hj. unfold set_job. rewrite Hj. cbn [snd training_jobs].
  exists (f job). split; [apply dict_get_set_same|apply Hf].
Qed.

Lemma get_job_inner (aid : string) : preserves (inner aid) (get_job aid).
Proof.
  intros s. unfold get_job. destruct (dict_get aid (training_jobs s)); apply inner_refl.
Qed.

Lemma set_model_job_inner (aid m : string) (f : ModelJob -> ModelJob) :
  preserves (inner aid) (set_model_job aid m f).
Proof.
  intros s. unfold set_model_job, bindM, get_job.
  destruct (dict_get aid (training_jobs s)) as [job|] eqn:Hj; [|apply inner_refl].
  destruct (dict_get m (job_models job)) as [mj|] eqn:Hm; [|apply inner_refl].
  unfold set_job. rewrite Hj. cbn [snd].
  assert (Hk : dict_keys (dict_set m (f mj) (job_models job)) = dict_keys (job_models job)).
  { apply dict_keys_set_present. exact (dict_get_Some_In_keys _ _ _ Hm). }
  split; [split; [split|]|]; cbn [training_jobs analysis_results].
  - apply dict_keys_set_present. exact (dict_get_Some_In_keys _ _ _ Hj).
  - intros aid' Hne. split; [now apply dict_get_set_other|reflexivity].
  - intros job0 Hj0. rewrite Hj in Hj0. injection Hj0 as <-.
    eexists. split; [apply dict_get_set_same|exact Hk].
  - intros job0 job' Hj0. rewrite Hj in Hj0. injection Hj0 as <-.
    rewrite dict_get_set_same. intros [= <-]. auto.
Qed.

Lemma store_result_inner (aid m : string) (r : ModelResult) :
  preserves (inner aid) (store_result aid m r).
Proof.
  intros s. unfold store_result.
  destruct (dict_get aid (analysis_results s)) as [a|]; [|apply inner_refl].
  cbn [snd]. split; [split; [split|]|]; cbn [training_jobs analysis_results].
  - reflexivity.
  - intros aid' Hne. split; [reflexivity|now apply dict_get_set_other].
  - intros job Hj. now exists job.
  - intros job job' Hj Hj'. rewrite Hj in Hj'. injection Hj' as <-. auto.
Qed.

Lemma mock_result_inner (aid name : string) (ranges : list (string * (R * R))) :
  preserves (inner aid) (mock_result name ranges).
Proof.
  intros s. unfold mock_result. destruct (draw_metrics ranges (rng_state s)) as [ms st].
  cbn [snd]. split; [split; [split|]|]; cbn [training_jobs analysis_results].
  - reflexivity.
  - auto.
  - intros job Hj. now exists job.
  - intros job job' Hj Hj'. rewrite Hj in Hj'. injection Hj' as <-. auto.
Qed.

Lemma init_results_entry (now : Z) (request : TrainRequest) :
  preserves (entry_kept (analysis_id request)) (init_results now request).
Proof.
  intros s. unfold init_results. cbn [snd].
  split; [split|]; cbn [training_jobs analysis_results].
  - reflexivity.
  - intros aid' Hne. split; [reflexivity|now apply dict_get_set_other].
  - intros job Hj. now exists job.
Qed.

(** *** The loop body and the whole call *)

Lemma train_single_model_inner (aid m : string) :
  preserves (inner aid) (_train_single_model m aid).
Proof.
  unfold _train_single_model.
  apply (preserves_bind _ (inner_trans aid)).
  - apply (preserves_for_each _ (inner_refl aid) (inner_trans aid)).
    intros p. apply set_model_job_inner.
  - intros _. unfold _train_arima, _train_prophet, _train_lstm, _train_xgboost.
    repeat match goal with
           | |- context [if ?b then _ else _] => destruct b
           end;
      first [apply mock_result_inner | apply (preserves_raise _ (inner_refl aid))].
Qed.

Lemma train_one_inner (aid m : string) : preserves (inner aid) (train_one aid m).
Proof.
  unfold train_one.
  apply (preserves_try _ (inner_trans aid)).
  - apply (preserves_bind _ (inner_trans aid)); [apply set_model_job_inner|intros _].
    apply (preserves_bind _ (inner_trans aid)); [apply set_model_job_inner|intros _].
    apply (preserves_bind _ (inner_trans aid)); [apply train_single_model_inner|intros r].
    apply (preserves_bind _ (inner_trans aid)); [apply store_result_inner|intros _].
    apply (preserves_bind _ (inner_trans aid)); [apply set_model_job_inner|intros _].
    apply set_model_job_inner.
  - intros e. apply (preserves_bind _ (inner_trans aid)); [|intros _];
      apply set_model_job_inner.
Qed.

Lemma train_loop_inner (aid : string) (l : list string) :
  preserves (inner aid) (for_each l (train_one aid)).
Proof.
  apply (preserves_for_each _ (inner_refl aid) (inner_trans aid)).
  intros m. apply train_one_inner.
Qed.

Lemma inner_entry_kept {A : Type} (aid : string) (m : M A) :
  preserves (inner aid) m -> preserves (entry_kept aid) m.
Proof. intros Hm s. exact (proj1 (Hm s)). Qed.

Lemma train_models_entry (now : Z) (request : TrainRequest) :
  preserves (entry_kept (analysis_id request)) (train_models now request).
Proof.
  unfold train_models. set (aid := analysis_id request).
  assert (Hset : forall status, preserves (entry_kept aid)
                                  (set_job aid (job_with_status status))).
  { intros status. apply set_job_entry. reflexivity. }
  apply (preserves_try _ (entry_kept_trans aid)).
  - apply (preserves_bind _ (entry_kept_trans aid)); [apply Hset|intros _].
    apply (preserves_bind _ (entry_kept_trans aid)); [apply init_results_entry|intros _].
    apply (preserves_bind _ (entry_kept_trans aid));
      [apply inner_entry_kept, train_loop_inner|intros _].
    apply (preserves_bind _ (entry_kept_trans aid));
      [apply inner_entry_kept, get_job_inner|intros job].
    destruct (all_finished job);
      [apply Hset|apply (preserves_ret _ (entry_kept_refl aid))].
  - intros e. apply (preserves_bind _ (entry_kept_trans aid)); [apply Hset|intros _].
    apply set_job_entry. reflexivity.
Qed.

(** X11. Training one analysis leaves every other analysis alone: no
    job is added to or removed from the job registry, and the job and
    the stored results of every other analysis are the same after the
    call as before it, whatever the outcome of the call. *)
Theorem train_models_leaves_other_analyses (now : Z) (request : TrainRequest)
    (s : TrainState) :
  let s' := snd (train_models now request s) in
  dict_keys (training_jobs s') = dict_keys (training_jobs s) /\
  forall aid', aid' <> analysis_id request ->
    dict_get aid' (training_jobs s') = dict_get aid' (training_jobs s) /\
    dict_get aid' (analysis_results s') = dict_get aid' (analysis_results s).
Proof.
  exact (proj1 (train_models_entry now request s)).
Qed.

(** ** When the call raises *)

Lemma set_job_ok (aid : string) (f : Job -> Job) (s : TrainState) (job : Job) :
  dict_get aid (training_jobs s) = Some job ->
  set_job aid f s =
    (Ok tt, {| training_jobs := dict_set aid (f job) (training_jobs s);
               analysis_results := analysis_results s;
               rng_state := rng_state s |}).
Proof. intros Hj. unfold set_job. now rewrite Hj. Qed.

(** The handler of [train_models]. *)
Lemma failed_handler (aid : string) (e : exn) (s : TrainState) (job : Job) :
  dict_get aid (training_jobs s) = Some job ->
  exists s',
    bindM (set_job aid (job_with_status "failed"))
          (fun _ => set_job aid (job_with_error (str_exn e))) s = (Ok tt, s') /\
    dict_get aid (training_jobs s') =
      Some (job_with_error (str_exn e) (job_with_status "failed" job)) /\
    analysis_results s' = analysis_results s.
Proof.
  intros Hj. rewrite (bindM_ok _ _ _ _ _ (set_job_ok aid _ s job Hj)).
  rewrite (set_job_ok aid _ _ (job_with_status "failed" job))
    by (cbn [training_jobs]; apply dict_get_set_same).
  eexists. split; [reflexivity|]. cbn [training_jobs analysis_results].
  split; [apply dict_get_set_same|reflexivity].
Qed.

(** X12. [train_models] raises exactly when the job registry has no
    entry for the analysis: then it raises [KeyError] for the analysis
    id and changes nothing. With an entry it always returns normally,
    keeps the model names of the job, and leaves the job "training",
    "completed" or "failed"; only a failed job gets a new error
    message. *)
Theorem train_models_raises_iff_unregistered (now : Z) (request : TrainRequest)
    (s : TrainState) :
  let aid := analysis_id request in
  (dict_get aid (training_jobs s) = None ->
   train_models now request s = (Raise (KeyError aid), s)) /\
  (forall job, dict_get aid (training_jobs s) = Some job ->
   exists s' job',
     train_models now request s = (Ok tt, s') /\
     dict_get aid (training_jobs s') = Some job' /\
     dict_keys (job_models job') = dict_keys (job_models job) /\
     In (job_status job') ["training"; "completed"; "failed"] /\
     (job_status job' <> "failed" -> job_error job' = job_error job)).
Proof.
  intros aid. split.
  - intros Hj.
    assert (Hmiss : forall f, set_job aid f s = (Raise (KeyError aid), s)).
    { intros f. unfold set_job. now rewrite Hj. }
    unfold train_models, try_except. fold aid.
    rewrite (bindM_raise _ _ _ _ _ (Hmiss _)).
    rewrite (bindM_raise _ _ _ _ _ (Hmiss _)). reflexivity.
  - intros job Hj. unfold train_models, try_except. fold aid.
    rewrite (bindM_ok _ _ _ _ _ (set_job_ok aid (job_with_status "training") s job Hj)).
    cbv beta.
    assert (Ei : forall s1, init_results now request s1 =
               (Ok tt, {| training_jobs := training_jobs s1;
                          analysis_results :=
                            dict_set aid {| models := []; request := request;
                                            created_at := now |} (analysis_results s1);
                          rng_state := rng_state s1 |})) by reflexivity.
    rewrite (bindM_ok _ _ _ _ _ (Ei _)). cbv beta.
    cbn [training_jobs analysis_results rng_state].
    set (s0 := Build_TrainState _ _ _).
    assert (Hj0 : dict_get aid (training_jobs s0) = Some (job_with_status "training" job))
      by (cbn [s0 training_jobs]; apply dict_get_set_same).
    pose proof (train_loop_inner aid (selected_models request) s0) as [[_ He] Hs].
    destruct (He _ Hj0) as [job1 [Hj1 K1]]. destruct (Hs _ _ Hj0 Hj1) as [St1 Er1].
    cbn [job_with_status job_status job_error job_models] in St1, Er1, K1.
    destruct (for_each (selected_models request) (train_one aid) s0) as [[[]|e] s1] eqn:El;
      cbn [snd] in Hj1.
    + rewrite (bindM_ok _ _ _ _ _ El). cbv beta.
      unfold bindM at 1, get_job. rewrite Hj1.
      destruct (all_finished job1).
      * rewrite (set_job_ok aid _ s1 job1 Hj1). eexists. eexists.
        split; [reflexivity|]. cbn [training_jobs].
        split; [apply dict_get_set_same|]. cbn [job_with_status job_models job_status job_error].
        split; [exact K1|]. split; [right; now left|]. intros _. exact Er1.
      * exists s1, job1. split; [reflexivity|]. split; [exact Hj1|].
        split; [exact K1|]. split; [left; now rewrite St1|]. intros _. exact Er1.
    + rewrite (bindM_raise _ _ _ _ _ El).
      destruct (failed_handler aid e s1 job1 Hj1) as [s2 [E2 [Hj2 _]]].
      rewrite E2. exists s2. eexists. split; [reflexivity|]. split; [exact Hj2|].
      cbn [job_with_status job_with_error job_models job_status job_error].
      split; [exact K1|]. split; [right; right; now left|]. intros Hn. now elim Hn.
Qed.

(** ** A selected model without a job entry *)

Lemma for_each_app {A : Type} (l1 l2 : list A) (body : A -> M unit) (s s1 : TrainState) :
  for_each l1 body s = (Ok tt, s1) ->
  for_each (l1 ++ l2) body s = for_each l2 body s1.
Proof.
  revert s. induction l1 as [|x l1 IH]; intros s; cbn [for_each app].
  - intros [= ->]. reflexivity.
  - unfold bindM. destruct (body x s) as [[[]|e] s'] eqn:E; [|easy].
    apply IH.
Qed.

Lemma train_one_missing (aid m : string) (s : TrainState) (job : Job) (a : Analysis) :
  view aid s job a ->
  dict_get m (job_models job) = None ->
  train_one aid m s = (Raise (KeyError m), s).
Proof.
  intros Hv Hm. unfold train_one, try_except.
  rewrite (bindM_raise _ _ _ _ _ (set_model_job_missing aid m _ s job a Hv Hm)).
  rewrite (bindM_raise _ _ _ _ _ (set_model_job_missing aid m _ s job a Hv Hm)).
  reflexivity.
Qed.

(** X13. A selected model without an entry among the job's models
    stops the whole training: the models selected before it are
    handled as usual, but the job of the analysis ends "failed" with
    the quoted name of that model as its error, and the models selected
    after it are never trained: unless also selected earlier, their job
    entries are untouched and they have no stored result. *)
Theorem train_models_aborts_at_missing_entry (now : Z) (request : TrainRequest)
    (s : TrainState) (job : Job) (pre post : list string) (m0 : string) :
  let aid := analysis_id request in
  dict_get aid (training_jobs s) = Some job ->
  selected_models request = pre ++ m0 :: post ->
  (forall m, In m pre -> In m (dict_keys (job_models job))) ->
  ~ In m0 (dict_keys (job_models job)) ->
  exists s' job' a',
    train_models now request s = (Ok tt, s') /\
    dict_get aid (training_jobs s') = Some job' /\
    dict_get aid (analysis_results s') = Some a' /\
    job_status job' = "failed" /\
    job_error job' = Some (String.append "'" (String.append m0 "'")) /\
    (forall m, In m pre -> outcome m job' a') /\
    (forall m, ~ In m pre ->
       dict_get m (job_models job') = dict_get m (job_models job) /\
       dict_get m (models a') = None).
Proof.
  intros aid Hj Hsel Hpre Hm0. unfold train_models, try_except. fold aid.
  rewrite (bindM_ok _ _ _ _ _ (set_job_ok aid (job_with_status "training") s job Hj)).
  cbv beta.
  set (a0 := {| models := []; request := request; created_at := now |}).
  assert (Ei : forall s1, init_results now request s1 =
             (Ok tt, {| training_jobs := training_jobs s1;
                        analysis_results := dict_set aid a0 (analysis_results s1);
                        rng_state := rng_state s1 |})) by reflexivity.
  rewrite (bindM_ok _ _ _ _ _ (Ei _)). cbv beta.
  cbn [training_jobs analysis_results rng_state].
  set (job0 := job_with_status "training" job).
  set (s0 := Build_TrainState _ _ _).
  assert (V0 : view aid s0 job0 a0).
  { split; cbn [s0 training_jobs analysis_results]; apply dict_get_set_same. }
  destruct (train_loop aid pre s0 job0 a0 V0) as [s1 [job1 [a1 [E1 [V1 [K1 [F1 [O1 [_ S1]]]]]]]]].
  { exact Hpre. }
  { intros k []. }
  assert (Hmiss : dict_get m0 (job_models job1) = None).
  { apply dict_get_None. rewrite K1. exact Hm0. }
  assert (Eloop : for_each (selected_models request) (train_one aid) s0
                  = (Raise (KeyError m0), s1)).
  { rewrite Hsel, (for_each_app pre (m0 :: post) _ s0 s1 E1). cbn [for_each].
    now rewrite (bindM_raise _ _ _ _ _ (train_one_missing aid m0 s1 job1 a1 V1 Hmiss)). }
  rewrite (bindM_raise _ _ _ _ _ Eloop).
  destruct V1 as [Hj1 Ha1].
  destruct (failed_handler aid (KeyError m0) s1 job1 Hj1) as [s2 [E2 [Hj2 Ha2]]].
  rewrite E2. exists s2. eexists. exists a1. split; [reflexivity|].
  split; [exact Hj2|]. split; [now rewrite Ha2|].
  cbn [job_with_status job_with_error job_models job_status job_error str_exn].
  split; [reflexivity|]. split; [reflexivity|]. split.
  - intros m Hm. exact (outcome_ext m job1 _ a1 a1 eq_refl eq_refl (O1 m Hm)).
  - intros m Hn. destruct (F1 m Hn) as [Fj Fa]. split; [exact Fj|].
    rewrite Fa. reflexivity.
Qed.

(** ** The overall status *)

Lemma outcome_finished (m : string) (job : Job) (a : Analysis) (mj : ModelJob) :
  outcome m job a -> dict_get m (job_models job) = Some mj -> finished mj = true.
Proof.
  unfold outcome, finished. intros Ho Hg.
  destruct (trainable m).
  - destruct Ho as [mj' [r [Hg' [Hs _]]]]. rewrite Hg in Hg'. injection Hg' as <-.
    now rewrite Hs.
  - destruct Ho as [mj' [Hg' [Hs _]]]. rewrite Hg in Hg'. injection Hg' as <-.
    now rewrite Hs.
Qed.

(** X14. When every selected model has a job entry, the job of the
    analysis ends "completed" exactly when every model entry that was
    not selected was already completed or failed; otherwise it stays
    "training". The entries of models that were not selected and the
    error of the job are unchanged. *)
Theorem train_models_final_status (now : Z) (request : TrainRequest)
    (s : TrainState) (job : Job) :
  let aid := analysis_id request in
  dict_get aid (training_jobs s) = Some job ->
  (forall m, In m (selected_models request) -> In m (dict_keys (job_models job))) ->
  NoDup (dict_keys (job_models job)) ->
  exists s' job',
    train_models now request s = (Ok tt, s') /\
    dict_get aid (training_jobs s') = Some job' /\
    job_error job' = job_error job /\
    (forall m, ~ In m (selected_models request) ->
       dict_get m (job_models job') = dict_get m (job_models job)) /\
    job_status job' =
      if forallb (fun kv => str_in (fst kv) (selected_models request) || finished (snd kv))
                 (job_models job)
      then "completed" else "training".
Proof.
  intros aid Hj Hkeys Hnd. unfold train_models, try_except. fold aid.
  rewrite (bindM_ok _ _ _ _ _ (set_job_ok aid (job_with_status "training") s job Hj)).
  cbv beta.
  set (a0 := {| models := []; request := request; created_at := now |}).
  assert (Ei : forall s1, init_results now request s1 =
             (Ok tt, {| training_jobs := training_jobs s1;
                        analysis_results := dict_set aid a0 (analysis_results s1);
                        rng_state := rng_state s1 |})) by reflexivity.
  rewrite (bindM_ok _ _ _ _ _ (Ei _)). cbv beta.
  cbn [training_jobs analysis_results rng_state].
  set (job0 := job_with_status "training" job).
  set (s0 := Build_TrainState _ _ _).
  assert (V0 : view aid s0 job0 a0).
  { split; cbn [s0 training_jobs analysis_results]; apply dict_get_set_same. }
  destruct (train_loop aid (selected_models request) s0 job0 a0 V0)
    as [s1 [job1 [a1 [E1 [V1 [K1 [F1 [O1 _]]]]]]]].
  { exact Hkeys. }
  { intros k []. }
  pose proof (train_loop_inner aid (selected_models request) s0) as [_ Hs].
  rewrite E1 in Hs. cbn [snd] in Hs. destruct V1 as [Hj1 Ha1].
  destruct (Hs _ _ (proj1 V0) Hj1) as [St1 Er1].
  cbn [job0 job_with_status job_status job_error job_models] in St1, Er1, K1, F1.
  rewrite (bindM_ok _ _ _ _ _ E1). cbv beta.
  unfold bindM at 1, get_job. rewrite Hj1.
  assert (Hnd1 : NoDup (dict_keys (job_models job1))) by now rewrite K1.
  assert (Hall : all_finished job1 =
            forallb (fun kv => str_in (fst kv) (selected_models request) || finished (snd kv))
                    (job_models job)).
  { apply Bool.eq_iff_eq_true. unfold all_finished. rewrite !forallb_forall. split.
    - intros Hfin [k mj] Hin. cbn [fst snd]. apply orb_true_iff.
      destruct (in_dec string_dec k (selected_models request)) as [Hsel|Hn].
      + left. now apply str_in_true.
      + right. apply (Hfin mj). apply dict_values_In. exists k.
        apply dict_get_In. rewrite (proj1 (F1 k Hn)). now apply dict_In_get.
    - intros Hfin mj Hin. apply dict_values_In in Hin. destruct Hin as [k Hin].
      pose proof (dict_In_get k mj _ Hnd1 Hin) as Hg.
      destruct (in_dec string_dec k (selected_models request)) as [Hsel|Hn].
      + exact (outcome_finished k job1 a1 mj (O1 k Hsel) Hg).
      + rewrite (proj1 (F1 k Hn)) in Hg. apply dict_get_In in Hg.
        specialize (Hfin _ Hg). cbn [fst snd] in Hfin. apply orb_true_iff in Hfin.
        destruct Hfin as [Hsel|Hf]; [|exact Hf].
        apply str_in_true in Hsel. contradiction. }
  rewrite <- Hall.
  destruct (all_finished job1).
  - rewrite (set_job_ok aid _ s1 job1 Hj1). eexists. eexists.
    split; [reflexivity|]. cbn [training_jobs].
    split; [apply dict_get_set_same|].
    cbn [job_with_status job_models job_status job_error].
    split; [exact Er1|]. split; [|reflexivity].
    intros m Hn. exact (proj1 (F1 m Hn)).
  - exists s1, job1. split; [reflexivity|]. split; [exact Hj1|].
    split; [exact Er1|]. split; [|exact St1].
    intros m Hn. exact (proj1 (F1 m Hn)).
Qed.

End Frame.

Lemma train_models_aborts_at_missing_entry_witness :
  exists s' job',
    @train_models constant_rng no_tensorflow 0
       {| analysis_id := "a1"; selected_models := ["arima"; "ghost"; "prophet"] |}
       three_state = (Ok tt, s') /\
    dict_get "a1" (training_jobs s') = Some job' /\
    job_status job' = "failed" /\ job_error job' = Some "'ghost'".
Proof.
  destruct (@train_models_aborts_at_missing_entry constant_rng no_tensorflow 0
              {| analysis_id := "a1"; selected_models := ["arima"; "ghost"; "prophet"] |}
              three_state three_jobs ["arima"] ["prophet"] "ghost")
    as [s' [job' [a' [Hrun [Hj [_ [Hs [He _]]]]]]]].
  - reflexivity.
  - reflexivity.
  - intros m [<-|[]]. left. reflexivity.
  - cbn. intuition discriminate.
  - exists s', job'. split; [exact Hrun|]. split; [exact Hj|]. split; [exact Hs|exact He].
Defined.

Lemma train_models_final_status_witness :
  exists s' job',
    @train_models constant_rng no_tensorflow 0
       {| analysis_id := "a1"; selected_models := ["arima"; "lstm"] |}
       three_state = (Ok tt, s') /\
    dict_get "a1" (training_jobs s') = Some job' /\
    job_status job' = "training".
Proof.
  destruct (@train_models_final_status constant_rng no_tensorflow 0
              {| analysis_id := "a1"; selected_models := ["arima"; "lstm"] |}
              three_state three_jobs)
    as [s' [job' [Hrun [Hj [_ [_ Hs]]]]]].
  - reflexivity.
  - intros m [<-|[<-|[]]]; cbn; auto.
  - cbn. repeat constructor; cbn; intuition discriminate.
  - exists s', job'. split; [exact Hrun|]. split; [exact Hj|exact Hs].
Defined.

End TrainFrame.

(* ================================================================== *)
(** * Part XXXI. generate_features: order, table, presets, constants *)
(* ================================================================== *)

Module FeatureFacts.
Import FeatureEngineering PyFacts DictFacts MoreDictFacts GenerateFacts Idempotence
  PearsonFacts Correlation Spec Samples MoreSpec.

Section Service.
Context `{NumpyRandom} `{IndicatorLibrary}.

(** X15. Whatever the order of the records in the stock data, a
    requested price feature (close, volume, open, high, low) comes out
    in ascending date order: its values are those of the records,
    rearranged by date; records that are already in date order stay as
    they are. *)
Theorem price_features_follow_date_order (now : Z) (ticker preset : string)
    (selected : list string) (rows : list PricePoint) (st : rng)
    (f : string) (field : PricePoint -> pyfloat) :
  rows <> [] ->
  In f (features_to_generate preset selected) ->
  dict_get f price_columns = Some field ->
  exists out st' log df,
    generate_features now ticker preset selected (Some rows) st = (Ok (out, st'), log) /\
    Permutation rows df /\ StronglySorted by_date df /\
    (StronglySorted by_date rows -> df = rows) /\
    dict_get f (features out) = Some (entry f (map field df)).
Proof.
  intros Hne Hin Hf. rewrite (generate_features_form now ticker preset selected rows st Hne).
  eexists. eexists. eexists. exists (sort_index rows). split; [reflexivity|].
  split; [apply sort_index_perm|]. split; [apply sort_index_sorted|].
  split; [apply sort_index_sorted_id|]. cbn [features].
  destruct (collect_features_spec (sort_index rows) (features_to_generate preset selected) [])
    as [_ [_ [Hget _]]].
  apply Hget; [exact Hin|]. unfold _generate_feature. now rewrite Hf.
Qed.

End Service.

Lemma price_features_follow_date_order_witness :
  exists out st' log df,
    @generate_features constant_rng failing_indicators 0 "ACME" "basic" []
       (Some (rev two_rows)) tt = (Ok (out, st'), log) /\
    Permutation (rev two_rows) df /\ StronglySorted by_date df /\
    dict_get "close" (features out) = Some (entry "close" (map close df)).
Proof.
  destruct (@price_features_follow_date_order constant_rng failing_indicators 0 "ACME"
              "basic" [] (rev two_rows) tt "close" close)
    as [out [st' [log [df [Hrun [Hp [Hs [_ Hg]]]]]]]].
  - discriminate.
  - left. reflexivity.
  - reflexivity.
  - exists out, st', log, df. split; [exact Hrun|]. split; [exact Hp|].
    split; [exact Hs|exact Hg].
Defined.

(** ** The shape of the feature table *)

Section Table.
Context `{NumpyRandom} `{IndicatorLibrary}.

Lemma generate_features_ok_inv (now : Z) (ticker preset : string)
    (selected : list string) (stock_data : option (list PricePoint)) (st st' : rng)
    (out : FeatureOutput) (log : list log_entry) :
  generate_features now ticker preset selected stock_data st = (Ok (out, st'), log) ->
  exists rows,
    stock_data = Some rows /\ rows <> [] /\
    let fd := fst (collect_features (sort_index rows)
                     (features_to_generate preset selected) []) in
    out = {| features := fd;
             feature_importance := fst (_calculate_feature_importance fd st);
             correlation_matrix := _calculate_correlation_matrix fd;
             selected_features := features_to_generate preset selected;
             ticker := ticker;
             generated_at := now |} /\
    log = snd (collect_features (sort_index rows)
                 (features_to_generate preset selected) []).
Proof.
  destruct stock_data as [[|p rows]|]; try (cbn; discriminate).
  rewrite (generate_features_form now ticker preset selected (p :: rows) st)
    by discriminate.
  intros [= <- _ <-]. exists (p :: rows). split; [reflexivity|].
  split; [discriminate|]. split; reflexivity.
Qed.

(** X16. A call that returns was given a non-empty series, and its
    feature table has one entry per generated feature: the keys are
    distinct requested names, every entry carries its key as name, the
    description of that name and exactly one value per record of the
    series, and the importance list ranks exactly the features of the
    table. *)
Theorem feature_table_shape (now : Z) (ticker preset : string)
    (selected : list string) (stock_data : option (list PricePoint)) (st st' : rng)
    (out : FeatureOutput) (log : list log_entry) :
  indicator_aligned ->
  generate_features now ticker preset selected stock_data st = (Ok (out, st'), log) ->
  exists rows,
    stock_data = Some rows /\ rows <> [] /\
    selected_features out = features_to_generate preset selected /\
    FeatureEngineering.ticker out = ticker /\
    NoDup (dict_keys (features out)) /\
    (forall k, In k (dict_keys (features out)) -> In k (selected_features out)) /\
    (forall k v, In (k, v) (features out) ->
       name v = k /\ description v = _get_feature_description k /\
       length (values v) = length rows) /\
    Permutation (dict_keys (features out)) (map feature (feature_importance out)).
Proof.
  intros Hal Hrun.
  destruct (generate_features_ok_inv _ _ _ _ _ _ _ _ _ Hrun)
    as [rows [Hdata [Hne [Hout _]]]].
  exists rows. split; [exact Hdata|]. split; [exact Hne|]. cbn zeta in Hout. subst out.
  cbn [features feature_importance selected_features FeatureEngineering.ticker].
  destruct (collect_features_spec (sort_index rows) (features_to_generate preset selected) [])
    as [_ [_ [_ [_ [Hnd Hin]]]]].
  cbn zeta in Hnd, Hin.
  split; [reflexivity|]. split; [reflexivity|]. split; [apply Hnd; constructor|].
  split; [|split].
  - intros k Hk. unfold dict_keys in Hk. apply in_map_iff in Hk.
    destruct Hk as [[k' v] [E Hkv]]. cbn [fst] in E. subst k'.
    destruct (Hin k v Hkv) as [[]|[Hk _]]. exact Hk.
  - intros k v Hkv. destruct (Hin k v Hkv) as [[]|[_ [c [Hc ->]]]].
    cbn [entry name description values]. split; [reflexivity|]. split; [reflexivity|].
    rewrite (generate_length _ _ _ Hal Hc). apply length_sort_index.
  - apply importance_names.
Qed.

(** ** Presets *)

(** X17. Unless the preset is "custom" the selected features play no
    role: two calls that differ only in the selection give the same
    result. A preset that is neither "custom" nor one of the built-in
    presets generates nothing: the call returns an empty table, an
    empty importance list and an empty matrix, logs nothing and draws
    no random number. *)
Theorem presets_override_selection (now : Z) (ticker preset : string)
    (selected1 selected2 : list string) (stock_data : option (list PricePoint))
    (st : rng) :
  preset <> "custom" ->
  generate_features now ticker preset selected1 stock_data st =
  generate_features now ticker preset selected2 stock_data st /\
  (dict_get preset feature_presets = None ->
   forall rows, stock_data = Some rows -> rows <> [] ->
     generate_features now ticker preset selected1 stock_data st =
     (Ok ({| features := []; feature_importance := []; correlation_matrix := [];
             selected_features := []; ticker := ticker; generated_at := now |}, st),
      [])).
Proof.
  intros Hne. apply String.eqb_neq in Hne.
  assert (Hsel : forall sel, features_to_generate preset sel =
                   match dict_get preset feature_presets with
                   | Some l => l
                   | None => []
                   end).
  { intros sel. unfold features_to_generate. now rewrite Hne. }
  split.
  - unfold generate_features. now rewrite !Hsel.
  - intros Hp rows -> Hrows.
    rewrite (generate_features_form now ticker preset selected1 rows st Hrows).
    cbn zeta. rewrite Hsel, Hp. reflexivity.
Qed.

End Table.

(** ** The tables of the service agree *)

Lemma dict_mem_In {V : Type} (k : string) (d : dict V) :
  dict_mem k d = true <-> In k (dict_keys d).
Proof.
  rewrite dict_mem_true. split.
  - intros [v Hv]. apply dict_get_In in Hv. unfold dict_keys.
    change k with (fst (k, v)). now apply in_map.
  - apply dict_get_Some_key.
Qed.

Lemma known_feature_In (f : string) :
  known_feature f = true <-> In f recognised_names.
Proof.
  unfold known_feature, recognised_names.
  rewrite !orb_true_iff, !in_app_iff, !dict_mem_In, str_in_true. tauto.
Qed.

Lemma recognised_are_described (f : string) :
  known_feature f = true -> dict_mem f descriptions = true.
Proof.
  intros Hk. apply known_feature_In in Hk.
  assert (Hall : forallb (fun f => dict_mem f descriptions) recognised_names = true)
    by (vm_compute; reflexivity).
  rewrite forallb_forall in Hall. now apply Hall.
Qed.

Lemma preset_features_known (preset f : string) (l : list string) :
  dict_get preset feature_presets = Some l -> In f l -> known_feature f = true.
Proof.
  intros Hp Hf. apply dict_get_In in Hp.
  assert (Hall : forallb (fun pl => forallb known_feature (snd pl)) feature_presets = true)
    by (vm_compute; reflexivity).
  rewrite forallb_forall in Hall. specialize (Hall _ Hp). cbn [snd] in Hall.
  rewrite forallb_forall in Hall. now apply Hall.
Qed.

Lemma library_not_price (f : string) :
  In f library_features -> dict_get f price_columns = None.
Proof.
  intros Hf.
  assert (Hall : forallb (fun f => negb (dict_mem f price_columns)) library_features = true)
    by (vm_compute; reflexivity).
  rewrite forallb_forall in Hall. specialize (Hall f Hf). unfold dict_mem in Hall.
  destruct (dict_get f price_columns); [discriminate|reflexivity].
Qed.

Lemma mock_not_price_nor_library (f : string) :
  dict_mem f mock_constants = true ->
  dict_get f price_columns = None /\ str_in f library_features = false.
Proof.
  intros Hf. apply dict_mem_In in Hf.
  assert (Hall : forallb (fun f => negb (dict_mem f price_columns)
                                   && negb (str_in f library_features))
                         (dict_keys mock_constants) = true)
    by (vm_compute; reflexivity).
  rewrite forallb_forall in Hall. specialize (Hall f Hf).
  apply andb_true_iff in Hall. destruct Hall as [Hp Hl]. unfold dict_mem in Hp.
  split; [destruct (dict_get f price_columns); [discriminate|reflexivity]|].
  now destruct (str_in f library_features).
Qed.

Section Generated.
Context `{IndicatorLibrary}.

Lemma generated_is_known (df : DataFrame) (f : string) (c : column) :
  fst (_generate_feature df f) = Some c -> known_feature f = true.
Proof.
  intros Hc. destruct (known_feature f) eqn:E; [reflexivity|].
  rewrite (generate_unknown df f E) in Hc. discriminate.
Qed.

Lemma generate_failing (df : DataFrame) (f : string) (e : exn) :
  In f library_features -> indicator f df = Raise e ->
  _generate_feature df f = (None, [generation_error f e]).
Proof.
  intros Hf He. unfold _generate_feature.
  rewrite (library_not_price f Hf). apply str_in_true in Hf. rewrite Hf, He. reflexivity.
Qed.

Lemma generate_mock (df : DataFrame) (f : string) (c : column) :
  dict_mem f mock_constants = true ->
  fst (_generate_feature df f) = Some c -> constant_column c.
Proof.
  intros Hm. destruct (mock_not_price_nor_library f Hm) as [Hp Hl].
  unfold _generate_feature. rewrite Hp, Hl.
  destruct (dict_get f mock_constants) as [v|]; cbn [fst]; [|easy].
  intros [= <-]. apply constant_column_repeat.
Qed.
End Generated.

Section Consistency.
Context `{NumpyRandom} `{IndicatorLibrary}.

(** X18. Every feature of a returned table carries a description from
    the description table, never the generic fallback text; and a call
    with a preset other than "custom" logs no warning, since every
    feature of every built-in preset is recognised. *)
Theorem generated_features_are_described (now : Z) (ticker preset : string)
    (selected : list string) (stock_data : option (list PricePoint)) (st st' : rng)
    (out : FeatureOutput) (log : list log_entry) :
  generate_features now ticker preset selected stock_data st = (Ok (out, st'), log) ->
  (forall k v, In (k, v) (features out) ->
     dict_get k descriptions = Some (description v)) /\
  (preset <> "custom" -> forall msg, ~ In (LogWarning msg) log).
Proof.
  intros Hrun.
  destruct (generate_features_ok_inv _ _ _ _ _ _ _ _ _ Hrun)
    as [rows [Hdata [Hne [Hout Hlog]]]].
  cbn zeta in Hout. subst out log. cbn [features].
  destruct (collect_features_spec (sort_index rows) (features_to_generate preset selected) [])
    as [_ [Hlog [_ [_ [_ Hin]]]]].
  cbn zeta in Hlog, Hin. split.
  - intros k v Hkv. destruct (Hin k v Hkv) as [[]|[_ [c [Hc ->]]]].
    cbn [entry description]. unfold _get_feature_description.
    pose proof (recognised_are_described k (generated_is_known _ _ _ Hc)) as Hd.
    unfold dict_mem in Hd. now destruct (dict_get k descriptions).
  - intros Hp msg Hmsg. destruct (Hlog _ Hmsg) as [f [Hf Hfe]].
    apply (known_never_warns (sort_index rows) f msg); [|exact Hfe].
    apply String.eqb_neq in Hp. unfold features_to_generate in Hf. rewrite Hp in Hf.
    destruct (dict_get preset feature_presets) as [l|] eqn:El; [|easy].
    exact (preset_features_known preset f l El Hf).
Qed.

(** X19. A feature whose indicator raises is skipped like an unknown
    one: the call still returns, the feature is missing from the table
    and from the importance list, and the log holds an error naming the
    feature and the exception. *)
Theorem failing_indicator_is_skipped (now : Z) (ticker preset : string)
    (selected : list string) (rows : list PricePoint) (st : rng)
    (f : string) (e : exn) :
  rows <> [] ->
  In f (features_to_generate preset selected) ->
  In f library_features ->
  indicator f (sort_index rows) = Raise e ->
  exists out st' log,
    generate_features now ticker preset selected (Some rows) st = (Ok (out, st'), log) /\
    dict_get f (features out) = None /\
    ~ In f (map feature (feature_importance out)) /\
    In (generation_error f e) log.
Proof.
  intros Hne Hin Hlib He.
  rewrite (generate_features_form now ticker preset selected rows st Hne).
  eexists. eexists. eexists. split; [reflexivity|].
  cbn [features feature_importance].
  destruct (collect_features_spec (sort_index rows) (features_to_generate preset selected) [])
    as [Hlog [_ [_ [Hframe _]]]].
  cbn zeta in Hlog, Hframe.
  pose proof (generate_failing (sort_index rows) f e Hlib He) as Hg.
  assert (Hnone : dict_get f (fst (collect_features (sort_index rows)
                    (features_to_generate preset selected) [])) = None).
  { rewrite Hframe; [reflexivity|]. right. now rewrite Hg. }
  split; [exact Hnone|]. split.
  - intros Himp. rewrite <- importance_names in Himp.
    apply dict_get_None in Hnone. contradiction.
  - apply (Hlog f); [exact Hin|]. rewrite Hg. now left.
Qed.

End Consistency.

(** ** Constant features in the correlation matrix *)

Lemma complete_pairs_fst (x y : column) (a : R) :
  In a (map fst (complete_pairs x y)) -> In a (finite_values x).
Proof.
  revert y. induction x as [|[u|] x IH]; intros [|[v|] y]; cbn; try easy.
  - intros [<-|Hin]; [now left|right; eauto].
  - intros Hin. right. eauto.
  - eauto.
  - eauto.
Qed.

Lemma finite_values_Fin (l : list R) : finite_values (map Fin l) = l.
Proof. induction l as [|a l IH]; cbn; [reflexivity|now rewrite IH]. Qed.

Lemma pearson_constant (x y : column) :
  constant_column x -> fillna0 (pearson x y) = 0.
Proof.
  intros Hc. unfold pearson. set (ps := complete_pairs x y).
  destruct (length ps <? 1)%nat; [reflexivity|].
  assert (Hz : sum_sq_dev (map fst ps) = 0).
  { rewrite <- (finite_values_Fin (map fst ps)). apply sum_sq_dev_zero.
    intros a b Ha Hb. rewrite finite_values_Fin in Ha, Hb.
    apply Hc; now apply (complete_pairs_fst x y). }
  rewrite Hz, Rmult_0_l, sqrt_0.
  destruct (Req_dec_T 0 0); [reflexivity|contradiction].
Qed.

Section Zero.
Context `{NumpyRandom} `{IndicatorLibrary}.

(** X20. A constant feature correlates 0 with every feature: in the
    returned matrix its whole row and its whole column are 0, the
    diagonal included. This is the case of every mock fundamental or
    macro feature (pe_ratio, market_cap, book_value, gdp, cpi,
    interest_rates). *)
Theorem constant_feature_correlates_zero (now : Z) (ticker preset : string)
    (selected : list string) (rows : list PricePoint) (st : rng) :
  indicator_aligned ->
  rows <> [] ->
  exists out st' log,
    generate_features now ticker preset selected (Some rows) st = (Ok (out, st'), log) /\
    let cols := columns_of (features out) in
    let k := length (features out) in
    let M := correlation_matrix out in
    forall i j, (i < k)%nat -> (j < k)%nat ->
      constant_column (nth i cols []) \/
      dict_mem (nth i (dict_keys (features out)) "") mock_constants = true ->
      entry_at M i j = 0 /\ entry_at M j i = 0.
Proof.
  intros Hal Hne.
  rewrite (generate_features_form now ticker preset selected rows st Hne).
  eexists. eexists. eexists. split; [reflexivity|].
  cbn [features correlation_matrix].
  set (fd := fst (collect_features (sort_index rows)
                    (features_to_generate preset selected) [])).
  assert (Hn : (0 < length (sort_index rows))%nat).
  { rewrite length_sort_index. destruct rows; [easy|cbn; lia]. }
  destruct (correlation_matrix_properties (length (sort_index rows)) fd
              (collected_features_aligned _ _ Hal) Hn) as [_ [_ [Hent _]]].
  cbn zeta in *. intros i j Hi Hj Hconst.
  assert (Hc : constant_column (nth i (columns_of fd) [])).
  { destruct Hconst as [Hc|Hm]; [exact Hc|].
    set (d := ("", {| name := ""; values := []; description := "" |}) : string * FeatureInfo).
    assert (Hk : nth i (dict_keys fd) "" = fst (nth i fd d)).
    { unfold dict_keys. exact (map_nth fst fd d i). }
    assert (Hv : nth i (columns_of fd) [] = values (snd (nth i fd d))).
    { unfold columns_of, dict_values. rewrite map_map.
      exact (map_nth (fun kv => values (snd kv)) fd d i). }
    rewrite Hk in Hm. rewrite Hv.
    assert (Hin : In (nth i fd d) fd) by now apply nth_In.
    destruct (nth i fd d) as [key v]. cbn [fst snd] in *.
    destruct (collect_features_spec (sort_index rows)
                (features_to_generate preset selected) [])
      as [_ [_ [_ [_ [_ Hspec]]]]].
    cbn zeta in Hspec. destruct (Hspec key v Hin) as [[]|[_ [c [Hgen ->]]]].
    cbn [entry values]. exact (generate_mock _ _ _ Hm Hgen). }
  destruct (Hent i j Hi Hj) as [Hij [Hsym _]].
  assert (Hz : entry_at (_calculate_correlation_matrix fd) i j = 0).
  { rewrite Hij. now apply pearson_constant. }
  split; [exact Hz|]. now rewrite <- Hsym.
Qed.

End Zero.

Lemma generated_features_are_described_witness :
  exists out st' log,
    @generate_features constant_rng failing_indicators 0 "ACME" "macro" []
       (Some two_rows) tt = (Ok (out, st'), log) /\
    forall msg, ~ In (LogWarning msg) log.
Proof.
  pose proof (@generate_features_form constant_rng failing_indicators 0 "ACME" "macro" []
                two_rows tt ltac:(discriminate)) as Hrun.
  cbn zeta in Hrun. eexists. eexists. eexists. split; [exact Hrun|].
  apply (proj2 (@generated_features_are_described constant_rng failing_indicators 0
                  "ACME" "macro" [] (Some two_rows) tt _ _ _ Hrun)).
  discriminate.
Defined.

Lemma failing_indicator_is_skipped_witness :
  exists out st' log,
    @generate_features constant_rng failing_indicators 0 "ACME" "basic" []
       (Some two_rows) tt = (Ok (out, st'), log) /\
    dict_get "sma_20" (features out) = None.
Proof.
  destruct (@failing_indicator_is_skipped constant_rng failing_indicators 0 "ACME"
              "basic" [] two_rows tt "sma_20" (ValueError "indicator unavailable"))
    as [out [st' [log [Hrun [Hnone _]]]]].
  - discriminate.
  - right. right. left. reflexivity.
  - left. reflexivity.
  - reflexivity.
  - exists out, st', log. split; [exact Hrun|exact Hnone].
Defined.

Lemma constant_feature_correlates_zero_witness :
  exists out st' log,
    @generate_features constant_rng failing_indicators 0 "ACME" "macro" []
       (Some two_rows) tt = (Ok (out, st'), log) /\
    length (features out) = 4%nat /\
    entry_at (correlation_matrix out) 1 0 = 0.
Proof.
  destruct (@constant_feature_correlates_zero constant_rng failing_indicators 0 "ACME"
              "macro" [] two_rows tt failing_indicators_aligned)
    as [out [st' [log [Hrun Hz]]]].
  - discriminate.
  - exists out, st', log. split; [exact Hrun|].
    pose proof (@generate_features_form constant_rng failing_indicators 0 "ACME" "macro" []
                  two_rows tt ltac:(discriminate)) as Hform.
    cbn zeta in Hform. rewrite Hform in Hrun. injection Hrun as <- _ _.
    split; [reflexivity|].
    apply (Hz 1%nat 0%nat); [cbn; lia|cbn; lia|]. right. reflexivity.
Defined.

Lemma feature_table_shape_witness :
  exists out st' log,
    @generate_features constant_rng failing_indicators 0 "ACME" "macro" []
       (Some two_rows) tt = (Ok (out, st'), log) /\
    NoDup (dict_keys (features out)).
Proof.
  pose proof (@generate_features_form constant_rng failing_indicators 0 "ACME" "macro" []
                two_rows tt ltac:(discriminate)) as Hrun.
  cbn zeta in Hrun. eexists. eexists. eexists. split; [exact Hrun|].
  destruct (@feature_table_shape constant_rng failing_indicators 0 "ACME" "macro" []
              (Some two_rows) tt _ _ _ failing_indicators_aligned Hrun)
    as [rows [_ [_ [_ [_ [Hnd _]]]]]].
  exact Hnd.
Defined.

Lemma presets_override_selection_witness :
  @generate_features constant_rng failing_indicators 0 "ACME" "macro" ["close"]
     (Some two_rows) tt =
  @generate_features constant_rng failing_indicators 0 "ACME" "macro" ["volume"]
     (Some two_rows) tt.
Proof.
  apply (@presets_override_selection constant_rng failing_indicators 0 "ACME" "macro"
           ["close"] ["volume"] (Some two_rows) tt).
  discriminate.
Defined.

End FeatureFacts.

(* ================================================================== *)
(** * Part XXXII. compare_models *)
(* ================================================================== *)

Module ComparisonFacts.
Import ModelComparison PyFacts MoreSpec.

Lemma py_index_In (x : R) (l : list R) :
  In x l ->
  exists i, py_index x l = Some i /\ (i < length l)%nat /\ nth i l 0 = x /\
            forall j, (j < i)%nat -> nth j l 0 <> x.
Proof.
  induction l as [|y l IH]; [easy|]. intros Hin. cbn [py_index].
  destruct (Req_dec_T y x) as [E|Hne].
  - exists 0%nat. split; [reflexivity|]. split; [cbn; lia|]. split; [exact E|].
    intros j Hj. lia.
  - destruct Hin as [E|Hin]; [contradiction|].
    destruct (IH Hin) as [i [Hi [Hlt [Hnth Hfirst]]]]. exists (S i).
    rewrite Hi. split; [reflexivity|]. split; [cbn; lia|]. split; [exact Hnth|].
    intros [|j] Hj; [exact Hne|]. apply Hfirst. lia.
Qed.

Lemma build_comparison_ok (pairs : list (string * R)) (scores : list R) :
  (forall p, In p pairs -> In (snd p) scores) ->
  exists entries,
    build_comparison pairs scores = Some entries /\
    map (fun e => (model e, score e)) entries = pairs /\
    forall e, In e entries ->
      (1 <= rank e <= length scores)%nat /\
      nth (rank e - 1) scores 0 = score e /\
      forall j, (j < rank e - 1)%nat -> nth j scores 0 <> score e.
Proof.
  induction pairs as [|[m s] pairs IH]; intros Hin; cbn [build_comparison].
  - exists []. split; [reflexivity|]. split; [reflexivity|easy].
  - destruct (py_index_In s scores) as [i [Hi [Hlt [Hnth Hfirst]]]].
    { apply (Hin (m, s)). now left. }
    destruct IH as [entries [Hb [Hmap Hall]]].
    { intros p Hp. apply Hin. now right. }
    rewrite Hi, Hb. eexists. split; [reflexivity|]. split.
    + cbn [map model score]. now rewrite Hmap.
    + intros e [<-|He]; [|now apply Hall]. cbn [rank score].
      replace (i + 1 - 1)%nat with i by lia. split; [lia|]. split; assumption.
Qed.

Lemma insert_entry_perm (rs : bool) (x : ComparisonEntry) (l : list ComparisonEntry) :
  Permutation (x :: l) (insert_entry rs x l).
Proof.
  induction l as [|y l IH]; cbn [insert_entry]; [reflexivity|].
  destruct (precedes rs y x); [|reflexivity].
  rewrite perm_swap. now apply perm_skip.
Qed.

Lemma sort_entries_perm (rs : bool) (l : list ComparisonEntry) :
  Permutation l (sort_entries rs l).
Proof.
  induction l as [|x l IH]; cbn [sort_entries fold_right]; [reflexivity|].
  rewrite <- insert_entry_perm. now apply perm_skip.
Qed.

Lemma precedes_true (rs : bool) (x y : ComparisonEntry) :
  precedes rs x y = true -> ordered rs x y.
Proof.
  unfold precedes, ordered. destruct rs; intros Hp; apply Rltb_true in Hp; lra.
Qed.

Lemma precedes_false (rs : bool) (x y : ComparisonEntry) :
  precedes rs x y = false -> ordered rs y x.
Proof.
  unfold precedes, ordered. destruct rs; intros Hp; apply Rltb_false in Hp; lra.
Qed.

Lemma ordered_trans (rs : bool) (x y z : ComparisonEntry) :
  ordered rs x y -> ordered rs y z -> ordered rs x z.
Proof. unfold ordered. destruct rs; lra. Qed.

Lemma insert_entry_sorted (rs : bool) (x : ComparisonEntry) (l : list ComparisonEntry) :
  StronglySorted (ordered rs) l -> StronglySorted (ordered rs) (insert_entry rs x l).
Proof.
  induction 1 as [|y l Hs IH Hy]; cbn [insert_entry].
  - constructor; constructor.
  - destruct (precedes rs y x) eqn:E.
    + constructor; [exact IH|]. rewrite <- insert_entry_perm.
      constructor; [now apply precedes_true|exact Hy].
    + apply precedes_false in E. constructor; [now constructor|].
      constructor; [exact E|]. rewrite Forall_forall in *.
      intros z Hz. exact (ordered_trans rs x y z E (Hy z Hz)).
Qed.

Lemma sort_entries_sorted (rs : bool) (l : list ComparisonEntry) :
  StronglySorted (ordered rs) (sort_entries rs l).
Proof.
  induction l as [|x l IH]; cbn [sort_entries fold_right]; [constructor|].
  now apply insert_entry_sorted.
Qed.

Section Compare.
Context `{NumpyRandom}.

Lemma draw_scores_length {A : Type} (l : list A) (st : rng) :
  length (fst (draw_scores l st)) = length l.
Proof.
  revert st. induction l as [|a l IH]; intros st; cbn [draw_scores]; [reflexivity|].
  destruct (uniform 1 5 st) as [v st1]. specialize (IH st1).
  destruct (draw_scores l st1) as [vs st2]. cbn [fst length] in *. now rewrite IH.
Qed.

Lemma scores_for_length (metric : string) (st : rng) :
  length (fst (scores_for metric st)) = 4%nat.
Proof.
  unfold scores_for.
  destruct (String.eqb metric "accuracy"); [reflexivity|].
  destruct (String.eqb metric "mape"); [reflexivity|].
  destruct (String.eqb metric "mae"); [reflexivity|].
  apply (draw_scores_length models).
Qed.

(** The entries before sorting and the result built from them. *)
Lemma compare_models_form (analysis_id metric : string) (st : rng) :
  let scores := fst (scores_for metric st) in
  exists entries first rest,
    build_comparison (combine models scores) scores = Some entries /\
    sort_entries (String.eqb metric "accuracy") entries = first :: rest /\
    compare_models analysis_id metric st =
      (Some {| ModelComparison.metric := metric;
               comparison := first :: rest;
               best_model := model first |},
       snd (scores_for metric st)) /\
    map (fun e => (model e, score e)) entries = combine models scores /\
    forall e, In e entries ->
      (1 <= rank e <= 4)%nat /\
      nth (rank e - 1) scores 0 = score e /\
      forall j, (j < rank e - 1)%nat -> nth j scores 0 <> score e.
Proof.
  intros scores. pose proof (scores_for_length metric st) as Hlen. fold scores in Hlen.
  destruct (build_comparison_ok (combine models scores) scores)
    as [entries [Hb [Hmap Hall]]].
  { intros [m s] Hp. exact (in_combine_r _ _ _ _ Hp). }
  assert (Hne : length (sort_entries (String.eqb metric "accuracy") entries) = 4%nat).
  { rewrite <- (Permutation_length (sort_entries_perm _ entries)).
    rewrite <- (length_map (fun e => (model e, score e))), Hmap, length_combine, Hlen.
    reflexivity. }
  destruct (sort_entries (String.eqb metric "accuracy") entries) as [|first rest] eqn:Es;
    [discriminate|].
  exists entries, first, rest. split; [exact Hb|]. split; [exact Es|]. split.
  - unfold compare_models. fold scores.
    destruct (scores_for metric st) as [sc st'] eqn:Esc. cbn [fst snd] in *.
    subst scores. rewrite Hb, Es. reflexivity.
  - split; [exact Hmap|]. intros e He. rewrite <- Hlen. now apply Hall.
Qed.

(** The sorted comparison: every model once, in score order, the first
    entry unbeaten. *)
Lemma comparison_sorted (analysis_id metric : string) (st : rng)
    (out : ComparisonOutput) :
  fst (compare_models analysis_id metric st) = Some out ->
  exists first rest,
    comparison out = first :: rest /\
    best_model out = model first /\
    ModelComparison.metric out = metric /\
    Permutation (map model (comparison out)) models /\
    StronglySorted (ordered (String.eqb metric "accuracy")) (comparison out) /\
    forall e, In e (comparison out) ->
      if String.eqb metric "accuracy" then score e <= score first
      else score first <= score e.
Proof.
  intros Hout.
  destruct (compare_models_form analysis_id metric st)
    as [entries [first [rest [Hb [Es [Hrun [Hmap _]]]]]]].
  cbn zeta in *. rewrite Hrun in Hout. cbn [fst] in Hout. injection Hout as <-.
  exists first, rest.
  cbn [ModelComparison.metric comparison best_model].
  split; [reflexivity|]. split; [reflexivity|]. split; [reflexivity|].
  pose proof (sort_entries_sorted (String.eqb metric "accuracy") entries) as Hs.
  rewrite Es in Hs. split; [|split; [exact Hs|]].
  - rewrite <- Es, <- (sort_entries_perm _ entries).
    assert (Hm : map model entries = map fst (combine models (fst (scores_for metric st)))).
    { rewrite <- Hmap, map_map. reflexivity. }
    rewrite Hm.
    pose proof (scores_for_length metric st) as Hlen.
    destruct (fst (scores_for metric st)) as [|a [|b [|c [|d [|]]]]]; try discriminate.
    reflexivity.
  - intros e [<-|He].
    + destruct (String.eqb metric "accuracy"); lra.
    + inversion Hs as [|x l _ Hall]; subst. rewrite Forall_forall in Hall.
      specialize (Hall e He). unfold ordered in Hall.
      destruct (String.eqb metric "accuracy"); exact Hall.
Qed.

(** X21. [compare_models] never takes its error path: for every metric
    name it returns a comparison of the four models, each exactly once,
    sorted by score (non-increasing for "accuracy", non-decreasing for
    every other metric), and reports as best the first model of that
    order, whose score no other model beats. *)
Theorem compare_models_sorts_and_picks_first (analysis_id metric : string) (st : rng) :
  exists out first rest,
    fst (compare_models analysis_id metric st) = Some out /\
    ModelComparison.metric out = metric /\
    comparison out = first :: rest /\
    best_model out = model first /\
    Permutation (map model (comparison out)) models /\
    StronglySorted (ordered (String.eqb metric "accuracy")) (comparison out) /\
    forall e, In e (comparison out) ->
      if String.eqb metric "accuracy" then score e <= score first
      else score first <= score e.
Proof.
  destruct (compare_models_form analysis_id metric st)
    as [entries [first [rest [_ [_ [Hrun _]]]]]].
  cbn zeta in Hrun.
  assert (Hout : fst (compare_models analysis_id metric st) =
                 Some {| ModelComparison.metric := metric;
                         comparison := first :: rest;
                         best_model := model first |}) by now rewrite Hrun.
  destruct (comparison_sorted analysis_id metric st _ Hout)
    as [first' [rest' [Hc [Hb [Hm [Hp [Hs Hbest]]]]]]].
  eexists. exists first', rest'. split; [exact Hout|].
  split; [exact Hm|]. split; [exact Hc|]. split; [exact Hb|].
  split; [exact Hp|]. split; [exact Hs|exact Hbest].
Qed.

(** X22. The rank of an entry is not its place in the sorted
    comparison: it is one more than the position, in the fixed model
    list, of the first model with the same score. So a model never
    ranks below its place in the model list, and "Prophet", the first
    of the list, has rank 1 wherever the sort puts it. *)
Theorem rank_is_position_in_model_list (analysis_id metric : string) (st : rng)
    (out : ComparisonOutput) (e : ComparisonEntry) :
  fst (compare_models analysis_id metric st) = Some out ->
  In e (comparison out) ->
  let scores := fst (scores_for metric st) in
  (1 <= rank e <= 4)%nat /\
  nth (rank e - 1) scores 0 = score e /\
  (forall j, (j < rank e - 1)%nat -> nth j scores 0 <> score e) /\
  (exists i, (i < 4)%nat /\ nth i models "" = model e /\ nth i scores 0 = score e /\
             (rank e <= i + 1)%nat) /\
  (model e = "Prophet" -> rank e = 1%nat).
Proof.
  intros Hrun He scores.
  destruct (compare_models_form analysis_id metric st)
    as [entries [first [rest [Hb [Es [Hform [Hmap Hall]]]]]]].
  cbn zeta in *. fold scores in Hb, Hmap, Hall.
  rewrite Hform in Hrun. cbn [fst] in Hrun. injection Hrun as <-.
  cbn [comparison] in He. rewrite <- Es in He.
  apply (Permutation_in _ (Permutation_sym (sort_entries_perm _ entries))) in He.
  destruct (Hall e He) as [Hr [Hnth Hfirst]].
  assert (Hpos : exists i, (i < 4)%nat /\ nth i models "" = model e /\
                           nth i scores 0 = score e).
  { assert (Hin : In (model e, score e) (combine models scores)).
    { rewrite <- Hmap. apply (in_map (fun e => (model e, score e))). exact He. }
    pose proof (scores_for_length metric st) as Hlen. fold scores in Hlen.
    destruct scores as [|a [|b [|c [|d [|]]]]]; try discriminate.
    cbn [models combine In] in Hin.
    destruct Hin as [E|[E|[E|[E|[]]]]]; injection E as Em Esc.
    - exists 0%nat. cbn. split; [lia|]. split; congruence.
    - exists 1%nat. cbn. split; [lia|]. split; congruence.
    - exists 2%nat. cbn. split; [lia|]. split; congruence.
    - exists 3%nat. cbn. split; [lia|]. split; congruence. }
  destruct Hpos as [i [Hi [Hm Hs]]].
  assert (Hle : (rank e <= i + 1)%nat).
  { destruct (Nat.le_gt_cases (rank e) (i + 1)) as [Hle|Hgt]; [exact Hle|].
    exfalso. apply (Hfirst i); [lia|exact Hs]. }
  split; [exact Hr|]. split; [exact Hnth|]. split; [exact Hfirst|]. split.
  - exists i. repeat split; assumption.
  - intros Hp. rewrite Hp in Hm.
    assert (Hi0 : i = 0%nat).
    { destruct i as [|[|[|[|i]]]]; cbn in Hm; try discriminate; [reflexivity|lia]. }
    subst i. lia.
Qed.

End Compare.

Lemma descending_scores :
  @scores_for descending_rng "rmse" 0%nat = ([5 - 0; 5 - 1; 5 - (1 + 1); 5 - (1 + 1 + 1)], 4%nat).
Proof. reflexivity. Qed.

(** With scores 5, 4, 3, 2 the best model, XGBoost, is the first of
    the comparison and has rank 4. *)
Lemma rank_is_position_in_model_list_witness :
  exists out first rest,
    fst (@compare_models descending_rng "a1" "rmse" 0%nat) = Some out /\
    comparison out = first :: rest /\
    model first = "XGBoost" /\ rank first = 4%nat.
Proof.
  destruct (@compare_models_form descending_rng "a1" "rmse" 0%nat)
    as [entries [first0 [rest0 [_ [_ [Hform _]]]]]].
  cbn zeta in Hform.
  assert (Hrun : fst (@compare_models descending_rng "a1" "rmse" 0%nat) =
                 Some {| ModelComparison.metric := "rmse";
                         comparison := first0 :: rest0;
                         best_model := model first0 |}) by now rewrite Hform.
  destruct (@comparison_sorted descending_rng "a1" "rmse" 0%nat _ Hrun)
    as [first [rest [Hc [_ [_ [Hperm [_ Hbest]]]]]]].
  eexists. exists first, rest. split; [exact Hrun|]. split; [exact Hc|].
  assert (Hin : In first (first0 :: rest0)) by (cbn [comparison] in Hc; rewrite Hc; now left).
  destruct (@rank_is_position_in_model_list descending_rng "a1" "rmse" 0%nat _ first
              Hrun Hin) as [Hr [Hnth [_ [[i [Hi [Hm [Hs Hle]]]] _]]]].
  rewrite descending_scores in Hnth, Hs. cbn [fst] in Hnth, Hs.
  cbn [comparison] in Hperm, Hbest.
  assert (Hx : exists e, In e (first0 :: rest0) /\ model e = "XGBoost").
  { assert (Hi3 : In "XGBoost" (map model (first0 :: rest0))).
    { apply (Permutation_in _ (Permutation_sym Hperm)). cbn. auto. }
    apply in_map_iff in Hi3. destruct Hi3 as [e [Hme He]]. now exists e. }
  destruct Hx as [e [He Hme]].
  destruct (@rank_is_position_in_model_list descending_rng "a1" "rmse" 0%nat _ e
              Hrun He) as [_ [_ [_ [[k [Hk [Hmk [Hsk _]]]] _]]]].
  rewrite descending_scores in Hsk. cbn [fst] in Hsk.
  specialize (Hbest e He). cbn in Hbest.
  assert (Hk3 : k = 3%nat).
  { rewrite Hme in Hmk.
    destruct k as [|[|[|[|k]]]]; cbn in Hmk; try discriminate; [reflexivity|lia]. }
  subst k. cbn in Hsk.
  assert (Hi3 : i = 3%nat).
  { destruct i as [|[|[|[|i]]]]; cbn in Hs; try lra; [reflexivity|lia]. }
  subst i. split; [now rewrite <- Hm|].
  destruct (rank first) as [|[|[|[|[|r]]]]]; cbn in Hnth; try lra; try lia.
Defined.

End ComparisonFacts.

(* ================================================================== *)
(** * Part XXXIII. generate_forecast and export_json *)
(* ================================================================== *)

Module ForecastFacts.
Import Store Forecast PyFacts DictFacts MoreDictFacts Spec Samples MoreSpec.

(** ** Indexing *)

Lemma py_getitem_nat {A : Type} (l : list A) (i : nat) (d : A) :
  (i < length l)%nat -> py_getitem l (Z.of_nat i) = inl (nth i l d).
Proof.
  intros Hi. unfold py_getitem.
  assert (E1 : (Z.of_nat i <? 0)%Z = false) by (apply Z.ltb_ge; lia).
  rewrite E1, E1, Nat2Z.id.
  destruct (nth_error l i) as [x|] eqn:E.
  - now rewrite (nth_error_nth _ _ d E).
  - apply nth_error_None in E. lia.
Qed.

Lemma py_getitem_last {A : Type} (l : list A) (x : A) :
  py_getitem (l ++ [x]) (-1) = inl x.
Proof.
  unfold py_getitem. rewrite length_app. cbn [length].
  assert (E1 : (-1 <? 0)%Z = true) by reflexivity. rewrite E1.
  assert (E2 : (-1 + Z.of_nat (length l + 1) <? 0)%Z = false) by (apply Z.ltb_ge; lia).
  rewrite E2.
  replace (Z.to_nat (-1 + Z.of_nat (length l + 1))) with (length l) by lia.
  rewrite nth_error_app2 by lia. now rewrite Nat.sub_diag.
Qed.

Lemma py_getitem_nil {A : Type} (i : Z) :
  @py_getitem A [] i = raised (IndexError "list index out of range").
Proof.
  unfold py_getitem. cbn [length]. destruct (i <? 0)%Z eqn:E.
  - assert (E2 : (i + Z.of_nat 0 <? 0)%Z = true) by (apply Z.ltb_lt; apply Z.ltb_lt in E; lia).
    now rewrite E2.
  - rewrite E. now destruct (Z.to_nat i).
Qed.

Lemma map_nth_seq {A : Type} (l : list A) (d : A) :
  map (fun i => nth i l d) (seq 0 (length l)) = l.
Proof.
  induction l as [|x l IH]; [reflexivity|].
  cbn [length seq map nth]. f_equal. rewrite <- seq_shift, map_map. exact IH.
Qed.

Lemma nth_map_in {A B : Type} (f : A -> B) (l : list A) (i : nat) (d : A) (d' : B) :
  (i < length l)%nat -> nth i (map f l) d' = f (nth i l d).
Proof.
  intros Hi. rewrite (nth_indep _ d' (f d)) by (rewrite length_map; lia).
  apply map_nth.
Qed.

(** ** Maximum and minimum *)

Lemma fold_Rmax_spec (l : list R) (x : R) :
  x <= fold_left Rmax l x /\
  (forall y, In y l -> y <= fold_left Rmax l x) /\
  In (fold_left Rmax l x) (x :: l).
Proof.
  revert x. induction l as [|y l IH]; intros x; cbn [fold_left].
  - split; [lra|]. split; [easy|now left].
  - destruct (IH (Rmax x y)) as [H1 [H2 H3]].
    pose proof (Rmax_l x y). pose proof (Rmax_r x y).
    split; [lra|]. split.
    + intros z [<-|Hz]; [lra|now apply H2].
    + destruct H3 as [H3|H3]; [|right; now right].
      rewrite <- H3. unfold Rmax. destruct (Rle_dec x y); [right; now left|now left].
Qed.

Lemma fold_Rmin_spec (l : list R) (x : R) :
  fold_left Rmin l x <= x /\
  (forall y, In y l -> fold_left Rmin l x <= y) /\
  In (fold_left Rmin l x) (x :: l).
Proof.
  revert x. induction l as [|y l IH]; intros x; cbn [fold_left].
  - split; [lra|]. split; [easy|now left].
  - destruct (IH (Rmin x y)) as [H1 [H2 H3]].
    pose proof (Rmin_l x y). pose proof (Rmin_r x y).
    split; [lra|]. split.
    + intros z [<-|Hz]; [lra|now apply H2].
    + destruct H3 as [H3|H3]; [|right; now right].
      rewrite <- H3. unfold Rmin. destruct (Rle_dec x y); [now left|right; now left].
Qed.

Section Forecast.
Context `{NumpyRandom}.

(** ** One forecast *)

Lemma predict_length (trend : R) (days : list Z) (st : rng) :
  length (fst (predict trend days st)) = length days.
Proof.
  revert st. induction days as [|i days IH]; intros st; cbn [predict]; [reflexivity|].
  destruct (normal 0 noise_level st) as [noise st1]. specialize (IH st1).
  destruct (predict trend days st1) as [preds st2]. cbn [fst length] in *. now rewrite IH.
Qed.

Lemma prediction_entries_ok (dates : list Z) (preds lower upper : list R) (a k : nat) :
  (a + k <= length dates)%nat -> (a + k <= length preds)%nat ->
  (a + k <= length lower)%nat -> (a + k <= length upper)%nat ->
  prediction_entries (map Z.of_nat (seq a k)) dates preds lower upper =
  inl (map (fun i => {| date := nth i dates 0%Z; predicted := nth i preds 0;
                        confidence_lower := nth i lower 0;
                        confidence_upper := nth i upper 0 |}) (seq a k)).
Proof.
  revert a. induction k as [|k IH]; intros a Hd Hp Hl Hu; [reflexivity|].
  cbn [seq map prediction_entries].
  rewrite (py_getitem_nat dates a 0%Z) by lia.
  rewrite (py_getitem_nat preds a 0) by lia.
  rewrite (py_getitem_nat lower a 0) by lia.
  rewrite (py_getitem_nat upper a 0) by lia.
  cbn [and_then]. rewrite IH by lia. reflexivity.
Qed.

Lemma py_range_int_length (n : Z) : length (py_range_int n) = Z.to_nat n.
Proof. unfold py_range_int. now rewrite length_map, length_seq. Qed.

(** With a horizon of at least one day the forecast is returned. *)
Lemma mock_forecast_ok (today : Z) (name : string) (hz : Z) (st : rng) :
  (1 <= hz)%Z ->
  exists f st', _generate_mock_forecast today name hz st = (inl f, st') /\
                forecast_ok today hz name f.
Proof.
  intros Hh. unfold _generate_mock_forecast.
  destruct (uniform (- (1 / 100)) (2 / 100) st) as [trend st1].
  pose proof (predict_length trend (py_range_int hz) st1) as Hlen.
  destruct (predict trend (py_range_int hz) st1) as [preds st2]. cbn [fst] in Hlen.
  rewrite py_range_int_length in Hlen.
  set (n := Z.to_nat hz) in *.
  set (dates := map (fun i => (today + i)%Z) (py_range_int hz)).
  set (lower := map (fun pred => pred - pred * (5 / 100)) preds).
  set (upper := map (fun pred => pred + pred * (5 / 100)) preds).
  assert (Hd : length dates = n)
    by (unfold dates; now rewrite length_map, py_range_int_length).
  assert (Hl : length lower = n) by (unfold lower; now rewrite length_map).
  assert (Hu : length upper = n) by (unfold upper; now rewrite length_map).
  unfold py_range_int at 1. fold n.
  rewrite (prediction_entries_ok dates preds lower upper 0 n) by (cbn; lia).
  cbn [and_then].
  assert (Hpos : (0 < n)%nat) by (unfold n; lia).
  destruct (exists_last (l := preds)) as [ps [p Hps]].
  { intros E. rewrite E in Hlen. cbn in Hlen. lia. }
  assert (Hend : py_getitem preds (-1) = inl p) by (rewrite Hps; apply py_getitem_last).
  rewrite !Hend. cbn [and_then].
  destruct preds as [|p0 preds']; [cbn in Hlen; lia|].
  cbn [py_max_R py_min_R and_then].
  set (preds := p0 :: preds') in *.
  set (entries := map _ (seq 0 n)).
  eexists. eexists. split; [reflexivity|].
  assert (Hpred : map predicted entries = preds).
  { unfold entries. rewrite map_map. cbn [predicted]. rewrite <- Hlen. apply map_nth_seq. }
  assert (Hdate : map date entries = dates).
  { unfold entries. rewrite map_map. cbn [date]. rewrite <- Hd. apply map_nth_seq. }
  assert (Hband : forall e, In e entries ->
            confidence_lower e = predicted e - predicted e * (5 / 100) /\
            confidence_upper e = predicted e + predicted e * (5 / 100)).
  { intros e He. unfold entries in He. apply in_map_iff in He.
    destruct He as [i [<- Hi]]. apply in_seq in Hi.
    cbn [confidence_lower confidence_upper predicted]. unfold lower, upper. split.
    - rewrite (nth_map_in (fun pred => pred - pred * (5 / 100)) preds i 0 0) by lia.
      reflexivity.
    - rewrite (nth_map_in (fun pred => pred + pred * (5 / 100)) preds i 0 0) by lia.
      reflexivity. }
  assert (Hin : forall v, In v preds <-> exists e, In e entries /\ predicted e = v).
  { intros v. rewrite <- Hpred, in_map_iff. split; intros [e [A B]]; exists e; tauto. }
  unfold forecast_ok.
  cbn [model_name predictions summary start_price end_price total_return max_price
       min_price].
  split; [reflexivity|]. split; [exact Hdate|]. split; [exact Hband|].
  split; [reflexivity|]. split; [|split; [reflexivity|]].
  - destruct (exists_last (l := entries)) as [es [e He]].
    { intros E. apply (f_equal (@length _)) in E. unfold entries in E.
      rewrite length_map, length_seq in E. cbn in E. lia. }
    exists es, e. split; [exact He|].
    assert (Hx : map predicted (es ++ [e]) = ps ++ [p]) by (rewrite <- He, Hpred; exact Hps).
    rewrite map_app in Hx. cbn [map] in Hx. apply app_inj_tail in Hx. now destruct Hx.
  - destruct (fold_Rmax_spec preds' p0) as [M1 [M2 M3]].
    destruct (fold_Rmin_spec preds' p0) as [m1 [m2 m3]].
    split; [|split].
    + intros e He.
      assert (Hv : In (predicted e) preds) by (apply Hin; now exists e).
      destruct Hv as [<-|Hv]; [lra|]. specialize (M2 _ Hv). specialize (m2 _ Hv). lra.
    + apply Hin in M3. destruct M3 as [e [He Hv]]. now exists e.
    + apply Hin in m3. destruct m3 as [e [He Hv]]. now exists e.
Qed.

(** With a horizon of zero days or less there is no last prediction. *)
Lemma mock_forecast_raises (today : Z) (name : string) (hz : Z) (st : rng) :
  (hz <= 0)%Z ->
  exists st', _generate_mock_forecast today name hz st =
              (raised (IndexError "list index out of range"), st').
Proof.
  intros Hh. unfold _generate_mock_forecast.
  destruct (uniform (- (1 / 100)) (2 / 100) st) as [trend st1].
  assert (Hr : py_range_int hz = []).
  { unfold py_range_int. replace (Z.to_nat hz) with 0%nat by lia. reflexivity. }
  rewrite Hr. cbn [predict map prediction_entries and_then].
  rewrite py_getitem_nil. eexists. reflexivity.
Qed.

(** ** The loops *)

Lemma forecast_loop_ok (today : Z) (aid : string) (stored : dict ModelResult)
    (names : list string) (hz : Z) (acc : dict ForecastData) (st : rng) :
  (1 <= hz)%Z ->
  exists fs st',
    forecast_loop today aid stored names hz acc st =
      (inl fs, st',
       map (not_found_warning aid) (filter (fun m => negb (dict_mem m stored)) names)) /\
    (forall k, In k (dict_keys fs) <->
               In k (dict_keys acc) \/ (In k names /\ dict_mem k stored = true)) /\
    (NoDup (dict_keys acc) -> NoDup (dict_keys fs)) /\
    (forall k f, In (k, f) fs ->
       In (k, f) acc \/ (In k names /\ forecast_ok today hz k f)).
Proof.
  intros Hh. revert acc st. induction names as [|m names IH]; intros acc st.
  - exists acc, st. split; [reflexivity|]. split; [|split; [auto|auto]].
    intros k. split; [auto|]. intros [Hk|[[] _]]. exact Hk.
  - cbn [forecast_loop filter]. destruct (dict_mem m stored) eqn:Em; cbn [negb].
    + destruct (mock_forecast_ok today m hz st Hh) as [f [st1 [Ef Hf]]]. rewrite Ef.
      destruct (IH (dict_set m f acc) st1) as [fs [st' [E [Hk [Hnd Hin]]]]].
      exists fs, st'. split; [exact E|]. split; [|split].
      * intros k. rewrite Hk, dict_keys_set_In. split.
        -- intros [[->|Hacc]|[Hn Hs]].
           ++ right. split; [now left|exact Em].
           ++ now left.
           ++ right. split; [now right|exact Hs].
        -- intros [Hacc|[[<-|Hn] Hs]].
           ++ left. now right.
           ++ left. now left.
           ++ right. now split.
      * intros Hacc. apply Hnd. now apply dict_keys_set_NoDup.
      * intros k f' Hkf. destruct (Hin k f' Hkf) as [Hacc|[Hn Hok]].
        -- apply dict_set_In_inv_key in Hacc. destruct Hacc as [[-> ->]|Hacc].
           ++ right. split; [now left|exact Hf].
           ++ now left.
        -- right. split; [now right|exact Hok].
    + destruct (IH acc st) as [fs [st' [E [Hk [Hnd Hin]]]]]. rewrite E.
      exists fs, st'. split; [reflexivity|]. split; [|split].
      * intros k. rewrite Hk. split.
        -- intros [Hacc|[Hn Hs]]; [now left|right; split; [now right|exact Hs]].
        -- intros [Hacc|[[<-|Hn] Hs]]; [now left|congruence|right; now split].
      * exact Hnd.
      * intros k f' Hkf. destruct (Hin k f' Hkf) as [Hacc|[Hn Hok]]; [now left|].
        right. split; [now right|exact Hok].
Qed.

Lemma forecast_loop_nonpos (today : Z) (aid : string) (stored : dict ModelResult)
    (names : list string) (hz : Z) (acc : dict ForecastData) (st : rng) :
  (hz <= 0)%Z ->
  (filter (fun m => dict_mem m stored) names = [] ->
   forecast_loop today aid stored names hz acc st =
     (inl acc, st, map (not_found_warning aid) names)) /\
  (filter (fun m => dict_mem m stored) names <> [] ->
   exists st' log,
     forecast_loop today aid stored names hz acc st =
       (raised (IndexError "list index out of range"), st', log)).
Proof.
  intros Hh. induction names as [|m names [IH1 IH2]]; cbn [forecast_loop filter].
  - split; [reflexivity|easy].
  - destruct (dict_mem m stored) eqn:Em; cbn [negb].
    + split; [discriminate|]. intros _.
      destruct (mock_forecast_raises today m hz st Hh) as [st1 E]. rewrite E.
      eexists. eexists. reflexivity.
    + split.
      * intros Hf. rewrite (IH1 Hf). reflexivity.
      * intros Hf. destruct (IH2 Hf) as [st' [log E]]. rewrite E.
        eexists. eexists. reflexivity.
Qed.

Lemma export_loop_ok (today : Z) (names : list string) (acc : dict ForecastData)
    (st : rng) :
  exists fs st',
    export_loop today names acc st = (inl fs, st') /\
    (forall k, In k (dict_keys fs) <-> In k (dict_keys acc) \/ In k names) /\
    (NoDup (dict_keys acc) -> NoDup (dict_keys fs)) /\
    (forall k f, In (k, f) fs -> In (k, f) acc \/ (In k names /\ forecast_ok today 7 k f)).
Proof.
  revert acc st. induction names as [|m names IH]; intros acc st; cbn [export_loop].
  - exists acc, st. split; [reflexivity|]. split; [|split; [auto|auto]].
    intros k. split; [auto|]. intros [Hk|[]]. exact Hk.
  - destruct (mock_forecast_ok today m 7 st ltac:(lia)) as [f [st1 [Ef Hf]]]. rewrite Ef.
    destruct (IH (dict_set m f acc) st1) as [fs [st' [E [Hk [Hnd Hin]]]]].
    exists fs, st'. split; [exact E|]. split; [|split].
    + intros k. rewrite Hk, dict_keys_set_In. cbn [In]. split.
      * intros [[->|Hacc]|Hn]; auto.
      * intros [Hacc|[<-|Hn]]; auto.
    + intros Hacc. apply Hnd. now apply dict_keys_set_NoDup.
    + intros k f' Hkf. destruct (Hin k f' Hkf) as [Hacc|[Hn Hok]].
      * apply dict_set_In_inv_key in Hacc. destruct Hacc as [[-> ->]|Hacc].
        -- right. split; [now left|exact Hf].
        -- now left.
      * right. split; [now right|exact Hok].
Qed.

Lemma filter_none_stored (stored : dict ModelResult) (names : list string) :
  filter (fun m => dict_mem m stored) names = [] ->
  filter (fun m => negb (dict_mem m stored)) names = names /\
  forall k, In k names -> dict_mem k stored = false.
Proof.
  induction names as [|m names IH]; cbn [filter]; [easy|].
  destruct (dict_mem m stored) eqn:Em; [discriminate|]. cbn [negb].
  intros Hf. destruct (IH Hf) as [E Hall]. rewrite E. split; [reflexivity|].
  intros k [<-|Hk]; [exact Em|now apply Hall].
Qed.

(** What a returned forecast looks like. *)
Lemma generate_forecast_inv (today now : Z) (aid : string) (names : list string)
    (hz : Z) (results : dict Analysis) (st st' : rng) (out : ForecastOutput)
    (log : list string) :
  generate_forecast today now aid names hz results st = (inl out, st', log) ->
  exists a,
    dict_get aid results = Some a /\
    fc_analysis_id out = aid /\ horizon out = hz /\ generated_at out = now /\
    NoDup (dict_keys (forecasts out)) /\
    (forall k, In k (dict_keys (forecasts out)) <->
               In k names /\ dict_mem k (Store.models a) = true) /\
    log = map (not_found_warning aid)
              (filter (fun m => negb (dict_mem m (Store.models a))) names) /\
    (forall k f, In (k, f) (forecasts out) -> (1 <= hz)%Z /\ forecast_ok today hz k f).
Proof.
  unfold generate_forecast. destruct (dict_get aid results) as [a|]; [|discriminate].
  intros Hrun. exists a. split; [reflexivity|].
  destruct (Z_le_gt_dec 1 hz) as [Hh|Hh].
  - destruct (forecast_loop_ok today aid (Store.models a) names hz [] st Hh)
      as [fs [st1 [E [Hk [Hnd Hin]]]]].
    rewrite E in Hrun. cbn [and_then] in Hrun. injection Hrun as <- _ <-.
    cbn [fc_analysis_id horizon generated_at forecasts].
    split; [reflexivity|]. split; [reflexivity|]. split; [reflexivity|].
    split; [apply Hnd; constructor|]. split; [|split; [reflexivity|]].
    + intros k. rewrite Hk. cbn. tauto.
    + intros k f Hkf. destruct (Hin k f Hkf) as [[]|[_ Hok]]. now split.
  - destruct (forecast_loop_nonpos today aid (Store.models a) names hz [] st ltac:(lia))
      as [Hnone Hsome].
    destruct (filter (fun m => dict_mem m (Store.models a)) names) as [|m l] eqn:Ef.
    + rewrite (Hnone eq_refl) in Hrun. cbn [and_then] in Hrun.
      injection Hrun as <- _ <-.
      cbn [fc_analysis_id horizon generated_at forecasts].
      destruct (filter_none_stored _ _ Ef) as [En Hall].
      split; [reflexivity|]. split; [reflexivity|]. split; [reflexivity|].
      split; [constructor|]. split; [|split; [now rewrite En|easy]].
      intros k. split; [easy|]. intros [Hk Hs]. rewrite (Hall k Hk) in Hs. discriminate.
    + destruct (Hsome ltac:(discriminate)) as [st1 [log1 E]]. rewrite E in Hrun.
      discriminate.
Qed.


(** X24. A returned forecast names the analysis, the horizon and the
    time stamp it was asked with, and holds one forecast for each
    requested model that is stored, under that model's name and
    carrying it; every forecast has exactly [horizon] predictions,
    dated today, tomorrow, and so on; and each requested model that is
    not stored is skipped with one warning. *)
Theorem forecast_covers_stored_models (today now : Z) (aid : string)
    (names : list string) (hz : Z) (results : dict Analysis) (st st' : rng)
    (out : ForecastOutput) (log : list string) :
  generate_forecast today now aid names hz results st = (inl out, st', log) ->
  exists a,
    dict_get aid results = Some a /\
    fc_analysis_id out = aid /\ horizon out = hz /\ generated_at out = now /\
    NoDup (dict_keys (forecasts out)) /\
    (forall k, In k (dict_keys (forecasts out)) <->
               In k names /\ dict_mem k (Store.models a) = true) /\
    log = map (not_found_warning aid)
              (filter (fun m => negb (dict_mem m (Store.models a))) names) /\
    (forall k f, In (k, f) (forecasts out) ->
       model_name f = k /\
       Z.of_nat (length (predictions f)) = hz /\
       forall i p, nth_error (predictions f) i = Some p ->
                   date p = (today + Z.of_nat i)%Z).
Proof.
  intros Hrun.
  destruct (generate_forecast_inv _ _ _ _ _ _ _ _ _ _ Hrun)
    as [a [Ha [Hid [Hhz [Hnow [Hnd [Hk [Hlog Hall]]]]]]]].
  exists a. repeat (split; [assumption|]).
  intros k f Hkf. destruct (Hall k f Hkf) as [Hh [Hname [Hdates _]]].
  split; [exact Hname|].
  assert (Hlen : length (predictions f) = Z.to_nat hz).
  { rewrite <- (length_map date), Hdates, length_map. apply py_range_int_length. }
  split; [lia|].
  intros i p Hp.
  assert (Hi : (i < length (predictions f))%nat)
    by (apply nth_error_Some; now rewrite Hp).
  assert (Hd : nth_error (map date (predictions f)) i = Some (date p))
    by (rewrite nth_error_map, Hp; reflexivity).
  rewrite Hdates in Hd. unfold py_range_int in Hd.
  rewrite !nth_error_map, nth_error_seq in Hd.
  assert (Hlt : (i <? Z.to_nat hz)%nat = true) by (apply Nat.ltb_lt; lia).
  rewrite Hlt in Hd. cbn in Hd. now injection Hd as <-.
Qed.

(** X25. In every returned forecast the confidence bounds lie 5 % of
    the prediction below and above it, so the band has a width of a
    tenth of the prediction and brackets every non-negative prediction;
    the summary starts at the base price 186.72, ends at the last
    prediction, reports the return between the two in per cent, and
    its minimum and maximum price are the smallest and the largest
    prediction. *)
Theorem forecast_band_and_summary (today now : Z) (aid : string)
    (names : list string) (hz : Z) (results : dict Analysis) (st st' : rng)
    (out : ForecastOutput) (log : list string) (k : string) (f : ForecastData) :
  generate_forecast today now aid names hz results st = (inl out, st', log) ->
  In (k, f) (forecasts out) ->
  (forall p, In p (predictions f) ->
     confidence_lower p = predicted p * (95 / 100) /\
     confidence_upper p = predicted p * (105 / 100) /\
     confidence_upper p - confidence_lower p = predicted p / 10 /\
     (0 <= predicted p -> confidence_lower p <= predicted p <= confidence_upper p) /\
     min_price (summary f) <= predicted p <= max_price (summary f)) /\
  start_price (summary f) = 18672 / 100 /\
  (exists ps p, predictions f = ps ++ [p] /\ end_price (summary f) = predicted p) /\
  total_return (summary f) =
    (end_price (summary f) - start_price (summary f)) / start_price (summary f) * 100 /\
  (0 < total_return (summary f) <-> start_price (summary f) < end_price (summary f)) /\
  (exists p, In p (predictions f) /\ predicted p = max_price (summary f)) /\
  (exists p, In p (predictions f) /\ predicted p = min_price (summary f)).
Proof.
  intros Hrun Hkf.
  destruct (generate_forecast_inv _ _ _ _ _ _ _ _ _ _ Hrun)
    as [a [_ [_ [_ [_ [_ [_ [_ Hall]]]]]]]].
  destruct (Hall k f Hkf)
    as [_ [_ [_ [Hband [Hstart [Hend [Hret [Hrange [Hmax Hmin]]]]]]]]].
  unfold base_price in *.
  split; [|split; [exact Hstart|split; [exact Hend|split; [|split; [|split]]]]].
  - intros p Hp. destruct (Hband p Hp) as [Hlo Hup]. specialize (Hrange p Hp).
    rewrite Hlo, Hup. repeat split; try lra.
  - rewrite Hret, Hstart. reflexivity.
  - rewrite Hret, Hstart. split; intros Hx; lra.
  - exact Hmax.
  - exact Hmin.
Qed.

(** X26. [export_json] raises only for an analysis that is not stored.
    For the data type "forecast" it returns, in an envelope, one forecast
    of seven days for each stored model and never fails on them; for
    "full" it returns the stored analysis in an envelope; for every
    other data type it returns the stored analysis itself, without an
    envelope and without drawing a random number. *)
Theorem export_json_shapes (today now : Z) (aid data_type : string)
    (results : dict Analysis) (st : rng) :
  match dict_get aid results with
  | None =>
      export_json today now aid data_type results st =
      (raised (Std (ValueError (String.append "Analysis "
                                  (String.append aid " not found")))), st)
  | Some a =>
      (data_type = "forecast" ->
       exists fs st',
         export_json today now aid data_type results st =
           (inl (ForecastExport aid data_type fs now), st') /\
         NoDup (dict_keys fs) /\
         (forall k, In k (dict_keys fs) <-> In k (dict_keys (Store.models a))) /\
         (forall k f, In (k, f) fs ->
            model_name f = k /\ length (predictions f) = 7%nat)) /\
      (data_type = "full" ->
       export_json today now aid data_type results st =
         (inl (FullExport aid data_type a now), st)) /\
      (data_type <> "forecast" -> data_type <> "full" ->
       export_json today now aid data_type results st = (inl (StoredAnalysis a), st))
  end.
Proof.
  unfold export_json. destruct (dict_get aid results) as [a|]; [|reflexivity].
  split; [|split].
  - intros ->. cbn [String.eqb Ascii.eqb Bool.eqb].
    destruct (export_loop_ok today (dict_keys (Store.models a)) [] st)
      as [fs [st' [E [Hk [Hnd Hin]]]]].
    rewrite E. cbn [and_then]. exists fs, st'. split; [reflexivity|].
    split; [apply Hnd; constructor|]. split.
    + intros k. rewrite Hk. cbn. tauto.
    + intros k f Hkf. destruct (Hin k f Hkf) as [[]|[_ [Hname [Hdates _]]]].
      split; [exact Hname|].
      rewrite <- (length_map date), Hdates, length_map. apply py_range_int_length.
  - intros ->. reflexivity.
  - intros H1 H2. apply String.eqb_neq in H1, H2. now rewrite H1, H2.
Qed.

End Forecast.

Lemma forecast_covers_stored_models_witness :
  exists out st' log,
    @generate_forecast constant_rng 0 0 "a1" ["arima"; "lstm"] 3
       [("a1", sample_analysis)] tt = (inl out, st', log) /\
    dict_keys (forecasts out) = ["arima"] /\
    log = ["Model lstm not found in analysis a1"].
Proof.
  assert (Hex : exists out st' log,
            @generate_forecast constant_rng 0 0 "a1" ["arima"; "lstm"] 3
              [("a1", sample_analysis)] tt = (inl out, st', log)).
  { unfold generate_forecast. cbn [dict_get String.eqb Ascii.eqb Bool.eqb].
    destruct (@forecast_loop_ok constant_rng 0 "a1" (Store.models sample_analysis)
                ["arima"; "lstm"] 3 [] tt ltac:(lia)) as [fs [st1 [E _]]].
    rewrite E. eexists. eexists. eexists. reflexivity. }
  destruct Hex as [out [st' [log Hrun]]].
  exists out, st', log. split; [exact Hrun|].
  destruct (@forecast_covers_stored_models constant_rng 0 0 "a1" ["arima"; "lstm"] 3
              [("a1", sample_analysis)] tt st' out log Hrun)
    as [a [Ha [_ [_ [_ [Hnd [Hk [Hlog _]]]]]]]].
  injection Ha as <-. split; [|exact Hlog].
  destruct (dict_keys (forecasts out)) as [|k1 [|k2 l]] eqn:Ek.
  - exfalso. apply (proj2 (Hk "arima")). split; [now left|reflexivity].
  - f_equal. destruct (proj1 (Hk k1) (or_introl eq_refl)) as [[<-|[<-|[]]] Hs];
      [reflexivity|discriminate].
  - exfalso.
    destruct (proj1 (Hk k1) (or_introl eq_refl)) as [[<-|[<-|[]]] H1]; try discriminate.
    destruct (proj1 (Hk k2) (or_intror (or_introl eq_refl))) as [[<-|[<-|[]]] H2];
      try discriminate.
    inversion Hnd as [|x l' Hn _]; subst. apply Hn. now left.
Defined.

Lemma forecast_band_and_summary_witness :
  exists out st' log f,
    @generate_forecast constant_rng 0 0 "a1" ["arima"] 3
       [("a1", sample_analysis)] tt = (inl out, st', log) /\
    In ("arima", f) (forecasts out) /\
    start_price (summary f) = 18672 / 100.
Proof.
  assert (Hex : exists out st' log,
            @generate_forecast constant_rng 0 0 "a1" ["arima"] 3
              [("a1", sample_analysis)] tt = (inl out, st', log)).
  { unfold generate_forecast. cbn [dict_get String.eqb Ascii.eqb Bool.eqb].
    destruct (@forecast_loop_ok constant_rng 0 "a1" (Store.models sample_analysis)
                ["arima"] 3 [] tt ltac:(lia)) as [fs [st1 [E _]]].
    rewrite E. eexists. eexists. eexists. reflexivity. }
  destruct Hex as [out [st' [log Hrun]]].
  destruct (@generate_forecast_inv constant_rng 0 0 "a1" ["arima"] 3
              [("a1", sample_analysis)] tt st' out log Hrun)
    as [a [Ha [_ [_ [_ [_ [Hk _]]]]]]].
  injection Ha as <-.
  assert (Hin : In "arima" (dict_keys (forecasts out))).
  { apply Hk. split; [now left|reflexivity]. }
  destruct (dict_get_Some_key _ _ Hin) as [f Hf]. apply dict_get_In in Hf.
  exists out, st', log, f. split; [exact Hrun|]. split; [exact Hf|].
  exact (proj1 (proj2 (@forecast_band_and_summary constant_rng 0 0 "a1" ["arima"] 3
                         [("a1", sample_analysis)] tt st' out log "arima" f Hrun Hf))).
Defined.

End ForecastFacts.

(* ================================================================== *)
(** * Part XXXIV. The cache of fetch_stock_data *)
(* ================================================================== *)

Module CacheFacts.
Import StockData PyFacts DictFacts.

Lemma timedelta_seconds_shift (t k s : Z) :
  (0 <= s < microseconds_per_day)%Z ->
  timedelta_seconds (t + k * microseconds_per_day + s) t = (s / 1000000)%Z.
Proof.
  intros Hs. unfold timedelta_seconds.
  replace (t + k * microseconds_per_day + s - t)%Z
    with (s + k * microseconds_per_day)%Z by ring.
  rewrite Z.mod_add by (unfold microseconds_per_day; lia).
  now rewrite Z.mod_small.
Qed.

Section Fetch.
Context {D : Type}.
Variable download :
  forall (ticker start_date end_date interval yf_interval : string), result D.

(** X27. The cache of [fetch_stock_data] tests the seconds component
    of the age of an entry, not the age: an entry is served from the
    cache, without a download and without being refreshed, whenever
    its age is some whole number of days plus less than five minutes.
    So an entry older than five minutes is refetched only until it is
    a day old, and then served again for five minutes every day. In
    the rest of each day the data is downloaded and, if the download
    succeeds, stored with the new time stamp. *)
Theorem stale_entry_served_after_a_day (cache : dict (CacheEntry D))
    (now stored_at : Z) (ticker start_date end_date interval : string)
    (entry : CacheEntry D) (k s : Z) :
  let yf_interval := _convert_interval interval in
  let cache_key := make_cache_key ticker start_date end_date yf_interval in
  dict_get cache_key cache = Some entry ->
  now = (timestamp entry + k * microseconds_per_day + s)%Z ->
  (0 <= s < microseconds_per_day)%Z ->
  ((s < 300 * 1000000)%Z ->
   fetch_stock_data download cache now stored_at ticker start_date end_date interval
   = (Ok (data entry), cache)) /\
  ((300 * 1000000 <= s)%Z ->
   fetch_stock_data download cache now stored_at ticker start_date end_date interval
   = match download ticker start_date end_date interval yf_interval with
     | Ok result =>
         (Ok result,
          dict_set cache_key {| data := result; timestamp := stored_at |} cache)
     | Raise e => (Raise e, cache)
     end).
Proof.
  intros yf_interval cache_key Hget Hnow Hs.
  assert (Hc : _is_cached cache now cache_key = (s / 1000000 <? cache_ttl)%Z).
  { unfold _is_cached. rewrite Hget, Hnow. now rewrite timedelta_seconds_shift. }
  unfold fetch_stock_data. fold yf_interval. fold cache_key. rewrite Hc. split.
  - intros Hlt.
    assert (E : (s / 1000000 <? cache_ttl)%Z = true).
    { apply Z.ltb_lt. unfold cache_ttl. apply Z.div_lt_upper_bound; lia. }
    rewrite E. unfold dict_index. rewrite Hget. reflexivity.
  - intros Hge.
    assert (E : (s / 1000000 <? cache_ttl)%Z = false).
    { apply Z.ltb_ge. unfold cache_ttl. apply Z.div_le_lower_bound; lia. }
    rewrite E. reflexivity.
Qed.

End Fetch.

(** An entry stored at time 0 is served one day and one second later. *)
Lemma stale_entry_served_after_a_day_witness :
  fetch_stock_data (fun _ _ _ _ _ => Ok 1%nat)
    [("ACME_2024-01-01_2024-02-01_1d", {| data := 0%nat; timestamp := 0 |})]
    86401000000 86401000000 "ACME" "2024-01-01" "2024-02-01" "1 Day"
  = (Ok 0%nat,
     [("ACME_2024-01-01_2024-02-01_1d", {| data := 0%nat; timestamp := 0 |})]).
Proof.
  apply (@stale_entry_served_after_a_day nat (fun _ _ _ _ _ => Ok 1%nat)
           [("ACME_2024-01-01_2024-02-01_1d", {| data := 0%nat; timestamp := 0 |})]
           86401000000 86401000000 "ACME" "2024-01-01" "2024-02-01" "1 Day"
           {| data := 0%nat; timestamp := 0 |} 1 1000000).
  - reflexivity.
  - reflexivity.
  - unfold microseconds_per_day. lia.
  - lia.
Defined.

End CacheFacts.
